(** * Preference-pair datasets of [openrlhf/datasets/reward_dataset.py]

    A shallow embedding of [preprocess_data], [RewardDataset] and
    [QwenRewardDataset] together with the properties of the tokenised
    sides, the loss masks and the padded and packed batches.

    Conventions.
    - A Python exception is a value of [exn]; a computation that may raise
      has type [result A].
    - Token ids, mask values and segment ids are [int64] entries, kept as
      [Z]; positions and lengths are [nat].
    - The tokenizer and the processor are called on one string with
      [return_tensors="pt"], so each tensor they return has shape [1, n];
      such a tensor is represented by its only row, a [list Z].  The loops
      [for i in range(len(t))] over the first dimension therefore run once.
    - [True] stored into an integer tensor is the entry [1]. *)

From Stdlib Require Import ZArith Lia.
From stdpp Require Import base numbers option list gmap strings.

(** ** Python values, exceptions and local variables *)

Inductive exn :=
  | IndexError
  | KeyError
  | TypeError
  | ValueError
  | UnboundLocalError
  | AssertionError
  | AttributeError
  | RuntimeError.

Inductive result (A : Type) :=
  | Ok (a : A)
  | Raise (e : exn).
Arguments Ok {A} a.
Arguments Raise {A} e.

#[global] Instance result_ret : MRet result := fun A a => Ok a.
#[global] Instance result_bind : MBind result := fun A B f m =>
  match m with
  | Ok a => f a
  | Raise e => Raise e
  end.

Definition is_ok {A} (r : result A) : bool :=
  match r with
  | Ok _ => true
  | Raise _ => false
  end.

(** Left-to-right iteration of a loop body that may raise. *)
Fixpoint foldM {A S} (body : S → A → result S) (s : S) (l : list A) : result S :=
  match l with
  | [] => Ok s
  | a :: l' => s' ← body s a; foldM body s' l'
  end.

Fixpoint mapM_result {A B} (f : A → result B) (l : list A) : result (list B) :=
  match l with
  | [] => Ok []
  | a :: l' => b ← f a; bs ← mapM_result f l'; Ok (b :: bs)
  end.

(** The content entries of a multimodal turn are dictionaries from field
    names to strings, numbers or [None]. *)
Inductive atom :=
  | ANone
  | AInt (z : Z)
  | AStr (s : string).

#[global] Instance atom_eq_dec : EqDecision atom.
Proof. solve_decision. Defined.

Inductive content :=
  | CStr (s : string)
  | CParts (ms : list (gmap string atom)).

Record turn := Turn { role : string; turn_content : content }.

(** Values of the fields of a raw record. *)
Inductive pyval :=
  | PNone
  | PInt (z : Z)
  | PStr (s : string)
  | PConv (turns : list turn).

(** A local variable of a Python function: not yet assigned, [None], or an
    index. *)
Inductive local_var :=
  | Unbound
  | BoundNone
  | BoundInt (n : nat).

(** ** Strings *)

Definition newline : Ascii.ascii := Ascii.ascii_of_nat 10.

(** [s.rstrip("\n")] *)
Fixpoint rstrip_newline (s : string) : string :=
  match s with
  | EmptyString => EmptyString
  | String c s' =>
      match rstrip_newline s' with
      | EmptyString => if decide (c = newline) then EmptyString else String c EmptyString
      | r => String c r
      end
  end.

(** [s.endswith(suffix)] *)
Definition endswith (s suffix : string) : bool :=
  bool_decide (String.length suffix ≤ String.length s) &&
  bool_decide (String.substring (String.length s - String.length suffix)
                 (String.length suffix) s = suffix).

(** [s[n:]] *)
Definition str_from (n : nat) (s : string) : string :=
  String.substring n (String.length s - n) s.

(** ** Tensors of shape [1, n] *)

Abbreviation row := (list Z).

Definition py_True : Z := 1.

(** [torch.zeros_like(t)] *)
Definition zeros_like (t : row) : row := replicate (length t) 0%Z.

(** [t[0][-1] = v]; an empty row has no last position. *)
Definition set_last (t : row) (v : Z) : result row :=
  match t with
  | [] => Raise IndexError
  | _ => Ok (<[length t - 1 := v]> t)
  end.

(** [torch.where(t == v)[0]]: the positions holding [v], increasing;
    [i] is the position of the head of [t]. *)
Fixpoint where_eq (v : Z) (t : row) (i : nat) : list nat :=
  match t with
  | [] => []
  | x :: t' =>
      if decide (x = v) then i :: where_eq v t' (S i) else where_eq v t' (S i)
  end.

(** [t[start:stop] = v]; a slice is clipped to the row, and it is empty
    when [stop <= start]. *)
Definition assign_slice (t : row) (start stop : nat) (v : Z) : row :=
  imap (fun p x => if decide (start ≤ p < stop) then v else x) t.

(** The scan
    [for j in range(start_id, len(t)): if t[j] == eos: end_id = j; break];
    [Some j] when the assignment is reached. [j] is the position of the
    head of the remaining row. *)
Fixpoint scan_eos (eos : Z) (rest : row) (j : nat) : option nat :=
  match rest with
  | [] => None
  | x :: rest' => if decide (x = eos) then Some j else scan_eos eos rest' (S j)
  end.

Definition find_eos (ids : row) (eos : Z) (start_id : nat) : option nat :=
  scan_eos eos (drop start_id ids) start_id.

(** ** The tokenizer *)

Record BatchEncoding := {
  input_ids : row;
  attention_mask : row
}.

(** The external tokenizer: [tok_call text max_length] is
    [tokenizer(text, max_length=..., padding=False, truncation=True,
    return_tensors="pt", add_special_tokens=False)], with [None] for a call
    that gives no [max_length]; [render] is [apply_chat_template] with
    [tokenize=False], its arguments the chat template in force, the turns
    and [add_generation_prompt]. *)
Record Tokenizer := {
  tok_call : string → option Z → BatchEncoding;
  eos_token : string;
  eos_token_id : Z;
  pad_token_id : Z;
  chat_template : option string;
  render : option string → pyval → bool → result string
}.

(** ** The loss-mask locator

    The body of [for id in torch.where(ids == response_tokens[0])[0]].
    The four copies of the loop in the source differ in two places:
    - [reset]: whether [end_id = None] is executed before the scan (it is
      commented out in both loops over the chosen side);
    - [fallback]: whether [if end_id is None: end_id = len(ids) - 1]
      follows the scan (only in [QwenRewardDataset]).
    [end_id] is a local of [__getitem__], so its value survives from one
    iteration, and from one loop, to the next.  The body runs for a
    position of [ids] only, so [len(ids) - 1] is never negative there. *)
Definition mask_span_step (reset fallback : bool) (ids response_tokens : row) (eos : Z)
    (st : local_var * row) (id : nat) : result (local_var * row) :=
  let '(end_id, loss_mask) := st in
  let window := take (length response_tokens) (drop id ids) in
  if bool_decide (length window = length response_tokens)
     && bool_decide (window = response_tokens)
  then
    let start_id := id + length response_tokens in
    let end_id := if reset then BoundNone else end_id in
    let end_id :=
      match find_eos ids eos start_id with
      | Some j => BoundInt j
      | None => end_id
      end in
    end_id ←
      (if fallback then
         match end_id with
         | Unbound => Raise UnboundLocalError
         | BoundNone => Ok (BoundInt (length ids - 1))
         | BoundInt _ => Ok end_id
         end
       else Ok end_id);
    stop ←
      match end_id with
      | Unbound => Raise UnboundLocalError
      | BoundNone => Raise TypeError
      | BoundInt e => Ok (e + 1)
      end;
    Ok (end_id, assign_slice loss_mask start_id stop 1)
  else Ok st.

(** One [for i in range(len(ids))] loop of [__getitem__] over a side;
    [response_tokens[0]] raises on an empty template. *)
Definition locate_spans (reset fallback : bool) (ids response_tokens : row) (eos : Z)
    (st : local_var * row) : result (local_var * row) :=
  first ← match response_tokens with
          | [] => Raise IndexError
          | t :: _ => Ok t
          end;
  foldM (mask_span_step reset fallback ids response_tokens eos) st (where_eq first ids 0).

(** ** The example normalizer: [preprocess_data] *)

(** [d[key]] on a raw record; the key names come from [getattr(args, ...,
    None)], and [None] is never a key of a record. *)
Definition py_getitem (d : gmap string pyval) (key : option string) : result pyval :=
  match key with
  | Some k =>
      match d !! k with
      | Some v => Ok v
      | None => Raise KeyError
      end
  | None => Raise KeyError
  end.

(** Truth value of an optional string. *)
Definition truthy_key (key : option string) : bool :=
  match key with
  | Some k => negb (bool_decide (k = EmptyString))
  | None => false
  end.

(** [a + b] *)
Definition py_add (a b : pyval) : result pyval :=
  match a, b with
  | PConv x, PConv y => Ok (PConv (x ++ y))
  | PStr x, PStr y => Ok (PStr (x +:+ y))
  | PInt x, PInt y => Ok (PInt (x + y))
  | _, _ => Raise TypeError
  end.

(** [a[:-1]] *)
Definition py_drop_last (a : pyval) : result pyval :=
  match a with
  | PConv x => Ok (PConv (take (length x - 1) x))
  | PStr s => Ok (PStr (String.substring 0 (String.length s - 1) s))
  | _ => Raise TypeError
  end.

(** Modelled from the spec: [exist_and_not_none] of [utils.py], which is
    not part of the sources; the margin "defaults to 0 when the field is
    absent", and the name of the helper says that a field holding [None]
    counts as absent. *)
Definition exist_and_not_none (d : gmap string pyval) (key : string) : bool :=
  match d !! key with
  | Some PNone => false
  | Some _ => true
  | None => false
  end.

Record Normalized := {
  n_prompt : pyval;
  n_chosen : pyval;
  n_rejected : pyval;
  n_margin : pyval
}.

(** [input_template] is given by its [format] method, which raises on a
    template that asks for more than the one positional argument or is
    malformed, and is [None] for a missing or empty template;
    [apply_chat_template] is [None] when the argument is false. *)
Definition preprocess_data (data : gmap string pyval)
    (input_template : option (pyval → result string))
    (prompt_key chosen_key rejected_key : option string)
    (apply_chat_template : option (pyval → bool → result string))
    (is_dpo : bool) : result Normalized :=
  '(prompt, chosen, rejected) ←
    match apply_chat_template with
    | Some act =>
        if truthy_key prompt_key then
          p ← py_getitem data prompt_key;
          prompt ← act p true;
          p ← py_getitem data prompt_key;
          c ← py_getitem data chosen_key;
          pc ← py_add p c;
          chosen ← act pc false;
          let chosen := str_from (String.length prompt) chosen in
          p ← py_getitem data prompt_key;
          r ← py_getitem data rejected_key;
          pr ← py_add p r;
          rejected ← act pr false;
          let rejected := str_from (String.length prompt) rejected in
          Ok (PStr prompt, PStr chosen, PStr rejected)
        else
          let prompt := EmptyString in
          c ← py_getitem data chosen_key;
          chosen ← act c false;
          r ← py_getitem data rejected_key;
          rejected ← act r false;
          if is_dpo then
            c ← py_getitem data chosen_key;
            c' ← py_drop_last c;
            prompt ← act c' true;
            Ok (PStr prompt,
                PStr (str_from (String.length prompt) chosen),
                PStr (str_from (String.length prompt) rejected))
          else Ok (PStr prompt, PStr chosen, PStr rejected)
    | None =>
        prompt ←
          (if truthy_key prompt_key then
             p ← py_getitem data prompt_key;
             match input_template with
             | Some format => prompt ← format p; Ok (PStr prompt)
             | None => Ok p
             end
           else Ok (PStr EmptyString));
        chosen ← py_getitem data chosen_key;
        rejected ← py_getitem data rejected_key;
        Ok (prompt, chosen, rejected)
    end;
  let margin :=
    if exist_and_not_none data "margin" then default PNone (data !! "margin")
    else PInt 0 in
  Ok {| n_prompt := prompt; n_chosen := chosen; n_rejected := rejected;
        n_margin := margin |}.

(** ** [RewardDataset] *)

(** [strategy.args], read with [getattr(..., None)] and
    [getattr(..., False)]. *)
Record Args := {
  arg_prompt_key : option string;
  arg_chosen_key : option string;
  arg_rejected_key : option string;
  arg_apply_chat_template : bool;
  arg_tokenizer_chat_template : option string
}.

(** One row of the processed dataset: the dictionary returned by
    [process_data]. *)
Record Processed := {
  p_prompt : pyval;
  p_chosen : pyval;
  p_reject : pyval;
  p_extra : pyval
}.

Record RewardDataset := {
  is_dpo : bool;
  tokenizer : Tokenizer;
  max_length : Z;
  multiple_of : Z;
  input_template : option (pyval → result string);
  prompt_key : option string;
  chosen_key : option string;
  rejected_key : option string;
  apply_chat_template : bool;
  response_template : option string;
  prompts : list pyval;
  chosens : list pyval;
  rejects : list pyval;
  extras : list pyval
}.

(** [tokenizer(text, ...)] on a field of a record: only a string is
    tokenized. *)
Definition tokenize_value (tk : Tokenizer) (text : pyval) (max_len : option Z)
    : result BatchEncoding :=
  match text with
  | PStr s => Ok (tok_call tk s max_len)
  | _ => Raise ValueError
  end.

(** [t.int()]: the entries as 32-bit integers. *)
Definition to_int32 (z : Z) : Z := ((z + 2 ^ 31) mod 2 ^ 32 - 2 ^ 31)%Z.

(** [t.int().sum().item()] *)
Definition int_sum (t : row) : Z := foldr Z.add 0%Z (to_int32 <$> t).

(** The renderer handed to [preprocess_data]: the tokenizer's
    [apply_chat_template] when the flag is set. *)
Definition chat_renderer (self : RewardDataset) : option (pyval → bool → result string) :=
  if apply_chat_template self
  then Some (render (tokenizer self) (chat_template (tokenizer self)))
  else None.

Definition process_data (self : RewardDataset) (data : gmap string pyval)
    : result Processed :=
  n ← preprocess_data data (input_template self) (prompt_key self) (chosen_key self)
        (rejected_key self) (chat_renderer self) (is_dpo self);
  if is_dpo self then
    prompt_token ← tokenize_value (tokenizer self) (n_prompt n) (Some (max_length self));
    let prompt_ids_len := int_sum (attention_mask prompt_token) in
    let prompt :=
      if decide (max_length self - 2 ≤ prompt_ids_len)%Z then PNone else n_prompt n in
    Ok {| p_prompt := prompt; p_chosen := n_chosen n; p_reject := n_rejected n;
          p_extra := PInt prompt_ids_len |}
  else
    Ok {| p_prompt := n_prompt n; p_chosen := n_chosen n; p_reject := n_rejected n;
          p_extra := n_margin n |}.

(** [lambda x: x["prompt"] is not None] *)
Definition prompt_is_not_none (x : Processed) : bool :=
  match p_prompt x with
  | PNone => false
  | _ => true
  end.

(** The attributes that [__init__] sets before it loads the data; the
    chat template of the arguments is installed in the tokenizer when
    templates are applied. *)
Definition configure (tk : Tokenizer) (max_len : Z) (args : Args)
    (input_tpl : option (pyval → result string)) (dpo : bool) (mult : Z)
    (response_tpl : option string) : RewardDataset :=
  let tk :=
    if arg_apply_chat_template args then
      match arg_tokenizer_chat_template args with
      | Some t =>
          if bool_decide (t = EmptyString) then tk
          else {| tok_call := tok_call tk; eos_token := eos_token tk;
                  eos_token_id := eos_token_id tk; pad_token_id := pad_token_id tk;
                  chat_template := Some t; render := render tk |}
      | None => tk
      end
    else tk in
  {| is_dpo := dpo; tokenizer := tk; max_length := max_len; multiple_of := mult;
     input_template := input_tpl;
     prompt_key := arg_prompt_key args; chosen_key := arg_chosen_key args;
     rejected_key := arg_rejected_key args;
     apply_chat_template := arg_apply_chat_template args;
     response_template := response_tpl;
     prompts := []; chosens := []; rejects := []; extras := [] |}.

(** The four columns of the processed dataset, stored on the object. *)
Definition store (self : RewardDataset) (processed : list Processed) : RewardDataset :=
  {| is_dpo := is_dpo self; tokenizer := tokenizer self; max_length := max_length self;
     multiple_of := multiple_of self; input_template := input_template self;
     prompt_key := prompt_key self; chosen_key := chosen_key self;
     rejected_key := rejected_key self;
     apply_chat_template := apply_chat_template self;
     response_template := response_template self;
     prompts := p_prompt <$> processed; chosens := p_chosen <$> processed;
     rejects := p_reject <$> processed; extras := p_extra <$> processed |}.

(** [__init__]: [dataset.map(self.process_data)], then the filter on the
    prompt, then the columns.  On a dataset without rows [map] calls nothing
    and only removes the columns, [filter] returns the dataset as it is, and
    reading [processed_dataset["prompt"]] raises [KeyError]: there is no such
    column. *)
Definition RewardDataset_init (dataset : list (gmap string pyval)) (tk : Tokenizer)
    (max_len : Z) (args : Args) (input_tpl : option (pyval → result string))
    (dpo : bool) (mult : Z) (response_tpl : option string) : result RewardDataset :=
  let self := configure tk max_len args input_tpl dpo mult response_tpl in
  processed_dataset ← mapM_result (process_data self) dataset;
  let processed_dataset :=
    filter (fun x => prompt_is_not_none x = true) processed_dataset in
  match dataset with
  | [] => Raise KeyError
  | _ => Ok (store self processed_dataset)
  end.

(** [len(self)] *)
Definition RewardDataset_len (self : RewardDataset) : nat := length (chosens self).

(** [column[idx]] *)
Definition py_index {A} (l : list A) (idx : nat) : result A :=
  match l !! idx with
  | Some a => Ok a
  | None => Raise IndexError
  end.

(** [(prompt + answer).rstrip("\n")] *)
Definition join_and_strip (prompt answer : pyval) : result string :=
  match prompt, answer with
  | PStr p, PStr a => Ok (rstrip_newline (p +:+ a))
  | PConv _, PConv _ => Raise AttributeError
  | PInt _, PInt _ => Raise AttributeError
  | _, _ => Raise TypeError
  end.

(** The text of one side, terminated by the end-of-sequence string. *)
Definition side_text (tk : Tokenizer) (prompt answer : pyval) : result string :=
  text ← join_and_strip prompt answer;
  if endswith text (eos_token tk) then Ok text
  else Ok (text +:+ " " +:+ eos_token tk).

(** The tuple returned by [RewardDataset.__getitem__]. *)
Record Item := {
  chosen_ids : row;
  chosen_mask : row;
  reject_ids : row;
  reject_mask : row;
  chosen_loss_mask : row;
  reject_loss_mask : row;
  item_extra : pyval
}.

Definition RewardDataset_getitem (self : RewardDataset) (idx : nat) : result Item :=
  let tk := tokenizer self in
  prompt ← py_index (prompts self) idx;
  chosen ← py_index (chosens self) idx;
  reject ← py_index (rejects self) idx;
  extra ← py_index (extras self) idx;
  chosen ← side_text tk prompt chosen;
  let chosen_token := tok_call tk chosen (Some (max_length self)) in
  reject ← side_text tk prompt reject;
  let reject_token := tok_call tk reject (Some (max_length self)) in
  chosen_input_ids ← set_last (input_ids chosen_token) (eos_token_id tk);
  reject_input_ids ← set_last (input_ids reject_token) (eos_token_id tk);
  chosen_attention_mask ← set_last (attention_mask chosen_token) py_True;
  reject_attention_mask ← set_last (attention_mask reject_token) py_True;
  let chosen_loss_mask := zeros_like chosen_input_ids in
  let reject_loss_mask := zeros_like reject_input_ids in
  match response_template self with
  | Some template =>
      let response_tokens := input_ids (tok_call tk template None) in
      '(end_id, chosen_loss_mask) ←
        locate_spans false false chosen_input_ids response_tokens (eos_token_id tk)
          (Unbound, chosen_loss_mask);
      '(_, reject_loss_mask) ←
        locate_spans true false reject_input_ids response_tokens (eos_token_id tk)
          (end_id, reject_loss_mask);
      Ok {| chosen_ids := chosen_input_ids; chosen_mask := chosen_attention_mask;
            reject_ids := reject_input_ids; reject_mask := reject_attention_mask;
            chosen_loss_mask := chosen_loss_mask; reject_loss_mask := reject_loss_mask;
            item_extra := extra |}
  | None =>
      Ok {| chosen_ids := chosen_input_ids; chosen_mask := chosen_attention_mask;
            reject_ids := reject_input_ids; reject_mask := reject_attention_mask;
            chosen_loss_mask := chosen_attention_mask;
            reject_loss_mask := reject_attention_mask;
            item_extra := extra |}
  end.

(** ** Batches *)

(** The members of the tuples handed to the collate functions: a tensor of
    shape [1, n], a stack of such tensors, a plain value, or a tensor of
    image features, which no code of this file looks into. *)
Inductive pyobj :=
  | OTensor (t : row)
  | OBatch (rows : list row)
  | OVal (v : pyval)
  | OFeature.

(** The rows along the first dimension. *)
Definition rows_of (o : pyobj) : list row :=
  match o with
  | OTensor t => [t]
  | OBatch rows => rows
  | _ => []
  end.

(** [__getitem__] returns a tuple of seven members. *)
Definition item_tuple (it : Item) : list pyobj :=
  [OTensor (chosen_ids it); OTensor (chosen_mask it); OTensor (reject_ids it);
   OTensor (reject_mask it); OTensor (chosen_loss_mask it);
   OTensor (reject_loss_mask it); OVal (item_extra it)].

(** A method of a tensor ([size], [flatten]) called on a member that is a
    tensor of shape [1, n]; a plain value has no such method.  The
    statements on the collate functions take tuples whose tensors have
    that shape. *)
Definition as_tensor (o : pyobj) : result row :=
  match o with
  | OTensor t => Ok t
  | _ => Raise AttributeError
  end.

Inductive padding_side :=
  | PadLeft
  | PadRight.

(** Modelled from the spec: [zero_pad_sequences] of [utils.py], which is
    not part of the sources: "pad every sequence in the list to the maximum
    length present in that field, inserting pad values on the configured
    side; stack into one batch tensor per field". *)
Definition zero_pad_sequences (sequences : list row) (side : padding_side) (value : Z)
    : list row :=
  let max_len := max_list (length <$> sequences) in
  (fun seq =>
     let padding := replicate (max_len - length seq) value in
     match side with
     | PadLeft => padding ++ seq
     | PadRight => seq ++ padding
     end) <$> sequences.

(** The lists filled by the loop of [collate_fn], and the loop variable
    [rejected_loss_mask], which keeps the value of the last iteration. *)
Record Collected := {
  c_chosen_ids : list pyobj;
  c_chosen_masks : list pyobj;
  c_reject_ids : list pyobj;
  c_rejects_masks : list pyobj;
  c_extras : list pyobj;
  c_chosen_loss_masks : list pyobj;
  c_reject_loss_masks : list pyobj;
  c_rejected_loss_mask : option pyobj
}.

Definition collect_step (st : Collected) (item : list pyobj) : result Collected :=
  match item with
  | [chosen_id; chosen_mask; reject_id; rejects_mask; chosen_loss_mask;
     rejected_loss_mask; extra] =>
      Ok {| c_chosen_ids := c_chosen_ids st ++ [chosen_id];
            c_chosen_masks := c_chosen_masks st ++ [chosen_mask];
            c_reject_ids := c_reject_ids st ++ [reject_id];
            c_rejects_masks := c_rejects_masks st ++ [rejects_mask];
            c_extras := c_extras st ++ [extra];
            c_chosen_loss_masks := c_chosen_loss_masks st ++ [chosen_loss_mask];
            c_reject_loss_masks := c_reject_loss_masks st ++ [rejected_loss_mask];
            c_rejected_loss_mask := Some rejected_loss_mask |}
  | _ => Raise ValueError
  end.

Definition pad_field (sequences : list pyobj) (side : padding_side) (value : Z)
    : result (list row) :=
  rows ← mapM_result as_tensor sequences;
  Ok (zero_pad_sequences rows side value).

(** The tuple returned by [RewardDataset.collate_fn], member by member. *)
Record PaddedBatch := {
  b_chosen_ids : list row;
  b_chosen_masks : list row;
  b_reject_ids : list row;
  b_rejects_masks : list row;
  b_chosen_loss_masks : list row;
  b_sixth : pyobj;
  b_extras : list pyobj
}.

Definition collate_fn (self : RewardDataset) (item_list : list (list pyobj))
    : result PaddedBatch :=
  st ← foldM collect_step
        {| c_chosen_ids := []; c_chosen_masks := []; c_reject_ids := [];
           c_rejects_masks := []; c_extras := []; c_chosen_loss_masks := [];
           c_reject_loss_masks := []; c_rejected_loss_mask := None |} item_list;
  let side := if is_dpo self then PadRight else PadLeft in
  let pad := pad_token_id (tokenizer self) in
  chosen_ids ← pad_field (c_chosen_ids st) side pad;
  chosen_masks ← pad_field (c_chosen_masks st) side 0;
  reject_ids ← pad_field (c_reject_ids st) side pad;
  rejects_masks ← pad_field (c_rejects_masks st) side 0;
  chosen_loss_masks ← pad_field (c_chosen_loss_masks st) side 0;
  reject_loss_masks ← pad_field (c_reject_loss_masks st) side 0;
  match c_rejected_loss_mask st with
  | Some rejected_loss_mask =>
      Ok {| b_chosen_ids := chosen_ids; b_chosen_masks := chosen_masks;
            b_reject_ids := reject_ids; b_rejects_masks := rejects_masks;
            b_chosen_loss_masks := chosen_loss_masks;
            b_sixth := rejected_loss_mask;
            b_extras := c_extras st |}
  | None => Raise UnboundLocalError
  end.

(** The lists filled by the loop of [packing_collate_fn]. *)
Record Packing := {
  k_extras : list pyobj;
  k_chosen_ids : list row;
  k_chosen_att_masks : list row;
  k_chosen_seq_lens : list nat;
  k_rejected_ids : list row;
  k_rejected_att_masks : list row;
  k_rejected_seq_lens : list nat;
  k_index : Z
}.

(** [torch.full_like(t, v)] *)
Definition full_like (t : row) (v : Z) : row := replicate (length t) v.

Definition packing_step (n : nat) (st : Packing) (item : list pyobj) : result Packing :=
  match item with
  | [chosen_id; chosen_mask; reject_id; rejects_mask; extra] =>
      chosen ← as_tensor chosen_id;
      reject ← as_tensor reject_id;
      Ok {| k_extras := k_extras st ++ [extra];
            k_chosen_ids := k_chosen_ids st ++ [chosen];
            k_chosen_att_masks := k_chosen_att_masks st ++ [full_like chosen (k_index st)];
            k_chosen_seq_lens := k_chosen_seq_lens st ++ [length chosen];
            k_rejected_ids := k_rejected_ids st ++ [reject];
            k_rejected_att_masks :=
              k_rejected_att_masks st ++ [full_like reject (k_index st + Z.of_nat n)];
            k_rejected_seq_lens := k_rejected_seq_lens st ++ [length reject];
            k_index := (k_index st + 1)%Z |}
  | _ => Raise ValueError
  end.

(** [torch.cat(tensors, dim=0)] refuses an empty list. *)
Definition torch_cat (tensors : list row) : result row :=
  match tensors with
  | [] => Raise RuntimeError
  | _ => Ok (concat tensors)
  end.

(** [F.pad(t, (0, n), value=v)] for [n >= 0]. *)
Definition pad_right (t : row) (n : Z) (v : Z) : row := t ++ replicate (Z.to_nat n) v.

Record PackedBatch := {
  packed_input_ids : row;
  packed_attention_masks : row;
  packed_seq_lens : list nat;
  packed_extras : list pyobj
}.

Definition packing_collate_fn (self : RewardDataset) (item_list : list (list pyobj))
    : result PackedBatch :=
  st ← foldM (packing_step (length item_list))
        {| k_extras := []; k_chosen_ids := []; k_chosen_att_masks := [];
           k_chosen_seq_lens := []; k_rejected_ids := []; k_rejected_att_masks := [];
           k_rejected_seq_lens := []; k_index := 1 |} item_list;
  packed_input_ids ← torch_cat (k_chosen_ids st ++ k_rejected_ids st);
  packed_attention_masks ← torch_cat (k_chosen_att_masks st ++ k_rejected_att_masks st);
  let packed_seq_lens := k_chosen_seq_lens st ++ k_rejected_seq_lens st in
  let numel := Z.of_nat (length packed_input_ids) in
  if bool_decide (1 < multiple_of self)%Z
     && negb (bool_decide (numel mod multiple_of self = 0)%Z)
  then
    let padding_len := (multiple_of self - numel mod multiple_of self)%Z in
    Ok {| packed_input_ids :=
            pad_right packed_input_ids padding_len (pad_token_id (tokenizer self));
          packed_attention_masks := pad_right packed_attention_masks padding_len 0;
          packed_seq_lens := packed_seq_lens;
          packed_extras := k_extras st |}
  else
    Ok {| packed_input_ids := packed_input_ids;
          packed_attention_masks := packed_attention_masks;
          packed_seq_lens := packed_seq_lens;
          packed_extras := k_extras st |}.

(** A tuple of the five members that [packing_collate_fn] names. *)
Record PackItem := {
  pk_chosen_id : row;
  pk_chosen_mask : pyobj;
  pk_reject_id : row;
  pk_rejects_mask : pyobj;
  pk_extra : pyobj
}.

Definition pack_tuple (it : PackItem) : list pyobj :=
  [OTensor (pk_chosen_id it); pk_chosen_mask it; OTensor (pk_reject_id it);
   pk_rejects_mask it; pk_extra it].

(** ** [QwenRewardDataset] *)

(** [for m in d["content"]]: the clean-up of one content entry.  [del]
    changes the entry in place, so the entry that reaches the processor is
    the one returned here. *)
Definition clean_entry (m : gmap string atom) : result (gmap string atom) :=
  ty ← match m !! "type" with
       | Some v => Ok v
       | None => Raise KeyError
       end;
  m ← (if decide (ty = AStr "image") then
         let m := if decide (m !! "text" = Some ANone) then delete "text" m else m in
         image ← match m !! "image" with
                 | Some v => Ok v
                 | None => Raise KeyError
                 end;
         if decide (image = ANone) then Raise AssertionError else Ok m
       else Ok m);
  if decide (m !! "image" = Some ANone) then
    if decide (ty = AStr "text") then Ok (delete "image" m) else Ok m
  else Ok m.

(** [for d in conversation]: a turn whose content is a string of at least
    one character has characters, not dictionaries, as entries. *)
Definition clean_turn (d : turn) : result turn :=
  match turn_content d with
  | CParts ms =>
      ms' ← mapM_result clean_entry ms;
      Ok (Turn (role d) (CParts ms'))
  | CStr s => if bool_decide (s = EmptyString) then Ok d else Raise TypeError
  end.

Definition clean_conversation (conversation : pyval) : result pyval :=
  match conversation with
  | PConv turns => turns' ← mapM_result clean_turn turns; Ok (PConv turns')
  | PStr s => if bool_decide (s = EmptyString) then Ok conversation else Raise TypeError
  | _ => Raise TypeError
  end.

Section Qwen.
(** The image inputs found by [process_vision_info] and the feature
    tensors [pixel_values] are values of the external collaborators. *)
Context {Images Pixels : Type}.

Record ProcessorOutput := {
  out_input_ids : row;
  out_attention_mask : row;
  pixel_values : Pixels;
  image_grid_thw : list row
}.

(** The external processor: [proc_call text images max_length] is
    [processor(text=..., images=..., max_length=..., padding=False,
    truncation=True, return_tensors="pt", add_special_tokens=False)];
    [proc_render] is [processor.apply_chat_template] with
    [tokenize=False, add_generation_prompt=False]; [vision_info] is the
    first component of [process_vision_info]. *)
Record Processor := {
  proc_call : string → Images → Z → ProcessorOutput;
  proc_render : pyval → result string;
  vision_info : pyval → result Images
}.

(** The attributes shared with [RewardDataset] are kept in [common];
    its [tokenizer] is [processor.tokenizer]. *)
Record QwenRewardDataset := {
  processor : Processor;
  common : RewardDataset
}.

(** [self.apply_chat_template] stays the flag read from the arguments;
    when it is [True], [preprocess_data] calls a [bool]. *)
Definition Qwen_chat_renderer (self : QwenRewardDataset)
    : option (pyval → bool → result string) :=
  if apply_chat_template (common self)
  then Some (fun _ _ => Raise TypeError)
  else None.

Definition Qwen_process_data (self : QwenRewardDataset) (data : gmap string pyval)
    : result Processed :=
  let cfg := common self in
  let tk := tokenizer cfg in
  n ← preprocess_data data (input_template cfg) (prompt_key cfg) (chosen_key cfg)
        (rejected_key cfg) (Qwen_chat_renderer self) (is_dpo cfg);
  if is_dpo cfg then
    prompt_token ← tokenize_value tk (n_prompt n) (Some (max_length cfg));
    let prompt_ids_len := int_sum (attention_mask prompt_token) in
    let prompt :=
      if decide (max_length cfg - 2 ≤ prompt_ids_len)%Z then PNone else n_prompt n in
    Ok {| p_prompt := prompt; p_chosen := n_chosen n; p_reject := n_rejected n;
          p_extra := PInt prompt_ids_len |}
  else
    Ok {| p_prompt := n_prompt n; p_chosen := n_chosen n; p_reject := n_rejected n;
          p_extra := n_margin n |}.

(** The tuple returned by [QwenRewardDataset.__getitem__]. *)
Record QwenItem := {
  q_chosen_ids : row;
  q_chosen_mask : row;
  q_reject_ids : row;
  q_reject_mask : row;
  q_chosen_loss_mask : row;
  q_reject_loss_mask : row;
  q_chosen_pixel_values : Pixels;
  q_reject_pixel_values : Pixels;
  q_chosen_image_grid_thw : list row;
  q_reject_image_grid_thw : list row;
  q_extra : pyval
}.

Definition Qwen_getitem (self : QwenRewardDataset) (idx : nat) : result QwenItem :=
  let cfg := common self in
  let tk := tokenizer cfg in
  prompt ← py_index (prompts cfg) idx;
  chosen ← py_index (chosens cfg) idx;
  reject ← py_index (rejects cfg) idx;
  extra ← py_index (extras cfg) idx;
  chosen ← clean_conversation chosen;
  reject ← clean_conversation reject;
  chosen_text ← proc_render (processor self) chosen;
  chosen_image_inputs ← vision_info (processor self) chosen;
  let chosen_token :=
    proc_call (processor self) chosen_text chosen_image_inputs (max_length cfg) in
  reject_text ← proc_render (processor self) reject;
  reject_image_inputs ← vision_info (processor self) reject;
  let reject_token :=
    proc_call (processor self) reject_text reject_image_inputs (max_length cfg) in
  chosen_input_ids ← set_last (out_input_ids chosen_token) (eos_token_id tk);
  reject_input_ids ← set_last (out_input_ids reject_token) (eos_token_id tk);
  chosen_attention_mask ← set_last (out_attention_mask chosen_token) py_True;
  reject_attention_mask ← set_last (out_attention_mask reject_token) py_True;
  let chosen_loss_mask := zeros_like chosen_input_ids in
  let reject_loss_mask := zeros_like reject_input_ids in
  '(chosen_loss_mask, reject_loss_mask) ←
    match response_template cfg with
    | Some template =>
        let response_tokens := input_ids (tok_call tk template None) in
        '(end_id, chosen_loss_mask) ←
          locate_spans false true chosen_input_ids response_tokens (eos_token_id tk)
            (Unbound, chosen_loss_mask);
        '(_, reject_loss_mask) ←
          locate_spans true true reject_input_ids response_tokens (eos_token_id tk)
            (end_id, reject_loss_mask);
        Ok (chosen_loss_mask, reject_loss_mask)
    | None => Ok (chosen_attention_mask, reject_attention_mask)
    end;
  Ok {| q_chosen_ids := chosen_input_ids; q_chosen_mask := chosen_attention_mask;
        q_reject_ids := reject_input_ids; q_reject_mask := reject_attention_mask;
        q_chosen_loss_mask := chosen_loss_mask;
        q_reject_loss_mask := reject_loss_mask;
        q_chosen_pixel_values := pixel_values chosen_token;
        q_reject_pixel_values := pixel_values reject_token;
        q_chosen_image_grid_thw := image_grid_thw chosen_token;
        q_reject_image_grid_thw := image_grid_thw reject_token;
        q_extra := extra |}.

(** [__getitem__] returns a tuple of eleven members. *)
Definition Qwen_item_tuple (it : QwenItem) : list pyobj :=
  [OTensor (q_chosen_ids it); OTensor (q_chosen_mask it); OTensor (q_reject_ids it);
   OTensor (q_reject_mask it); OTensor (q_chosen_loss_mask it);
   OTensor (q_reject_loss_mask it); OFeature; OFeature;
   OBatch (q_chosen_image_grid_thw it); OBatch (q_reject_image_grid_thw it);
   OVal (q_extra it)].

(** The method has the text of [RewardDataset.packing_collate_fn]. *)
Definition Qwen_packing_collate_fn (self : QwenRewardDataset)
    (item_list : list (list pyobj)) : result PackedBatch :=
  packing_collate_fn (common self) item_list.
End Qwen.

Arguments ProcessorOutput : clear implicits.
Arguments Processor : clear implicits.
Arguments QwenRewardDataset : clear implicits.
Arguments QwenItem : clear implicits.

(** ** The vocabulary of the statements *)

(** The whole template occurs contiguously in [ids], starting at [id]. *)
Definition matches_at (ids response_tokens : row) (id : nat) : Prop :=
  take (length response_tokens) (drop id ids) = response_tokens.

(** [e] is the first position at or after [start] that holds [eos]. *)
Definition first_eos_from (ids : row) (eos : Z) (start e : nat) : Prop :=
  start ≤ e ∧ ids !! e = Some eos ∧ ∀ j, start ≤ j < e → ids !! j ≠ Some eos.

(** The end of the answer that starts at [start]: the first [eos] from
    there on, or the last valid index when none follows. *)
Definition answer_end (ids : row) (eos : Z) (start e : nat) : Prop :=
  first_eos_from ids eos start e
  ∨ ((∀ j, start ≤ j → ids !! j ≠ Some eos) ∧ e = length ids - 1).

(** [p] lies after a full match of the template and at or before the end
    of the answer that the match opens. *)
Definition in_answer_span (ids response_tokens : row) (eos : Z) (p : nat) : Prop :=
  ∃ id e, matches_at ids response_tokens id
          ∧ answer_end ids eos (id + length response_tokens) e
          ∧ id + length response_tokens ≤ p ≤ e.

(** A loss mask that is [1] exactly on the answer spans and [0] elsewhere. *)
Definition template_mask (ids response_tokens : row) (eos : Z) (mask : row) : Prop :=
  length mask = length ids
  ∧ ∀ p, p < length ids →
      (mask !! p = Some 1%Z ↔ in_answer_span ids response_tokens eos p)
      ∧ (mask !! p = Some 1%Z ∨ mask !! p = Some 0%Z).

(** The positions that the match at [id] selects. *)
Definition span_of (ids tpl : row) (eos : Z) (id p : nat) : Prop :=
  matches_at ids tpl id
  ∧ ∃ e, answer_end ids eos (id + length tpl) e ∧ id + length tpl ≤ p ≤ e.

(** ** A character-level tokenizer and small datasets

    Every character is one token, its id the character code; truncation
    keeps the first [max_length] tokens.  The end-of-sequence string is
    ["$"], with id 36. *)

Definition char_ids (s : string) : row :=
  (fun c => Z.of_nat (Ascii.nat_of_ascii c)) <$> String.list_ascii_of_string s.

Definition char_call (s : string) (max_len : option Z) : BatchEncoding :=
  let ids := char_ids s in
  let ids :=
    match max_len with
    | Some n => take (Z.to_nat n) ids
    | None => ids
    end in
  {| input_ids := ids; attention_mask := replicate (length ids) 1%Z |}.

Definition char_tokenizer : Tokenizer := {|
  tok_call := char_call;
  eos_token := "$";
  eos_token_id := 36;
  pad_token_id := 0;
  chat_template := None;
  render := fun _ v _ =>
    match v with
    | PStr s => Ok s
    | _ => Raise TypeError
    end
|}.

(** A dataset over [char_tokenizer] that holds one processed example. *)
Definition one_example (max_len mult : Z) (dpo : bool) (template : option string)
    (prompt chosen reject : pyval) : RewardDataset := {|
  is_dpo := dpo; tokenizer := char_tokenizer; max_length := max_len;
  multiple_of := mult; input_template := None;
  prompt_key := Some "prompt"; chosen_key := Some "chosen";
  rejected_key := Some "rejected"; apply_chat_template := false;
  response_template := template;
  prompts := [prompt]; chosens := [chosen]; rejects := [reject]; extras := [PInt 0]
|}.

(** The text of a turn: role, colon, the text entries, end of sequence. *)
Definition entry_text (m : gmap string atom) : string :=
  match m !! "text" with
  | Some (AStr s) => s
  | _ => EmptyString
  end.

Definition turn_text (d : turn) : string :=
  role d +:+ ":" +:+
  match turn_content d with
  | CStr s => s
  | CParts ms => String.concat EmptyString (entry_text <$> ms)
  end +:+ "$".

Definition char_processor : Processor unit unit := {|
  proc_call := fun text _ max_len =>
    let enc := char_call text (Some max_len) in
    {| out_input_ids := input_ids enc; out_attention_mask := attention_mask enc;
       pixel_values := tt; image_grid_thw := [] |};
  proc_render := fun v =>
    match v with
    | PConv turns => Ok (String.concat EmptyString (turn_text <$> turns))
    | _ => Raise TypeError
    end;
  vision_info := fun _ => Ok tt
|}.

Definition one_conversation (max_len : Z) (template : option string)
    (chosen reject : list turn) : QwenRewardDataset unit unit := {|
  processor := char_processor;
  common := one_example max_len 1 false template (PStr EmptyString)
              (PConv chosen) (PConv reject)
|}.

Definition text_entry (s : string) : gmap string atom :=
  <["type" := AStr "text"]> (<["text" := AStr s]> ∅).

Definition says (who what : string) : turn := Turn who (CParts [text_entry what]).

(** Two items whose rejected sides differ in length. *)
Definition item_long : Item := {|
  chosen_ids := [81; 36]; chosen_mask := [1; 1];
  reject_ids := [81; 58; 53; 36]; reject_mask := [1; 1; 1; 1];
  chosen_loss_mask := [0; 1]; reject_loss_mask := [0; 1; 1; 1];
  item_extra := PInt 0
|}%Z.

Definition item_short : Item := {|
  chosen_ids := [81; 52; 36]; chosen_mask := [1; 1; 1];
  reject_ids := [53; 36]; reject_mask := [1; 1];
  chosen_loss_mask := [0; 1; 1]; reject_loss_mask := [1; 1];
  item_extra := PInt 0
|}%Z.

(** The side on which [collate_fn] pads. *)
Definition side_of (self : RewardDataset) : padding_side :=
  if is_dpo self then PadRight else PadLeft.

(** The segment ids of consecutive runs of the given lengths, the runs
    numbered from [first] on. *)
Definition segment_runs (first : nat) (lens : list nat) : row :=
  concat (imap (fun k len => replicate len (Z.of_nat (first + k))) lens).

(** The number of pad positions that [packing_collate_fn] appends to a
    row of [numel] entries. *)
Definition padding_of (mult : Z) (numel : nat) : nat :=
  if bool_decide (1 < mult)%Z && negb (bool_decide (Z.of_nat numel mod mult = 0)%Z)
  then Z.to_nat (mult - Z.of_nat numel mod mult)
  else 0.

(** The tuples of the third example of the specification: chosen
    sequences of lengths 3 and 5, rejected sequences of lengths 4 and 2. *)
Definition pack_first : PackItem := {|
  pk_chosen_id := [11; 12; 13]; pk_chosen_mask := OTensor [1; 1; 1];
  pk_reject_id := [21; 22; 23; 24]; pk_rejects_mask := OTensor [1; 1; 1; 1];
  pk_extra := OVal (PInt 0)
|}%Z.

Definition pack_second : PackItem := {|
  pk_chosen_id := [31; 32; 33; 34; 35]; pk_chosen_mask := OTensor [1; 1; 1; 1; 1];
  pk_reject_id := [41; 42]; pk_rejects_mask := OTensor [1; 1];
  pk_extra := OVal (PInt 0)
|}%Z.

(** A dataset object with the given alignment factor. *)
Definition aligned (mult : Z) : RewardDataset :=
  one_example 10 mult false None PNone PNone PNone.

(** ** Content entries *)

(** An entry of type ["image"] whose image field holds [None]. *)
Definition null_image (m : gmap string atom) : Prop :=
  m !! "type" = Some (AStr "image") ∧ m !! "image" = Some ANone.

(** An entry with the keys that the clean-up reads: a type, and an image
    field when the type is ["image"]. *)
Definition keyed (m : gmap string atom) : Prop :=
  is_Some (m !! "type")
  ∧ (m !! "type" = Some (AStr "image") → is_Some (m !! "image")).

(** The entry without its null text field (on an image entry) or its null
    image field (on a text entry). *)
Definition scrub (m : gmap string atom) : gmap string atom :=
  if decide (m !! "type" = Some (AStr "image") ∧ m !! "text" = Some ANone)
  then delete "text" m
  else if decide (m !! "type" = Some (AStr "text") ∧ m !! "image" = Some ANone)
  then delete "image" m
  else m.

Definition scrub_turn (d : turn) : turn :=
  match turn_content d with
  | CParts ms => Turn (role d) (CParts (scrub <$> ms))
  | CStr _ => d
  end.

(** Every turn is a list of keyed entries. *)
Definition keyed_turns (turns : list turn) : Prop :=
  ∀ d, d ∈ turns → ∃ ms, turn_content d = CParts ms ∧ ∀ m, m ∈ ms → keyed m.

(** Some turn has an image entry with a null image field. *)
Definition has_null_image (turns : list turn) : Prop :=
  ∃ d ms m, d ∈ turns ∧ turn_content d = CParts ms ∧ m ∈ ms ∧ null_image m.

Definition image_entry (image text : atom) : gmap string atom :=
  <["type" := AStr "image"]> (<["image" := image]> (<["text" := text]> ∅)).

Definition text_entry_with_image (s : string) (image : atom) : gmap string atom :=
  <["type" := AStr "text"]> (<["text" := AStr s]> (<["image" := image]> ∅)).

(** ** Raw records *)

Definition raw_record (prompt chosen rejected : string) : gmap string pyval :=
  <["prompt" := PStr prompt]> (<["chosen" := PStr chosen]>
    (<["rejected" := PStr rejected]> ∅)).

Definition plain_args : Args := {|
  arg_prompt_key := Some "prompt";
  arg_chosen_key := Some "chosen";
  arg_rejected_key := Some "rejected";
  arg_apply_chat_template := false;
  arg_tokenizer_chat_template := None
|}.

(** ** [QwenRewardDataset]: loading and padded batches *)

(** [QwenRewardDataset.__init__] over a processor whose tokenizer is [tk]:
    the attributes of [configure], except that no chat template is
    installed and [apply_chat_template] stays the flag of the arguments. *)
Definition Qwen_configure {Images Pixels} (proc : Processor Images Pixels)
    (tk : Tokenizer) (max_len : Z) (args : Args)
    (input_tpl : option (pyval → result string)) (dpo : bool) (mult : Z)
    (response_tpl : option string) : QwenRewardDataset Images Pixels :=
  {| processor := proc;
     common :=
       {| is_dpo := dpo; tokenizer := tk; max_length := max_len; multiple_of := mult;
          input_template := input_tpl;
          prompt_key := arg_prompt_key args; chosen_key := arg_chosen_key args;
          rejected_key := arg_rejected_key args;
          apply_chat_template := arg_apply_chat_template args;
          response_template := response_tpl;
          prompts := []; chosens := []; rejects := []; extras := [] |} |}.

(** [QwenRewardDataset.__init__]: the map over [process_data], the filter
    on the prompt and the columns, as in [RewardDataset.__init__]. *)
Definition Qwen_init {Images Pixels} (dataset : list (gmap string pyval))
    (proc : Processor Images Pixels) (tk : Tokenizer) (max_len : Z) (args : Args)
    (input_tpl : option (pyval → result string)) (dpo : bool) (mult : Z)
    (response_tpl : option string) : result (QwenRewardDataset Images Pixels) :=
  let self := Qwen_configure proc tk max_len args input_tpl dpo mult response_tpl in
  processed_dataset ← mapM_result (Qwen_process_data self) dataset;
  let processed_dataset :=
    filter (fun x => prompt_is_not_none x = true) processed_dataset in
  match dataset with
  | [] => Raise KeyError
  | _ => Ok {| processor := proc; common := store (common self) processed_dataset |}
  end.

(** [torch.concatenate(tensors, dim=0)], a tensor being the list of its
    slices along the first dimension; an empty list of tensors is refused. *)
Definition torch_concatenate {A} (tensors : list (list A)) : result (list A) :=
  match tensors with
  | [] => Raise RuntimeError
  | _ => Ok (concat tensors)
  end.

(** The tuple returned by [QwenRewardDataset.collate_fn]. *)
Record QwenPaddedBatch (Patch : Type) := {
  qb_chosen_ids : list row;
  qb_chosen_masks : list row;
  qb_reject_ids : list row;
  qb_rejects_masks : list row;
  qb_chosen_loss_masks : list row;
  qb_reject_loss_masks : list row;
  qb_chosen_pixel_values : list Patch;
  qb_reject_pixel_values : list Patch;
  qb_chosen_image_thw : list row;
  qb_reject_image_thw : list row;
  qb_extras : list pyval
}.
Arguments qb_chosen_ids {Patch} _.
Arguments qb_chosen_masks {Patch} _.
Arguments qb_reject_ids {Patch} _.
Arguments qb_rejects_masks {Patch} _.
Arguments qb_chosen_loss_masks {Patch} _.
Arguments qb_reject_loss_masks {Patch} _.
Arguments qb_chosen_pixel_values {Patch} _.
Arguments qb_reject_pixel_values {Patch} _.
Arguments qb_chosen_image_thw {Patch} _.
Arguments qb_reject_image_thw {Patch} _.
Arguments qb_extras {Patch} _.

(** [QwenRewardDataset.collate_fn] on the tuples of [__getitem__]; the
    feature tensor [pixel_values] is the list of its patches. *)
Definition Qwen_collate_fn {Images Patch} (self : QwenRewardDataset Images (list Patch))
    (item_list : list (QwenItem (list Patch))) : result (QwenPaddedBatch Patch) :=
  let side := if is_dpo (common self) then PadRight else PadLeft in
  let pad := pad_token_id (tokenizer (common self)) in
  let chosen_ids := zero_pad_sequences (q_chosen_ids <$> item_list) side pad in
  let chosen_masks := zero_pad_sequences (q_chosen_mask <$> item_list) side 0 in
  let reject_ids := zero_pad_sequences (q_reject_ids <$> item_list) side pad in
  let rejects_masks := zero_pad_sequences (q_reject_mask <$> item_list) side 0 in
  let chosen_loss_masks := zero_pad_sequences (q_chosen_loss_mask <$> item_list) side 0 in
  let reject_loss_masks := zero_pad_sequences (q_reject_loss_mask <$> item_list) side 0 in
  chosen_pixel_values ← torch_concatenate (q_chosen_pixel_values <$> item_list);
  reject_pixel_values ← torch_concatenate (q_reject_pixel_values <$> item_list);
  chosen_image_thw ← torch_concatenate (q_chosen_image_grid_thw <$> item_list);
  reject_image_thw ← torch_concatenate (q_reject_image_grid_thw <$> item_list);
  Ok {| qb_chosen_ids := chosen_ids; qb_chosen_masks := chosen_masks;
        qb_reject_ids := reject_ids; qb_rejects_masks := rejects_masks;
        qb_chosen_loss_masks := chosen_loss_masks;
        qb_reject_loss_masks := reject_loss_masks;
        qb_chosen_pixel_values := chosen_pixel_values;
        qb_reject_pixel_values := reject_pixel_values;
        qb_chosen_image_thw := chosen_image_thw;
        qb_reject_image_thw := reject_image_thw;
        qb_extras := q_extra <$> item_list |}.

(** ** More vocabulary *)

(** The text that [__getitem__] hands to the tokenizer for one side. *)
Definition text_of (eos : string) (prompt answer : string) : string :=
  let text := rstrip_newline (prompt +:+ answer) in
  if endswith text eos then text else text +:+ " " +:+ eos.

(** The pieces of a packed row, cut at the recorded lengths. *)
Fixpoint split_by (lens : list nat) (t : row) : list row :=
  match lens with
  | [] => []
  | n :: lens' => take n t :: split_by lens' (drop n t)
  end.

(** The raw record with one more field. *)
Definition with_field (key : string) (v : pyval) (d : gmap string pyval)
    : gmap string pyval := <[key := v]> d.

(** A renderer that joins the contents of string turns, each closed by
    ["$"], and opens the answer with ["a:"] on request. *)
Definition turn_string (d : turn) : string :=
  match turn_content d with
  | CStr s => s +:+ "$"
  | CParts _ => "$"
  end.

Definition join_render (v : pyval) (add_generation_prompt : bool) : result string :=
  match v with
  | PConv turns =>
      Ok (String.concat EmptyString (turn_string <$> turns)
          +:+ (if add_generation_prompt then "a:" else EmptyString))
  | _ => Raise TypeError
  end.

(** A stack of [n] rows of one length. *)
Definition stacked (rows : list row) (n : nat) : Prop :=
  length rows = n ∧ ∃ len, ∀ r, r ∈ rows → length r = len.

(** The row at [i] is [seq] with pad values on the given side only. *)
Definition padded_at (rows : list row) (i : nat) (seq : row) (side : padding_side)
    (value : Z) : Prop :=
  ∃ k, rows !! i = Some match side with
                        | PadLeft => replicate k value ++ seq
                        | PadRight => seq ++ replicate k value
                        end.

(** A multimodal dataset whose patches are numbers, and two of its items. *)
Definition patch_dataset : QwenRewardDataset unit (list Z) := {|
  processor :=
    {| proc_call := fun text _ max_len =>
         let enc := char_call text (Some max_len) in
         {| out_input_ids := input_ids enc; out_attention_mask := attention_mask enc;
            pixel_values := input_ids enc; image_grid_thw := [[1; 1; 1]]%Z |};
       proc_render := proc_render char_processor;
       vision_info := fun _ => Ok tt |};
  common := aligned 1
|}.

Definition patch_item_long : QwenItem (list Z) := {|
  q_chosen_ids := [81; 36]; q_chosen_mask := [1; 1];
  q_reject_ids := [81; 58; 53; 36]; q_reject_mask := [1; 1; 1; 1];
  q_chosen_loss_mask := [0; 1]; q_reject_loss_mask := [0; 1; 1; 1];
  q_chosen_pixel_values := [7; 8]; q_reject_pixel_values := [9];
  q_chosen_image_grid_thw := [[1; 2; 2]]; q_reject_image_grid_thw := [[1; 2; 4]];
  q_extra := PInt 0
|}%Z.

Definition patch_item_short : QwenItem (list Z) := {|
  q_chosen_ids := [81; 52; 36]; q_chosen_mask := [1; 1; 1];
  q_reject_ids := [53; 36]; q_reject_mask := [1; 1];
  q_chosen_loss_mask := [0; 1; 1]; q_reject_loss_mask := [1; 1];
  q_chosen_pixel_values := [5]; q_reject_pixel_values := [6; 4];
  q_chosen_image_grid_thw := [[1; 4; 2]]; q_reject_image_grid_thw := [[1; 6; 2]];
  q_extra := PInt 1
|}%Z.

Definition chat_args : Args := {|
  arg_prompt_key := Some "prompt";
  arg_chosen_key := Some "chosen";
  arg_rejected_key := Some "rejected";
  arg_apply_chat_template := true;
  arg_tokenizer_chat_template := None
|}.

(** ** The layout of a packed batch *)

(** The batch [b] packs [items]: its ids are the chosen sequences in item
    order, then the rejected sequences in item order, then [pad] pad ids;
    the recorded lengths are those of the sequences, [2 * N] of them; the
    segment row consists of the [2 * N] runs numbered [1 .. 2 * N] followed
    by [pad] zeros, so that every position of the chosen sequence at
    (0-based) index [k] carries [k + 1], every position of the rejected
    sequence at index [k] carries [k + 1 + N], and the pad positions
    carry [0]. *)
Definition packed_in_segments (pad_id : Z) (items : list PackItem) (b : PackedBatch)
    : Prop :=
  let chosen_lens := (fun it => length (pk_chosen_id it)) <$> items in
  let rejected_lens := (fun it => length (pk_reject_id it)) <$> items in
  ∃ pad : nat,
    packed_input_ids b
    = concat (pk_chosen_id <$> items) ++ concat (pk_reject_id <$> items)
      ++ replicate pad pad_id
    ∧ packed_seq_lens b = chosen_lens ++ rejected_lens
    ∧ length (packed_seq_lens b) = 2 * length items
    ∧ packed_attention_masks b = segment_runs 1 (packed_seq_lens b) ++ replicate pad 0%Z
    ∧ (∀ k it i,
         items !! k = Some it → i < length (pk_chosen_id it) →
         packed_attention_masks b !! (sum_list (take k chosen_lens) + i)
         = Some (Z.of_nat (k + 1)))
    ∧ (∀ k it i,
         items !! k = Some it → i < length (pk_reject_id it) →
         packed_attention_masks b
           !! (sum_list chosen_lens + sum_list (take k rejected_lens) + i)
         = Some (Z.of_nat (k + 1 + length items)))
    ∧ (∀ p, sum_list (packed_seq_lens b) ≤ p < length (packed_attention_masks b) →
         packed_attention_masks b !! p = Some 0%Z).

(** A member that is a tensor of shape [1, n] or a plain value. *)
Definition plain_member (o : pyobj) : Prop :=
  match o with
  | OTensor _ | OVal _ => True
  | _ => False
  end.

(** A multimodal dataset object with the given alignment factor. *)
Definition aligned_patches (mult : Z) : QwenRewardDataset unit (list Z) :=
  {| processor := processor patch_dataset; common := aligned mult |}.

(** * Properties *)

(** ** The error monad *)

Lemma bind_Ok {A B} (m : result A) (f : A → result B) (b : B) :
  m ≫= f = Ok b → ∃ a, m = Ok a ∧ f a = Ok b.
Proof. destruct m as [a|e]; simpl; [eauto | discriminate]. Qed.

Ltac inv_bind H :=
  let a := fresh "a" in
  let Ha := fresh "Ha" in
  apply bind_Ok in H; destruct H as (a & Ha & H).

Lemma mapM_result_length {A B} (f : A → result B) l bs :
  mapM_result f l = Ok bs → length bs = length l.
Proof.
  revert bs; induction l as [|a l IH]; intros bs H; simpl in H.
  - by injection H as <-.
  - inv_bind H. inv_bind H. injection H as <-. simpl. f_equal. by apply IH.
Qed.

Lemma mapM_result_fmap {A B} (f : A → result B) (g : A → B) l :
  (∀ a, a ∈ l → f a = Ok (g a)) → mapM_result f l = Ok (g <$> l).
Proof.
  induction l as [|a l IH]; intros H; simpl; [done|].
  rewrite H by left. simpl. rewrite IH; [done|]. intros; apply H; by right.
Qed.

(** ** Rows *)

Lemma length_zeros_like t : length (zeros_like t) = length t.
Proof. apply length_replicate. Qed.

Lemma lookup_zeros_like t p x : zeros_like t !! p = Some x → x = 0%Z.
Proof. unfold zeros_like. intros H. by apply lookup_replicate in H as [-> _]. Qed.

Lemma set_last_Ok t v t' :
  set_last t v = Ok t' → t' = <[length t - 1 := v]> t ∧ 0 < length t.
Proof.
  destruct t as [|x t]; simpl; [discriminate|]. intros [= <-]. split; [done | lia].
Qed.

Lemma set_last_length t v t' : set_last t v = Ok t' → length t' = length t.
Proof. intros H. apply set_last_Ok in H as [-> _]. apply length_insert. Qed.

Lemma set_last_last t v t' : set_last t v = Ok t' → last t' = Some v.
Proof.
  intros H. apply set_last_Ok in H as [-> Hlen].
  rewrite last_lookup, length_insert.
  replace (pred (length t)) with (length t - 1) by lia.
  apply list_lookup_insert_eq. lia.
Qed.

Lemma set_last_is_ok t v : t ≠ [] → is_ok (set_last t v) = true.
Proof. by destruct t. Qed.

Lemma length_assign_slice t a b v : length (assign_slice t a b v) = length t.
Proof. apply length_imap. Qed.

Lemma lookup_assign_slice t a b v p :
  assign_slice t a b v !! p = (fun x => if decide (a ≤ p < b) then v else x) <$> t !! p.
Proof. unfold assign_slice. by rewrite list_lookup_imap. Qed.

Lemma elem_of_where_eq v t k i :
  i ∈ where_eq v t k ↔ ∃ j, i = k + j ∧ t !! j = Some v.
Proof.
  revert k; induction t as [|x t IH]; intros k; simpl.
  - split; [by intros ?%elem_of_nil | by intros (j & _ & ?)].
  - destruct (decide (x = v)) as [->|Hne].
    + rewrite elem_of_cons, IH. split.
      * intros [->|(j & -> & Hj)]; [exists 0 | exists (S j)]; split; (lia || done).
      * intros ([|j] & -> & Hj); [left; lia | right; exists j; split; [lia | done]].
    + rewrite IH. split.
      * intros (j & -> & Hj). exists (S j); split; [lia | done].
      * intros ([|j] & -> & Hj); [simpl in Hj; congruence |].
        exists j; split; [lia | done].
Qed.

Lemma scan_eos_Some eos rest j e :
  scan_eos eos rest j = Some e →
  ∃ d, e = j + d ∧ rest !! d = Some eos ∧ ∀ d', d' < d → rest !! d' ≠ Some eos.
Proof.
  revert j; induction rest as [|x rest IH]; intros j; simpl; [discriminate|].
  destruct (decide (x = eos)) as [->|Hne].
  - intros [= <-]. exists 0; repeat split; [lia | lia].
  - intros (d & -> & Hd & Hmin)%IH. exists (S d); repeat split; [lia | done |].
    intros [|d'] Hlt; simpl; [congruence | apply Hmin; lia].
Qed.

Lemma scan_eos_None eos rest j :
  scan_eos eos rest j = None → ∀ d, rest !! d ≠ Some eos.
Proof.
  revert j; induction rest as [|x rest IH]; intros j; simpl; [by intros _ d|].
  destruct (decide (x = eos)) as [->|Hne]; [discriminate|].
  intros H [|d]; simpl; [congruence | by eapply IH].
Qed.

Lemma find_eos_Some ids eos start e :
  find_eos ids eos start = Some e → first_eos_from ids eos start e.
Proof.
  unfold find_eos, first_eos_from.
  intros (d & -> & Hd & Hmin)%scan_eos_Some.
  rewrite lookup_drop in Hd. repeat split; [lia | done |].
  intros j [Hj1 Hj2]. specialize (Hmin (j - start)).
  rewrite lookup_drop in Hmin. replace (start + (j - start)) with j in Hmin by lia.
  apply Hmin; lia.
Qed.

Lemma find_eos_None ids eos start :
  find_eos ids eos start = None → ∀ j, start ≤ j → ids !! j ≠ Some eos.
Proof.
  unfold find_eos. intros H j Hj.
  pose proof (scan_eos_None _ _ _ H (j - start)) as Hn.
  rewrite lookup_drop in Hn. by replace (start + (j - start)) with j in Hn by lia.
Qed.

Lemma first_eos_from_unique ids eos start e e' :
  first_eos_from ids eos start e → first_eos_from ids eos start e' → e = e'.
Proof.
  intros (H1 & H2 & H3) (H1' & H2' & H3').
  destruct (decide (e < e')); [exfalso; apply (H3' e); [lia | done]|].
  destruct (decide (e' < e)); [exfalso; apply (H3 e'); [lia | done]|]. lia.
Qed.

(** ** The loss-mask locator *)

Lemma matches_at_bound ids tpl id :
  tpl ≠ [] → matches_at ids tpl id → id + length tpl ≤ length ids.
Proof.
  unfold matches_at. intros Hne H.
  assert (length (take (length tpl) (drop id ids)) = length tpl) as Hlen by by rewrite H.
  rewrite length_take, length_drop in Hlen.
  assert (0 < length tpl) by (destruct tpl; [done | simpl; lia]). lia.
Qed.

Lemma matches_at_first ids t tpl id :
  matches_at ids (t :: tpl) id → ids !! id = Some t.
Proof.
  unfold matches_at. simpl. intros H.
  assert (drop id ids !! 0 = Some t) as H0.
  { destruct (drop id ids) as [|x l]; simpl in H; [discriminate|]. by injection H as -> _. }
  rewrite lookup_drop in H0. by replace (id + 0) with id in H0 by lia.
Qed.

Lemma match_test_true ids tpl id :
  bool_decide (length (take (length tpl) (drop id ids)) = length tpl)
  && bool_decide (take (length tpl) (drop id ids) = tpl) = true
  ↔ matches_at ids tpl id.
Proof.
  unfold matches_at. rewrite andb_true_iff, !bool_decide_eq_true.
  split; [by intros [_ ?] | intros H; split; [by rewrite H | done]].
Qed.

Lemma last_lookup_Some (ids : row) eos :
  last ids = Some eos → 0 < length ids ∧ ids !! (length ids - 1) = Some eos.
Proof.
  rewrite last_lookup. intros H. pose proof (lookup_lt_Some _ _ _ H) as Hlt.
  split; [lia|]. by replace (length ids - 1) with (pred (length ids)) by lia.
Qed.

(** With the last token forced to [eos], a match whose answer start sees no
    [eos] ends the row. *)
Lemma no_eos_after_match ids tpl eos id :
  last ids = Some eos → tpl ≠ [] → matches_at ids tpl id →
  (∀ j, id + length tpl ≤ j → ids !! j ≠ Some eos) →
  id + length tpl = length ids.
Proof.
  intros [Hpos Hlast]%last_lookup_Some Hne Hm Hno.
  pose proof (matches_at_bound _ _ _ Hne Hm) as Hb.
  destruct (decide (id + length tpl ≤ length ids - 1)) as [Hle|]; [|lia].
  by destruct (Hno _ Hle).
Qed.

Lemma mask_span_step_spec reset fallback ids tpl eos v m id v' m' :
  last ids = Some eos → tpl ≠ [] → length m = length ids →
  mask_span_step reset fallback ids tpl eos (v, m) id = Ok (v', m') →
  length m' = length ids
  ∧ ∀ p, p < length ids →
      (m' !! p = Some 1%Z ↔ m !! p = Some 1%Z ∨ span_of ids tpl eos id p)
      ∧ (m' !! p = Some 1%Z ∨ m' !! p = m !! p).
Proof.
  intros Hlast Hne Hlen. unfold mask_span_step.
  destruct (bool_decide _ && bool_decide _) eqn:Htest.
  - apply match_test_true in Htest. set (start := id + length tpl).
    destruct (find_eos ids eos start) as [j|] eqn:Hscan.
    + (* the scan stops at [j] *)
      apply find_eos_Some in Hscan.
      assert (∀ e, BoundInt e = BoundInt j → e = j) as _ by (by intros ? [= ->]).
      intros H.
      assert (v' = BoundInt j ∧ m' = assign_slice m start (j + 1) 1) as [-> ->].
      { destruct fallback, reset; simpl in H; by injection H as <- <-. }
      rewrite length_assign_slice. split; [done|]. intros p Hp.
      rewrite lookup_assign_slice.
      destruct (lookup_lt_is_Some_2 m p) as [x Hx]; [lia|]. rewrite Hx. simpl.
      assert (span_of ids tpl eos id p ↔ start ≤ p < j + 1) as Hspan.
      { unfold span_of. split.
        - intros (_ & e & [He|[Hno _]] & Hpe).
          + rewrite (first_eos_from_unique _ _ _ _ _ He Hscan) in Hpe. lia.
          + destruct Hscan as (Hsj & Hj & _). by destruct (Hno j Hsj).
        - intros Hpj. split; [done|]. exists j. split; [by left | lia]. }
      destruct (decide (start ≤ p < j + 1)) as [Hin|Hout].
      * split; [|by left]. split; [intros _; right; by apply Hspan | done].
      * split; [|by right]. split; [by left|].
        intros [?|Hs]; [done | by apply Hspan in Hs].
    + (* no [eos] from the answer start on: the match ends the row *)
      pose proof (find_eos_None _ _ _ Hscan) as Hno.
      pose proof (no_eos_after_match _ _ _ _ Hlast Hne Htest Hno) as Hend.
      intros H.
      assert (∃ stop, m' = assign_slice m start stop 1) as [stop ->].
      { destruct fallback, reset, v; simpl in H; try discriminate;
          injection H as <- <-; eauto. }
      rewrite length_assign_slice. split; [done|]. intros p Hp.
      rewrite lookup_assign_slice.
      destruct (lookup_lt_is_Some_2 m p) as [x Hx]; [lia|]. rewrite Hx. simpl.
      destruct (decide (start ≤ p < stop)) as [Hin|_]; [unfold start in Hin; lia|].
      split; [|by right]. split; [by left|].
      intros [?|(_ & e & [He|[_ ->]] & Hpe)]; [done | |lia].
      destruct He as (He1 & He2 & _). by destruct (Hno e He1).
  - intros [= <- <-]. split; [done|]. intros p Hp. split; [|by right].
    split; [by left|]. intros [?|[Hm _]]; [done|].
    apply match_test_true in Hm. congruence.
Qed.

Lemma foldM_mask_span_spec reset fallback ids tpl eos cs v m v' m' :
  last ids = Some eos → tpl ≠ [] → length m = length ids →
  foldM (mask_span_step reset fallback ids tpl eos) (v, m) cs = Ok (v', m') →
  length m' = length ids
  ∧ ∀ p, p < length ids →
      (m' !! p = Some 1%Z ↔
         m !! p = Some 1%Z ∨ ∃ id, id ∈ cs ∧ span_of ids tpl eos id p)
      ∧ (m' !! p = Some 1%Z ∨ m' !! p = m !! p).
Proof.
  intros Hlast Hne. revert v m.
  induction cs as [|id cs IH]; intros v m Hlen H; simpl in H.
  - injection H as <- <-. split; [done|]. intros p Hp. split; [|by right].
    split; [by left|]. by intros [?|(id & ?%elem_of_nil & _)].
  - inv_bind H. destruct a as [v1 m1].
    destruct (mask_span_step_spec _ _ _ _ _ _ _ _ _ _ Hlast Hne Hlen Ha) as [Hlen1 Hstep].
    destruct (IH _ _ Hlen1 H) as [Hlen' Hrest]. split; [done|].
    intros p Hp. destruct (Hstep p Hp) as [Hs1 Hs2], (Hrest p Hp) as [Hr1 Hr2].
    split.
    + rewrite Hr1, Hs1. split.
      * intros [[?|Hs]|(id' & Hin & Hs)]; [by left | |].
        -- right. exists id. split; [by left | done].
        -- right. exists id'. split; [by right | done].
      * intros [?|(id' & [->|Hin]%elem_of_cons & Hs)];
          [by left; left | by left; right | right; eauto].
    + destruct Hr2 as [?|Hr2]; [by left|]. rewrite Hr2.
      destruct Hs2 as [Hs2|Hs2]; [left; congruence | by right].
Qed.

Lemma locate_spans_spec reset fallback ids tpl eos v v' m' :
  last ids = Some eos →
  locate_spans reset fallback ids tpl eos (v, zeros_like ids) = Ok (v', m') →
  template_mask ids tpl eos m'.
Proof.
  intros Hlast H. unfold locate_spans in H.
  destruct tpl as [|t tpl]; [discriminate|]. simpl in H.
  apply foldM_mask_span_spec in H as [Hlen Hmask];
    [|done|done|apply length_zeros_like].
  split; [done|]. intros p Hp. destruct (Hmask p Hp) as [H1 H2]. split.
  - rewrite H1. split.
    + intros [Hz|(id & _ & Hm & e & He & Hpe)].
      * apply lookup_zeros_like in Hz. discriminate.
      * exists id, e. done.
    + intros (id & e & Hm & He & Hpe). right. exists id. split.
      * apply elem_of_where_eq. exists id. split; [done|].
        by eapply matches_at_first.
      * split; [done|]. eauto.
  - destruct H2 as [?|H2]; [by left|]. right. rewrite H2.
    destruct (lookup_lt_is_Some_2 (zeros_like ids) p) as [x Hx];
      [by rewrite length_zeros_like|].
    rewrite Hx. by apply lookup_zeros_like in Hx as ->.
Qed.

(** ** Items of [RewardDataset] *)

(** What a returned item records about the run of [__getitem__]. *)
Lemma RewardDataset_getitem_Ok self idx it :
  RewardDataset_getitem self idx = Ok it →
  let tk := tokenizer self in
  ∃ chosen_enc reject_enc,
    set_last (input_ids chosen_enc) (eos_token_id tk) = Ok (chosen_ids it)
    ∧ set_last (input_ids reject_enc) (eos_token_id tk) = Ok (reject_ids it)
    ∧ set_last (attention_mask chosen_enc) py_True = Ok (chosen_mask it)
    ∧ set_last (attention_mask reject_enc) py_True = Ok (reject_mask it)
    ∧ match response_template self with
      | Some template =>
          let response_tokens := input_ids (tok_call tk template None) in
          ∃ v v',
            locate_spans false false (chosen_ids it) response_tokens (eos_token_id tk)
              (Unbound, zeros_like (chosen_ids it)) = Ok (v, chosen_loss_mask it)
            ∧ locate_spans true false (reject_ids it) response_tokens (eos_token_id tk)
                (v, zeros_like (reject_ids it)) = Ok (v', reject_loss_mask it)
      | None =>
          chosen_loss_mask it = chosen_mask it ∧ reject_loss_mask it = reject_mask it
      end.
Proof.
  unfold RewardDataset_getitem. intros H.
  do 4 inv_bind H. inv_bind H. inv_bind H.
  inv_bind H. rename a5 into cids, Ha5 into Hcids.
  inv_bind H. rename a5 into rids, Ha5 into Hrids.
  inv_bind H. rename a5 into cam, Ha5 into Hcam.
  inv_bind H. rename a5 into ram, Ha5 into Hram.
  eexists _, _.
  destruct (response_template self) as [template|].
  - inv_bind H. destruct a5 as [v cm]. inv_bind H. destruct a5 as [v' rm].
    injection H as <-. simpl. repeat split; try eassumption. eauto.
  - injection H as <-. simpl. repeat split; eassumption.
Qed.

(** ** Items of [QwenRewardDataset] *)

Lemma Qwen_getitem_Ok {Images Pixels} (self : QwenRewardDataset Images Pixels) idx it :
  Qwen_getitem self idx = Ok it →
  let tk := tokenizer (common self) in
  ∃ chosen_out reject_out : ProcessorOutput Pixels,
    set_last (out_input_ids chosen_out) (eos_token_id tk) = Ok (q_chosen_ids it)
    ∧ set_last (out_input_ids reject_out) (eos_token_id tk) = Ok (q_reject_ids it)
    ∧ set_last (out_attention_mask chosen_out) py_True = Ok (q_chosen_mask it)
    ∧ set_last (out_attention_mask reject_out) py_True = Ok (q_reject_mask it)
    ∧ match response_template (common self) with
      | Some template =>
          let response_tokens := input_ids (tok_call tk template None) in
          ∃ v v',
            locate_spans false true (q_chosen_ids it) response_tokens (eos_token_id tk)
              (Unbound, zeros_like (q_chosen_ids it)) = Ok (v, q_chosen_loss_mask it)
            ∧ locate_spans true true (q_reject_ids it) response_tokens (eos_token_id tk)
                (v, zeros_like (q_reject_ids it)) = Ok (v', q_reject_loss_mask it)
      | None =>
          q_chosen_loss_mask it = q_chosen_mask it
          ∧ q_reject_loss_mask it = q_reject_mask it
      end.
Proof.
  unfold Qwen_getitem. intros H.
  do 4 inv_bind H. do 2 inv_bind H. do 2 inv_bind H. do 2 inv_bind H.
  inv_bind H. rename a9 into cids, Ha9 into Hcids.
  inv_bind H. rename a9 into rids, Ha9 into Hrids.
  inv_bind H. rename a9 into cam, Ha9 into Hcam.
  inv_bind H. rename a9 into ram, Ha9 into Hram.
  inv_bind H. destruct a9 as [cm rm]. injection H as <-. simpl.
  eexists _, _.
  destruct (response_template (common self)) as [template|].
  - inv_bind Ha9. destruct a9 as [v cm']. inv_bind Ha9. destruct a9 as [v' rm'].
    injection Ha9 as <- <-. repeat split; try eassumption. eauto.
  - injection Ha9 as <- <-. repeat split; eassumption.
Qed.

(** ** Tokenized sides *)

(** C2. Every item returned by [__getitem__] of either dataset has the
    end-of-sequence id as the last element of [input_ids] and [True] as the
    last element of [attention_mask], on the chosen and on the rejected
    side, whatever the tokenizer or processor returned after truncation. *)
Theorem getitem_last_is_eos :
  (∀ self idx it,
     RewardDataset_getitem self idx = Ok it →
     last (chosen_ids it) = Some (eos_token_id (tokenizer self))
     ∧ last (chosen_mask it) = Some py_True
     ∧ last (reject_ids it) = Some (eos_token_id (tokenizer self))
     ∧ last (reject_mask it) = Some py_True)
  ∧ (∀ Images Pixels (self : QwenRewardDataset Images Pixels) idx it,
       Qwen_getitem self idx = Ok it →
       last (q_chosen_ids it) = Some (eos_token_id (tokenizer (common self)))
       ∧ last (q_chosen_mask it) = Some py_True
       ∧ last (q_reject_ids it) = Some (eos_token_id (tokenizer (common self)))
       ∧ last (q_reject_mask it) = Some py_True).
Proof.
  split.
  - intros self idx it H.
    destruct (RewardDataset_getitem_Ok _ _ _ H) as (ce & re & H1 & H2 & H3 & H4 & _).
    repeat split; by eapply set_last_last.
  - intros Images Pixels self idx it H.
    destruct (Qwen_getitem_Ok _ _ _ H) as (ce & re & H1 & H2 & H3 & H4 & _).
    repeat split; by eapply set_last_last.
Qed.

(** The text of the first example has thirteen tokens and [max_length] is
    ten: the forced terminator replaces the tenth token. *)
Lemma getitem_last_is_eos_witness :
  (10 < length (char_ids "Q: 2+2?A: 4 $")
   ∧ ∃ it,
       RewardDataset_getitem
         (one_example 10 1 false None (PStr "Q: 2+2?") (PStr "A: 4") (PStr "A: 5")) 0
       = Ok it
       ∧ last (chosen_ids it) = Some 36%Z ∧ last (chosen_mask it) = Some 1%Z
       ∧ last (reject_ids it) = Some 36%Z ∧ last (reject_mask it) = Some 1%Z)
  ∧ ∃ it,
      Qwen_getitem
        (one_conversation 8 None [says "u" "hi"; says "a" "yo"]
           [says "u" "hi"; says "a" "no"]) 0 = Ok it
      ∧ last (q_chosen_ids it) = Some 36%Z ∧ last (q_chosen_mask it) = Some 1%Z
      ∧ last (q_reject_ids it) = Some 36%Z ∧ last (q_reject_mask it) = Some 1%Z.
Proof.
  split; [split; [vm_compute; lia|]|].
  - eexists. split; [vm_compute; reflexivity|].
    apply (proj1 getitem_last_is_eos
             (one_example 10 1 false None (PStr "Q: 2+2?") (PStr "A: 4") (PStr "A: 5")) 0).
    vm_compute; reflexivity.
  - eexists. split; [vm_compute; reflexivity|].
    apply (proj2 getitem_last_is_eos unit unit
             (one_conversation 8 None [says "u" "hi"; says "a" "yo"]
                [says "u" "hi"; says "a" "no"]) 0).
    vm_compute; reflexivity.
Defined.

(** C5. Without a response template the loss mask that [__getitem__]
    returns is the attention mask it returns, on both sides and for both
    datasets. *)
Theorem getitem_loss_mask_without_template :
  (∀ self idx it,
     response_template self = None →
     RewardDataset_getitem self idx = Ok it →
     chosen_loss_mask it = chosen_mask it ∧ reject_loss_mask it = reject_mask it)
  ∧ (∀ Images Pixels (self : QwenRewardDataset Images Pixels) idx it,
       response_template (common self) = None →
       Qwen_getitem self idx = Ok it →
       q_chosen_loss_mask it = q_chosen_mask it
       ∧ q_reject_loss_mask it = q_reject_mask it).
Proof.
  split.
  - intros self idx it Hnone H.
    destruct (RewardDataset_getitem_Ok _ _ _ H) as (ce & re & _ & _ & _ & _ & Hmask).
    by rewrite Hnone in Hmask.
  - intros Images Pixels self idx it Hnone H.
    destruct (Qwen_getitem_Ok _ _ _ H) as (ce & re & _ & _ & _ & _ & Hmask).
    by rewrite Hnone in Hmask.
Qed.

Lemma getitem_loss_mask_without_template_witness :
  (∃ it,
     RewardDataset_getitem
       (one_example 10 1 false None (PStr "Q: 2+2?") (PStr "A: 4") (PStr "A: 5")) 0
     = Ok it
     ∧ chosen_loss_mask it = chosen_mask it ∧ reject_loss_mask it = reject_mask it)
  ∧ ∃ it,
      Qwen_getitem
        (one_conversation 20 None [says "u" "hi"; says "a" "yo"]
           [says "u" "hi"; says "a" "no"]) 0 = Ok it
      ∧ q_chosen_loss_mask it = q_chosen_mask it
      ∧ q_reject_loss_mask it = q_reject_mask it.
Proof.
  split.
  - eexists. split; [vm_compute; reflexivity|].
    apply (proj1 getitem_loss_mask_without_template
             (one_example 10 1 false None (PStr "Q: 2+2?") (PStr "A: 4") (PStr "A: 5")) 0);
      [reflexivity | vm_compute; reflexivity].
  - eexists. split; [vm_compute; reflexivity|].
    apply (proj2 getitem_loss_mask_without_template unit unit
             (one_conversation 20 None [says "u" "hi"; says "a" "yo"]
                [says "u" "hi"; says "a" "no"]) 0);
      [reflexivity | vm_compute; reflexivity].
Defined.

(** C1. With a response template, the loss mask of every tokenized side
    that [__getitem__] returns is [1] exactly at the positions that lie
    after a contiguous match of the whole template and at or before the
    first end-of-sequence id from the end of that match on (the last valid
    index when none follows), and [0] at every other position. *)
Theorem getitem_loss_mask_with_template :
  (∀ self idx it template,
     response_template self = Some template →
     RewardDataset_getitem self idx = Ok it →
     let tk := tokenizer self in
     let response_tokens := input_ids (tok_call tk template None) in
     template_mask (chosen_ids it) response_tokens (eos_token_id tk) (chosen_loss_mask it)
     ∧ template_mask (reject_ids it) response_tokens (eos_token_id tk)
         (reject_loss_mask it))
  ∧ (∀ Images Pixels (self : QwenRewardDataset Images Pixels) idx it template,
       response_template (common self) = Some template →
       Qwen_getitem self idx = Ok it →
       let tk := tokenizer (common self) in
       let response_tokens := input_ids (tok_call tk template None) in
       template_mask (q_chosen_ids it) response_tokens (eos_token_id tk)
         (q_chosen_loss_mask it)
       ∧ template_mask (q_reject_ids it) response_tokens (eos_token_id tk)
           (q_reject_loss_mask it)).
Proof.
  split.
  - intros self idx it template Htpl H.
    destruct (RewardDataset_getitem_Ok _ _ _ H) as (ce & re & H1 & H2 & _ & _ & Hmask).
    rewrite Htpl in Hmask. destruct Hmask as (v & v' & Hc & Hr).
    split; eapply locate_spans_spec; eauto using set_last_last.
  - intros Images Pixels self idx it template Htpl H.
    destruct (Qwen_getitem_Ok _ _ _ H) as (ce & re & H1 & H2 & _ & _ & Hmask).
    rewrite Htpl in Hmask. destruct Hmask as (v & v' & Hc & Hr).
    split; eapply locate_spans_spec; eauto using set_last_last.
Qed.

(** The second example of the specification: template ["A:"], chosen
    tokens [Q : 2 + 2 ? A : 4 EOS]. *)
Lemma getitem_loss_mask_with_template_witness :
  (∃ it,
     RewardDataset_getitem
       (one_example 10 1 false (Some "A:") (PStr "Q:2+2?") (PStr "A:4$") (PStr "A:5$")) 0
     = Ok it
     ∧ chosen_loss_mask it = [0; 0; 0; 0; 0; 0; 0; 0; 1; 1]%Z
     ∧ template_mask (chosen_ids it) (char_ids "A:") 36 (chosen_loss_mask it)
     ∧ template_mask (reject_ids it) (char_ids "A:") 36 (reject_loss_mask it))
  ∧ ∃ it,
      Qwen_getitem
        (one_conversation 20 (Some "a:") [says "u" "hi"; says "a" "yo"]
           [says "u" "hi"; says "a" "no"]) 0 = Ok it
      ∧ q_chosen_loss_mask it = [0; 0; 0; 0; 0; 0; 0; 1; 1; 1]%Z
      ∧ template_mask (q_chosen_ids it) (char_ids "a:") 36 (q_chosen_loss_mask it)
      ∧ template_mask (q_reject_ids it) (char_ids "a:") 36 (q_reject_loss_mask it).
Proof.
  split.
  - eexists. split; [vm_compute; reflexivity|]. split; [reflexivity|].
    apply (proj1 getitem_loss_mask_with_template
             (one_example 10 1 false (Some "A:") (PStr "Q:2+2?") (PStr "A:4$")
                (PStr "A:5$")) 0 _ "A:");
      [reflexivity | vm_compute; reflexivity].
  - eexists. split; [vm_compute; reflexivity|]. split; [reflexivity|].
    apply (proj2 getitem_loss_mask_with_template unit unit
             (one_conversation 20 (Some "a:") [says "u" "hi"; says "a" "yo"]
                [says "u" "hi"; says "a" "no"]) 0 _ "a:");
      [reflexivity | vm_compute; reflexivity].
Defined.

(** ** A match that no end-of-sequence id follows *)

(** The four copies of the loop at a match whose answer start sees no
    [eos]: only the loop over the rejected side of [QwenRewardDataset]
    falls back to the last index. *)
Lemma mask_span_step_no_eos ids tpl eos v m id :
  matches_at ids tpl id →
  find_eos ids eos (id + length tpl) = None →
  mask_span_step true false ids tpl eos (v, m) id = Raise TypeError
  ∧ mask_span_step false false ids tpl eos (Unbound, m) id = Raise UnboundLocalError
  ∧ mask_span_step false true ids tpl eos (Unbound, m) id = Raise UnboundLocalError
  ∧ mask_span_step true true ids tpl eos (v, m) id
    = Ok (BoundInt (length ids - 1),
          assign_slice m (id + length tpl) (length ids - 1 + 1) 1).
Proof.
  intros Hm%match_test_true Hscan. unfold mask_span_step.
  rewrite Hm, Hscan. done.
Qed.

(** C3. The fallback to the last valid index is missing from three of the
    four loops.  With the separator ["$"] as response template, the last
    token of every side is a match that nothing follows:
    [RewardDataset.__getitem__] reads the unassigned [end_id] on the chosen
    side when that match is the first one, and adds one to [None] on the
    rejected side; [QwenRewardDataset.__getitem__] reads the unassigned
    [end_id] on the chosen side. *)
Theorem getitem_match_without_eos_raises :
  RewardDataset_getitem
    (one_example 20 1 false (Some "$") (PStr "q") (PStr "a") (PStr "b")) 0
  = Raise UnboundLocalError
  ∧ RewardDataset_getitem
      (one_example 20 1 false (Some "$") (PStr "u:hi$") (PStr "a:yo$") (PStr "a:no$")) 0
    = Raise TypeError
  ∧ Qwen_getitem (one_conversation 20 (Some "$") [says "a" "yo"] [says "a" "no"]) 0
    = Raise UnboundLocalError
  ∧ is_ok (Qwen_getitem
             (one_conversation 20 (Some "$") [says "u" "hi"; says "a" "yo"]
                [says "u" "hi"; says "a" "no"]) 0) = true.
Proof. repeat split; vm_compute; reflexivity. Qed.

(** ** Padded batches *)

Lemma length_zero_pad_sequences sequences side value :
  length (zero_pad_sequences sequences side value) = length sequences.
Proof. unfold zero_pad_sequences. apply length_fmap. Qed.

Lemma max_list_elem_of_le (n : nat) ns : n ∈ ns → n ≤ max_list ns.
Proof.
  induction ns as [|m ns IH]; [by intros ?%elem_of_nil|].
  intros [->|Hin]%elem_of_cons; simpl; [lia|]. specialize (IH Hin). lia.
Qed.

(** Every row of a padded field has the maximum length of the field. *)
Lemma zero_pad_sequences_row_length sequences side value r :
  r ∈ zero_pad_sequences sequences side value →
  length r = max_list (length <$> sequences).
Proof.
  unfold zero_pad_sequences. intros (seq & -> & Hin)%list_elem_of_fmap.
  assert (length seq ≤ max_list (length <$> sequences)) as Hle.
  { apply max_list_elem_of_le, list_elem_of_fmap. eauto. }
  destruct side; rewrite length_app, length_replicate; lia.
Qed.

Lemma mapM_as_tensor (rows : list row) :
  mapM_result as_tensor (OTensor <$> rows) = Ok rows.
Proof.
  induction rows as [|r rows IH]; csimpl; [done|]. by rewrite IH.
Qed.

Lemma pad_field_tensors {A} (f : A → row) (items : list A) side value :
  pad_field ((fun it => OTensor (f it)) <$> items) side value
  = Ok (zero_pad_sequences (f <$> items) side value).
Proof.
  unfold pad_field.
  replace ((fun it => OTensor (f it)) <$> items) with (OTensor <$> (f <$> items))
    by (by rewrite <- list_fmap_compose).
  by rewrite mapM_as_tensor.
Qed.

Lemma foldM_collect_step st (items : list Item) :
  foldM collect_step st (item_tuple <$> items)
  = Ok {| c_chosen_ids := c_chosen_ids st ++ ((fun it => OTensor (chosen_ids it)) <$> items);
          c_chosen_masks :=
            c_chosen_masks st ++ ((fun it => OTensor (chosen_mask it)) <$> items);
          c_reject_ids := c_reject_ids st ++ ((fun it => OTensor (reject_ids it)) <$> items);
          c_rejects_masks :=
            c_rejects_masks st ++ ((fun it => OTensor (reject_mask it)) <$> items);
          c_extras := c_extras st ++ ((fun it => OVal (item_extra it)) <$> items);
          c_chosen_loss_masks :=
            c_chosen_loss_masks st
            ++ ((fun it => OTensor (chosen_loss_mask it)) <$> items);
          c_reject_loss_masks :=
            c_reject_loss_masks st
            ++ ((fun it => OTensor (reject_loss_mask it)) <$> items);
          c_rejected_loss_mask :=
            match last items with
            | Some it => Some (OTensor (reject_loss_mask it))
            | None => c_rejected_loss_mask st
            end |}.
Proof.
  revert st; induction items as [|it items IH]; intros st; csimpl.
  - destruct st; simpl. by rewrite !app_nil_r.
  - rewrite IH. simpl. rewrite <- !app_assoc. simpl.
    f_equal. f_equal. destruct items as [|i items]; [reflexivity|].
    change (last (it :: i :: items)) with (last (i :: items)).
    destruct (last (i :: items)) eqn:Hlast; [done|].
    by apply last_None in Hlast.
Qed.

(** C4. [RewardDataset.collate_fn] pads and stacks six lists, but the
    sixth member of the tuple it returns is the loop variable
    [rejected_loss_mask]: the loss mask of the rejected side of the last
    item, one row, as long as that item made it, and not the padded stack
    [reject_loss_masks] with one row per item. *)
Theorem collate_fn_sixth_is_last_item :
  (∀ self items it,
     ∃ b, collate_fn self (item_tuple <$> items ++ [it]) = Ok b
          ∧ b_chosen_loss_masks b
            = zero_pad_sequences (chosen_loss_mask <$> items ++ [it]) (side_of self) 0
          ∧ b_sixth b = OTensor (reject_loss_mask it)
          ∧ rows_of (b_sixth b) = [reject_loss_mask it])
  ∧ ∃ b, collate_fn (one_example 10 1 false None PNone PNone PNone)
           [item_tuple item_long; item_tuple item_short] = Ok b
         ∧ b_chosen_loss_masks b = [[0; 0; 1]; [0; 1; 1]]%Z
         ∧ zero_pad_sequences [reject_loss_mask item_long; reject_loss_mask item_short]
             PadLeft 0 = [[0; 1; 1; 1]; [0; 0; 1; 1]]%Z
         ∧ rows_of (b_sixth b) = [[1; 1]]%Z.
Proof.
  split.
  - intros self items it. unfold collate_fn. rewrite foldM_collect_step. simpl.
    rewrite !pad_field_tensors. simpl. rewrite last_snoc.
    eexists. split; [reflexivity|]. simpl. done.
  - eexists. split; [vm_compute; reflexivity|]. done.
Qed.

(** ** Packed batches *)

Lemma foldM_packing_step n st (items : list PackItem) :
  foldM (packing_step n) st (pack_tuple <$> items)
  = Ok {| k_extras := k_extras st ++ (pk_extra <$> items);
          k_chosen_ids := k_chosen_ids st ++ (pk_chosen_id <$> items);
          k_chosen_att_masks :=
            k_chosen_att_masks st
            ++ imap (fun i it => full_like (pk_chosen_id it) (k_index st + Z.of_nat i)) items;
          k_chosen_seq_lens :=
            k_chosen_seq_lens st ++ ((fun it => length (pk_chosen_id it)) <$> items);
          k_rejected_ids := k_rejected_ids st ++ (pk_reject_id <$> items);
          k_rejected_att_masks :=
            k_rejected_att_masks st
            ++ imap (fun i it =>
                       full_like (pk_reject_id it) (k_index st + Z.of_nat i + Z.of_nat n))
                 items;
          k_rejected_seq_lens :=
            k_rejected_seq_lens st ++ ((fun it => length (pk_reject_id it)) <$> items);
          k_index := (k_index st + Z.of_nat (length items))%Z |}.
Proof.
  revert st; induction items as [|it items IH]; intros st; csimpl.
  - destruct st; simpl. rewrite !app_nil_r. do 2 f_equal. lia.
  - rewrite IH. simpl. rewrite <- !app_assoc. simpl.
    rewrite Z.add_0_r. f_equal. f_equal; [| |lia].
    + do 2 f_equal. apply imap_ext. intros i x _. simpl. f_equal. lia.
    + do 2 f_equal. apply imap_ext. intros i x _. simpl. f_equal. lia.
Qed.

(** The loop runs to its end only over tuples of five members with
    tensors as first and third member. *)
Lemma foldM_packing_step_Ok n st item_list st' :
  foldM (packing_step n) st item_list = Ok st' →
  ∃ items : list PackItem, item_list = pack_tuple <$> items.
Proof.
  revert st; induction item_list as [|item item_list IH]; intros st H.
  - by exists [].
  - simpl in H. inv_bind H. destruct (IH _ H) as [items ->].
    unfold packing_step in Ha.
    destruct item as [|c [|cm [|r [|rm [|e [|]]]]]]; try discriminate.
    destruct c as [c| | |]; try discriminate.
    destruct r as [r| | |]; try discriminate.
    by exists ({| pk_chosen_id := c; pk_chosen_mask := cm; pk_reject_id := r;
                 pk_rejects_mask := rm; pk_extra := e |} :: items).
Qed.

Lemma segment_runs_app first lens1 lens2 :
  segment_runs first (lens1 ++ lens2)
  = segment_runs first lens1 ++ segment_runs (first + length lens1) lens2.
Proof.
  unfold segment_runs. rewrite imap_app, concat_app. do 2 f_equal.
  apply imap_ext. intros k len _. simpl. do 2 f_equal. lia.
Qed.

Lemma segment_runs_full_like {A} (f : A → row) (first : nat) (z : Z) (items : list A) :
  z = Z.of_nat first →
  concat (imap (fun i it => full_like (f it) (z + Z.of_nat i)) items)
  = segment_runs first ((fun it => length (f it)) <$> items).
Proof.
  intros ->. unfold segment_runs. rewrite imap_fmap. f_equal.
  apply imap_ext. intros i it _. unfold full_like. simpl. f_equal. lia.
Qed.

Lemma length_segment_runs first lens : length (segment_runs first lens) = sum_list lens.
Proof.
  revert first; induction lens as [|len lens IH]; intros first; [done|].
  change (len :: lens) with ([len] ++ lens). rewrite segment_runs_app. simpl.
  rewrite length_app, IH. unfold segment_runs. simpl.
  rewrite app_nil_r, length_replicate. done.
Qed.

Lemma length_concat_fmap {A} (f : A → row) (items : list A) :
  length (concat (f <$> items)) = sum_list ((fun it => length (f it)) <$> items).
Proof.
  induction items as [|it items IH]; csimpl; [done|]. by rewrite length_app, IH.
Qed.

(** The segment id at the [i]-th position of the [k]-th run. *)
Lemma lookup_segment_runs first lens k len i :
  lens !! k = Some len → i < len →
  segment_runs first lens !! (sum_list (take k lens) + i) = Some (Z.of_nat (first + k)).
Proof.
  intros Hk Hi.
  replace (segment_runs first lens)
    with (segment_runs first (take k lens ++ len :: drop (S k) lens))
    by (by rewrite take_drop_middle).
  rewrite segment_runs_app.
  rewrite lookup_app_r by (rewrite length_segment_runs; lia).
  rewrite length_segment_runs.
  replace (sum_list (take k lens) + i - sum_list (take k lens)) with i by lia.
  change (len :: drop (S k) lens) with ([len] ++ drop (S k) lens).
  rewrite segment_runs_app.
  assert (length (take k lens) = k) as ->.
  { apply length_take_le. apply lookup_lt_Some in Hk. lia. }
  rewrite lookup_app_l by (rewrite length_segment_runs; simpl; lia).
  unfold segment_runs. simpl. rewrite app_nil_r.
  rewrite lookup_replicate_2 by done. do 2 f_equal. lia.
Qed.

Lemma torch_cat_Ok tensors t : torch_cat tensors = Ok t → t = concat tensors.
Proof. destruct tensors; simpl; [discriminate | by intros [= <-]]. Qed.

(** The result of [packing_collate_fn], whenever it returns one. *)
Lemma packing_collate_fn_Ok self item_list b :
  packing_collate_fn self item_list = Ok b →
  ∃ items : list PackItem,
    item_list = pack_tuple <$> items
    ∧ let ids := concat (pk_chosen_id <$> items) ++ concat (pk_reject_id <$> items) in
      let lens := ((fun it => length (pk_chosen_id it)) <$> items)
                  ++ ((fun it => length (pk_reject_id it)) <$> items) in
      let pad := padding_of (multiple_of self) (length ids) in
      b = {| packed_input_ids := ids ++ replicate pad (pad_token_id (tokenizer self));
             packed_attention_masks := segment_runs 1 lens ++ replicate pad 0%Z;
             packed_seq_lens := lens;
             packed_extras := pk_extra <$> items |}.
Proof.
  unfold packing_collate_fn. intros H. inv_bind H.
  destruct (foldM_packing_step_Ok _ _ _ _ Ha) as [items ->]. exists items.
  split; [done|]. rewrite foldM_packing_step in Ha. injection Ha as <-. simpl in H.
  rewrite length_fmap in H.
  inv_bind H. inv_bind H.
  apply torch_cat_Ok in Ha as ->. apply torch_cat_Ok in Ha0 as ->.
  rewrite !concat_app in H.
  rewrite (segment_runs_full_like pk_chosen_id 1) in H by done.
  assert (concat (imap (fun i it => full_like (pk_reject_id it)
                                      (1 + Z.of_nat i + Z.of_nat (length items))) items)
          = segment_runs (1 + length items)
              ((fun it => length (pk_reject_id it)) <$> items)) as Hrej.
  { rewrite <- (segment_runs_full_like pk_reject_id (1 + length items)
                  (1 + Z.of_nat (length items))) by lia.
    f_equal. apply imap_ext. intros i it _. simpl. f_equal. lia. }
  rewrite Hrej in H. simpl.
  rewrite segment_runs_app, length_fmap. unfold padding_of.
  unfold pad_right in H.
  destruct (bool_decide _ && negb _); injection H as <-; simpl;
    by rewrite ?app_nil_r.
Qed.

Lemma packing_collate_fn_nonempty self (items : list PackItem) :
  items ≠ [] → is_ok (packing_collate_fn self (pack_tuple <$> items)) = true.
Proof.
  intros Hne. unfold packing_collate_fn. rewrite foldM_packing_step. simpl.
  destruct items as [|it items]; [done|]. simpl.
  by destruct (bool_decide _ && negb _).
Qed.

Lemma sum_list_app_nat (l k : list nat) : sum_list (l ++ k) = sum_list l + sum_list k.
Proof. apply (sum_list_with_app id). Qed.

Lemma pack_tuple_inj (items items' : list PackItem) :
  pack_tuple <$> items = pack_tuple <$> items' → items = items'.
Proof.
  revert items'; induction items as [|it items IH]; intros [|it' items'] H;
    try done.
  destruct it, it'. injection H as H1 H2 H3 H4 H5 H. simpl in *. subst.
  f_equal. by apply IH.
Qed.

(** The batch that [packing_collate_fn] returns on tuples of five members
    whose first and third member are tensors of shape [1, n]. *)
Lemma packing_collate_fn_tuples self (items : list PackItem) b :
  packing_collate_fn self (pack_tuple <$> items) = Ok b →
  let ids := concat (pk_chosen_id <$> items) ++ concat (pk_reject_id <$> items) in
  let lens := ((fun it => length (pk_chosen_id it)) <$> items)
              ++ ((fun it => length (pk_reject_id it)) <$> items) in
  let pad := padding_of (multiple_of self) (length ids) in
  b = {| packed_input_ids := ids ++ replicate pad (pad_token_id (tokenizer self));
         packed_attention_masks := segment_runs 1 lens ++ replicate pad 0%Z;
         packed_seq_lens := lens;
         packed_extras := pk_extra <$> items |}.
Proof.
  intros H. destruct (packing_collate_fn_Ok _ _ _ H) as (items' & Heq & Hb).
  by apply pack_tuple_inj in Heq as <-.
Qed.

Lemma packing_collate_fn_returns self (items : list PackItem) :
  items ≠ [] → ∃ b, packing_collate_fn self (pack_tuple <$> items) = Ok b.
Proof.
  intros Hne. pose proof (packing_collate_fn_nonempty self items Hne) as H.
  destruct (packing_collate_fn self (pack_tuple <$> items)) as [b|]; [eauto | done].
Qed.

Lemma packing_collate_fn_in_segments self (items : list PackItem) b :
  packing_collate_fn self (pack_tuple <$> items) = Ok b →
  packed_in_segments (pad_token_id (tokenizer self)) items b.
Proof.
  intros H. pose proof (packing_collate_fn_tuples _ _ _ H) as Hb.
  simpl in Hb. exists (padding_of (multiple_of self) (length
    (concat (pk_chosen_id <$> items) ++ concat (pk_reject_id <$> items)))).
  set (pad := padding_of _ _) in *. rewrite Hb. simpl.
  set (cl := (fun it => length (pk_chosen_id it)) <$> items).
  set (rl := (fun it => length (pk_reject_id it)) <$> items).
  assert (length cl = length items) as Hcl by apply length_fmap.
  assert (length rl = length items) as Hrl by apply length_fmap.
  repeat split.
  - by rewrite <- app_assoc.
  - rewrite length_app. lia.
  - intros k it i Hk Hi.
    assert (cl !! k = Some (length (pk_chosen_id it))) as Hck.
    { unfold cl. by rewrite list_lookup_fmap, Hk. }
    assert ((cl ++ rl) !! k = Some (length (pk_chosen_id it))) as Hlk.
    { by apply lookup_app_l_Some. }
    pose proof (lookup_segment_runs 1 _ _ _ _ Hlk Hi) as Hseg.
    rewrite take_app_le in Hseg by (apply lookup_lt_Some in Hck; lia).
    rewrite lookup_app_l.
    + rewrite Hseg. do 2 f_equal. lia.
    + rewrite length_segment_runs, sum_list_app_nat.
      rewrite <- (take_drop_middle _ _ _ Hck) at 2.
      rewrite sum_list_app_nat. simpl. lia.
  - intros k it i Hk Hi.
    assert (rl !! k = Some (length (pk_reject_id it))) as Hrk.
    { unfold rl. by rewrite list_lookup_fmap, Hk. }
    assert ((cl ++ rl) !! (length cl + k) = Some (length (pk_reject_id it))) as Hlk.
    { by rewrite lookup_app_r, Nat.add_sub_swap, Nat.sub_diag by lia. }
    pose proof (lookup_segment_runs 1 _ _ _ _ Hlk Hi) as Hseg.
    rewrite take_app_add, sum_list_app_nat in Hseg.
    rewrite lookup_app_l.
    + rewrite Hseg. do 2 f_equal. lia.
    + rewrite length_segment_runs, sum_list_app_nat.
      rewrite <- (take_drop_middle _ _ _ Hrk) at 2.
      rewrite sum_list_app_nat. simpl. lia.
  - intros p [Hp1 Hp2].
    rewrite length_app, length_segment_runs, length_replicate in Hp2.
    rewrite lookup_app_r by (rewrite length_segment_runs; lia).
    rewrite length_segment_runs. apply lookup_replicate_2. lia.
Qed.

(** C6. On every non-empty list of [N] tuples of five members whose first
    and third member are tensors of shape [1, n], [packing_collate_fn]
    returns a batch, and so does the method of the same text of
    [QwenRewardDataset]; the ids of the batch are the chosen sequences in
    list order, then the rejected sequences in list order, then the pad
    ids; every position of the chosen sequence at (0-based) index [k]
    carries segment id [k + 1] and every position of the rejected sequence
    at index [k] carries [k + 1 + N]; the segment row consists of [2 * N]
    consecutive runs numbered [1 .. 2 * N], followed by the pad positions
    with id [0]. *)
Theorem packing_collate_fn_segments :
  (∀ (self : RewardDataset) (items : list PackItem),
     items ≠ [] →
     ∃ b, packing_collate_fn self (pack_tuple <$> items) = Ok b
          ∧ packed_in_segments (pad_token_id (tokenizer self)) items b)
  ∧ (∀ Images Pixels (self : QwenRewardDataset Images Pixels) (items : list PackItem),
       items ≠ [] →
       ∃ b, Qwen_packing_collate_fn self (pack_tuple <$> items) = Ok b
            ∧ packed_in_segments (pad_token_id (tokenizer (common self))) items b).
Proof.
  split.
  - intros self items Hne.
    destruct (packing_collate_fn_returns self items Hne) as [b Hb].
    exists b. split; [done|]. by apply packing_collate_fn_in_segments.
  - intros Images Pixels self items Hne. unfold Qwen_packing_collate_fn.
    destruct (packing_collate_fn_returns (common self) items Hne) as [b Hb].
    exists b. split; [done|]. by apply packing_collate_fn_in_segments.
Qed.

(** The third example of the specification: lengths 3, 5, 4 and 2 with
    [multiple_of = 8] give sixteen positions, two of them padding; the
    same list through the method of [QwenRewardDataset]. *)
Lemma packing_collate_fn_segments_witness :
  (∃ b, packing_collate_fn (aligned 8) (pack_tuple <$> [pack_first; pack_second]) = Ok b
        ∧ packed_attention_masks b
          = [1; 1; 1; 2; 2; 2; 2; 2; 3; 3; 3; 3; 4; 4; 0; 0]%Z
        ∧ packed_in_segments 0 [pack_first; pack_second] b)
  ∧ (∃ b, Qwen_packing_collate_fn (aligned_patches 8)
            (pack_tuple <$> [pack_first; pack_second]) = Ok b
          ∧ packed_input_ids b
            = [11; 12; 13; 31; 32; 33; 34; 35; 21; 22; 23; 24; 41; 42; 0; 0]%Z
          ∧ packed_in_segments 0 [pack_first; pack_second] b).
Proof.
  split.
  - destruct (proj1 packing_collate_fn_segments (aligned 8) [pack_first; pack_second]
                ltac:(discriminate)) as (b & Hb & Hseg).
    exists b. split; [exact Hb|]. split; [|exact Hseg].
    vm_compute in Hb. by injection Hb as <-.
  - destruct (proj2 packing_collate_fn_segments _ _ (aligned_patches 8)
                [pack_first; pack_second] ltac:(discriminate)) as (b & Hb & Hseg).
    exists b. split; [exact Hb|]. split; [|exact Hseg].
    vm_compute in Hb. by injection Hb as <-.
Defined.

(** C7, as stated, at [multiple_of = 0]: nothing is appended, so the packed
    length is the sum of the recorded lengths, which is above the stated
    upper bound [sum + multiple_of - 1]. *)
Lemma packed_length_bound_fails_at_zero :
  ∃ b, packing_collate_fn (aligned 0) [pack_tuple pack_first] = Ok b
       ∧ ¬ (Z.of_nat (sum_list (packed_seq_lens b))
            ≤ Z.of_nat (length (packed_input_ids b))
            ≤ Z.of_nat (sum_list (packed_seq_lens b)) + multiple_of (aligned 0) - 1)%Z.
Proof.
  eexists. split; [vm_compute; reflexivity|]. vm_compute. intros [_ H]. by apply H.
Qed.

(** C7, amended. For every batch returned by [packing_collate_fn],
    [sum(packed_seq_lens) <= packed length
     <= sum(packed_seq_lens) + max(multiple_of, 1) - 1]; when
    [multiple_of > 1] the packed length is divisible by [multiple_of]; the
    ids are followed by pad ids and the segment row by as many [0]s; when
    [multiple_of <= 1] or the total is already a multiple, nothing is
    appended. *)
Theorem packing_collate_fn_length self item_list b :
  packing_collate_fn self item_list = Ok b →
  let total := sum_list (packed_seq_lens b) in
  let len := length (packed_input_ids b) in
  let mult := multiple_of self in
  ∃ ids segs pad,
    packed_input_ids b = ids ++ replicate pad (pad_token_id (tokenizer self))
    ∧ packed_attention_masks b = segs ++ replicate pad 0%Z
    ∧ length ids = total ∧ length segs = total
    ∧ total ≤ len
    ∧ (Z.of_nat len ≤ Z.of_nat total + Z.max mult 1 - 1)%Z
    ∧ ((1 < mult)%Z → (mult | Z.of_nat len)%Z)
    ∧ ((mult ≤ 1)%Z ∨ (Z.of_nat total mod mult = 0)%Z → pad = 0).
Proof.
  intros H. destruct (packing_collate_fn_Ok _ _ _ H) as (items & -> & Hb).
  simpl in Hb. rewrite Hb. simpl.
  set (ids := concat (pk_chosen_id <$> items) ++ concat (pk_reject_id <$> items)).
  set (lens := ((fun it => length (pk_chosen_id it)) <$> items)
               ++ ((fun it => length (pk_reject_id it)) <$> items)).
  assert (length ids = sum_list lens) as Hids.
  { unfold ids, lens. by rewrite length_app, sum_list_app_nat, !length_concat_fmap. }
  exists ids, (segment_runs 1 lens), (padding_of (multiple_of self) (length ids)).
  rewrite length_app, length_replicate, length_segment_runs, Hids.
  unfold padding_of.
  set (total := sum_list lens). set (m := multiple_of self).
  repeat split; try lia.
  - destruct (bool_decide (1 < m)%Z) eqn:Hm; simpl; [|lia].
    apply bool_decide_eq_true in Hm.
    destruct (bool_decide (Z.of_nat total mod m = 0)%Z) eqn:Hmod; simpl; [lia|].
    apply bool_decide_eq_false in Hmod.
    pose proof (Z.mod_pos_bound (Z.of_nat total) m ltac:(lia)). lia.
  - intros Hm. rewrite (bool_decide_eq_true_2 _ Hm). simpl.
    pose proof (Z.mod_pos_bound (Z.of_nat total) m ltac:(lia)) as Hbound.
    destruct (bool_decide (Z.of_nat total mod m = 0)%Z) eqn:Hmod; simpl.
    + apply bool_decide_eq_true in Hmod. rewrite Nat.add_0_r.
      apply Z.mod_divide; [lia | done].
    + exists (Z.of_nat total / m + 1)%Z.
      pose proof (Z.div_mod (Z.of_nat total) m ltac:(lia)). lia.
  - intros [Hm|Hmod].
    + by rewrite bool_decide_eq_false_2 by lia.
    + rewrite (bool_decide_eq_true_2 _ Hmod). simpl. by rewrite andb_false_r.
Qed.

Lemma packing_collate_fn_length_witness :
  ∃ b, packing_collate_fn (aligned 8) [pack_tuple pack_first; pack_tuple pack_second]
       = Ok b
       ∧ sum_list (packed_seq_lens b) = 14
       ∧ length (packed_input_ids b) = 16
       ∧ ∃ ids segs pad,
           packed_input_ids b = ids ++ replicate pad 0%Z
           ∧ packed_attention_masks b = segs ++ replicate pad 0%Z
           ∧ length ids = 14 ∧ length segs = 14.
Proof.
  eexists. split; [vm_compute; reflexivity|]. do 2 (split; [reflexivity|]).
  destruct (packing_collate_fn_length (aligned 8)
              [pack_tuple pack_first; pack_tuple pack_second] _ eq_refl)
    as (ids & segs & pad & H1 & H2 & H3 & H4 & _).
  exists ids, segs, pad. exact (conj H1 (conj H2 (conj H3 H4))).
Defined.

(** C10. [packing_collate_fn] unpacks every item into five names: on a
    list that starts with a tuple returned by [RewardDataset.__getitem__]
    (seven members) or by [QwenRewardDataset.__getitem__] (eleven members)
    the unpacking raises [ValueError], and a packed batch is returned only
    for lists of tuples of five members. *)
Theorem packing_collate_fn_needs_five_members :
  (∀ self (it : Item) (items : list Item),
     packing_collate_fn self (item_tuple <$> it :: items) = Raise ValueError)
  ∧ (∀ Images Pixels (self : QwenRewardDataset Images Pixels)
       (it : QwenItem Pixels) (items : list (QwenItem Pixels)),
       Qwen_packing_collate_fn self (Qwen_item_tuple <$> it :: items) = Raise ValueError)
  ∧ (∀ self item_list b,
       packing_collate_fn self item_list = Ok b →
       ∀ item, item ∈ item_list → length item = 5).
Proof.
  split; [|split].
  - intros self it items. reflexivity.
  - intros Images Pixels self it items. reflexivity.
  - intros self item_list b H item Hin.
    destruct (packing_collate_fn_Ok _ _ _ H) as (items & -> & _).
    by apply list_elem_of_fmap in Hin as (it & -> & _).
Qed.

Lemma packing_collate_fn_needs_five_members_witness :
  (∃ it, RewardDataset_getitem
           (one_example 10 1 false None (PStr "Q: 2+2?") (PStr "A: 4") (PStr "A: 5")) 0
         = Ok it
         ∧ packing_collate_fn (aligned 1) [item_tuple it] = Raise ValueError)
  ∧ ∀ item, item ∈ [pack_tuple pack_first; pack_tuple pack_second] → length item = 5.
Proof.
  split.
  - eexists. split; [vm_compute; reflexivity|].
    apply (proj1 packing_collate_fn_needs_five_members (aligned 1) _ []).
  - eapply (proj2 (proj2 packing_collate_fn_needs_five_members) (aligned 8)).
    vm_compute; reflexivity.
Defined.

(** ** The example normalizer and the prompt filter *)

Lemma mapM_result_elem_of {A B} (f : A → result B) l bs b :
  mapM_result f l = Ok bs → b ∈ bs → ∃ a, a ∈ l ∧ f a = Ok b.
Proof.
  revert bs; induction l as [|a l IH]; intros bs H Hin; simpl in H.
  - injection H as <-. by apply elem_of_nil in Hin.
  - inv_bind H. inv_bind H. injection H as <-.
    apply elem_of_cons in Hin as [->|Hin].
    + exists a. split; [by left | done].
    + destruct (IH _ Ha0 Hin) as (a' & Ha' & Hf). exists a'. split; [by right | done].
Qed.

Lemma preprocess_data_margin data tpl pk ck rk act dpo n :
  preprocess_data data tpl pk ck rk act dpo = Ok n →
  n_margin n = if exist_and_not_none data "margin"
               then default PNone (data !! "margin") else PInt 0.
Proof.
  unfold preprocess_data. intros H. inv_bind H. destruct a as [[p c] r].
  by injection H as <-.
Qed.

Lemma prompt_is_not_none_true x : prompt_is_not_none x = true ↔ p_prompt x ≠ PNone.
Proof. unfold prompt_is_not_none. destruct (p_prompt x); naive_solver. Qed.

(** What [process_data] returns in DPO mode. *)
Lemma process_data_dpo self data r :
  is_dpo self = true → process_data self data = Ok r →
  ∃ n prompt_token,
    preprocess_data data (input_template self) (prompt_key self) (chosen_key self)
      (rejected_key self) (chat_renderer self) true = Ok n
    ∧ tokenize_value (tokenizer self) (n_prompt n) (Some (max_length self))
      = Ok prompt_token
    ∧ let prompt_ids_len := int_sum (attention_mask prompt_token) in
      (p_prompt r = PNone ↔ (max_length self - 2 ≤ prompt_ids_len)%Z)
      ∧ ((prompt_ids_len < max_length self - 2)%Z → p_prompt r = n_prompt n)
      ∧ p_extra r = PInt prompt_ids_len.
Proof.
  intros Hdpo H. unfold process_data in H. rewrite Hdpo in H.
  inv_bind H. inv_bind H. injection H as <-. simpl.
  exists a, a0. repeat split; try done.
  - destruct (decide _); [done|]. intros Hnone.
    unfold tokenize_value in Ha0. rewrite Hnone in Ha0. discriminate.
  - intros Hle. by rewrite decide_True.
  - intros Hlt. by rewrite decide_False by lia.
Qed.

(** C8. In DPO mode [process_data] sets the prompt to [None] exactly when
    the sum of the attention mask of the tokenized prompt is at least
    [max_length - 2], and the extra field is that sum; otherwise the extra
    field is the margin of the record, [0] when the record has none.
    On a dataset that has rows and on which [process_data] returns,
    [__init__] returns and raises nothing on the marked examples: it keeps,
    in order, exactly the processed examples whose prompt is not [None], so
    in DPO mode every stored example has a prompt of fewer than
    [max_length - 2] tokens. *)
Theorem process_data_prompt_filter :
  (∀ self data r,
     is_dpo self = true → process_data self data = Ok r →
     ∃ n prompt_token,
       preprocess_data data (input_template self) (prompt_key self) (chosen_key self)
         (rejected_key self) (chat_renderer self) true = Ok n
       ∧ tokenize_value (tokenizer self) (n_prompt n) (Some (max_length self))
         = Ok prompt_token
       ∧ let prompt_ids_len := int_sum (attention_mask prompt_token) in
         (p_prompt r = PNone ↔ (max_length self - 2 ≤ prompt_ids_len)%Z)
         ∧ ((prompt_ids_len < max_length self - 2)%Z → p_prompt r = n_prompt n)
         ∧ p_extra r = PInt prompt_ids_len)
  ∧ (∀ self data r,
       is_dpo self = false → process_data self data = Ok r →
       (data !! "margin" = None → p_extra r = PInt 0)
       ∧ (∀ v, data !! "margin" = Some v → v ≠ PNone → p_extra r = v))
  ∧ (∀ dataset tk max_len args input_tpl dpo mult response_tpl processed,
       let self := configure tk max_len args input_tpl dpo mult response_tpl in
       dataset ≠ [] →
       mapM_result (process_data self) dataset = Ok processed →
       ∃ kept,
         RewardDataset_init dataset tk max_len args input_tpl dpo mult response_tpl
         = Ok (store self kept)
         ∧ kept `sublist_of` processed
         ∧ (∀ x, x ∈ kept ↔ x ∈ processed ∧ p_prompt x ≠ PNone)
         ∧ (dpo = true →
            ∀ x, x ∈ kept →
              ∃ k, p_extra x = PInt k ∧ (k < max_len - 2)%Z)).
Proof.
  split; [exact process_data_dpo | split].
  - intros self data r Hdpo H. unfold process_data in H. rewrite Hdpo in H.
    inv_bind H. injection H as <-. simpl.
    rewrite (preprocess_data_margin _ _ _ _ _ _ _ _ Ha). unfold exist_and_not_none.
    split.
    + by intros ->.
    + intros v -> Hv. by destruct v.
  - intros dataset tk max_len args input_tpl dpo mult response_tpl processed self
      Hrows H.
    exists (filter (fun x => prompt_is_not_none x = true) processed).
    split; [|split; [|split]].
    + unfold RewardDataset_init. fold self. rewrite H.
      by destruct dataset.
    + apply sublist_filter.
    + intros x. rewrite list_elem_of_filter, prompt_is_not_none_true. tauto.
    + intros -> x [Hnone Hin]%list_elem_of_filter.
      apply prompt_is_not_none_true in Hnone.
      destruct (mapM_result_elem_of _ _ _ _ H Hin) as (data & _ & Hdata).
      destruct (process_data_dpo self data x eq_refl Hdata)
        as (n & tok & _ & _ & Hiff & _ & Hextra).
      eexists. split; [exact Hextra|].
      destruct (decide (max_len - 2 ≤ int_sum (attention_mask tok))%Z) as [Hle|]; [|lia].
      by apply Hiff in Hle.
Qed.

(** Two records under [max_length = 10] in DPO mode: a prompt of seven
    tokens is kept, a prompt that fills the ten tokens is dropped. *)
Lemma process_data_prompt_filter_witness :
  (∃ r, process_data (configure char_tokenizer 10 plain_args None true 1 None)
          (raw_record "Q: what is 2+2?" "A: 4" "A: 5") = Ok r
        ∧ p_prompt r = PNone ∧ p_extra r = PInt 10)
  ∧ (∃ r, process_data (configure char_tokenizer 10 plain_args None false 1 None)
            (raw_record "Q: 2+2?" "A: 4" "A: 5") = Ok r
          ∧ p_extra r = PInt 0)
  ∧ ∃ kept,
      RewardDataset_init
        [raw_record "Q: 2+2?" "A: 4" "A: 5"; raw_record "Q: what is 2+2?" "A: 4" "A: 5"]
        char_tokenizer 10 plain_args None true 1 None
      = Ok (store (configure char_tokenizer 10 plain_args None true 1 None) kept)
      ∧ (p_prompt <$> kept) = [PStr "Q: 2+2?"]
      ∧ (p_extra <$> kept) = [PInt 7].
Proof.
  split; [|split].
  - eexists. split; [vm_compute; reflexivity|].
    destruct (proj1 process_data_prompt_filter
                (configure char_tokenizer 10 plain_args None true 1 None)
                (raw_record "Q: what is 2+2?" "A: 4" "A: 5") _ eq_refl eq_refl)
      as (n & tok & _ & _ & _ & _ & Hextra).
    split; [reflexivity | reflexivity].
  - eexists. split; [vm_compute; reflexivity|].
    refine (proj1 (proj1 (proj2 process_data_prompt_filter)
                     (configure char_tokenizer 10 plain_args None false 1 None)
                     (raw_record "Q: 2+2?" "A: 4" "A: 5") _ eq_refl eq_refl) _).
    vm_compute; reflexivity.
  - destruct (proj2 (proj2 process_data_prompt_filter)
                [raw_record "Q: 2+2?" "A: 4" "A: 5";
                 raw_record "Q: what is 2+2?" "A: 4" "A: 5"]
                char_tokenizer 10%Z plain_args None true 1%Z None _
                ltac:(discriminate) eq_refl)
      as (kept & Hinit & _).
    exists kept. split; [exact Hinit|].
    assert (RewardDataset_init
              [raw_record "Q: 2+2?" "A: 4" "A: 5";
               raw_record "Q: what is 2+2?" "A: 4" "A: 5"]
              char_tokenizer 10 plain_args None true 1 None
            = Ok (store (configure char_tokenizer 10 plain_args None true 1 None)
                    [{| p_prompt := PStr "Q: 2+2?"; p_chosen := PStr "A: 4";
                        p_reject := PStr "A: 5"; p_extra := PInt 7 |}])) as Hval
      by (vm_compute; reflexivity).
    rewrite Hval in Hinit. injection Hinit as H1 H2 H3 H4.
    by rewrite <- H1, <- H4.
Defined.

(** ** The clean-up of multimodal turns *)

Lemma clean_entry_null_image m : null_image m → clean_entry m = Raise AssertionError.
Proof.
  intros [Hty Himg]. unfold clean_entry. rewrite Hty. simpl.
  destruct (decide (m !! "text" = Some ANone)).
  - rewrite lookup_delete_ne by done. by rewrite Himg.
  - by rewrite Himg.
Qed.

Lemma clean_entry_scrub m : keyed m → ¬ null_image m → clean_entry m = Ok (scrub m).
Proof.
  intros [[ty Hty] Himg] Hnull. unfold clean_entry, scrub, null_image in *.
  rewrite Hty in *. simpl.
  destruct (decide (ty = AStr "image")) as [->|Hne]; simpl.
  - destruct (Himg eq_refl) as [v Hv].
    assert (v ≠ ANone) as Hv' by (intros ->; by apply Hnull).
    destruct (decide (m !! "text" = Some ANone)) as [Htext|Htext].
    + rewrite lookup_delete_ne by done. rewrite Hv. simpl.
      rewrite decide_False by done. simpl.
      rewrite (decide_True (P := _ ∧ _)) by done. by destruct (decide _).
    + rewrite Hv. simpl. rewrite decide_False by done. simpl.
      rewrite (decide_False (P := _ ∧ m !! "text" = _)) by (by intros [_ ?]).
      by destruct (decide _).
  - rewrite (decide_False (P := _ ∧ m !! "text" = _)) by (by intros [[= ->] _]).
    destruct (decide (m !! "image" = Some ANone)) as [Hi|Hi].
    + destruct (decide (ty = AStr "text")) as [->|Hnt].
      * by rewrite decide_True.
      * rewrite decide_False; [done|]. by intros [[= ->] _].
    + rewrite decide_False; [done|]. by intros [_ ?].
Qed.

Lemma mapM_result_raises {A B} (f : A → result B) l e :
  (∀ a, a ∈ l → f a = Raise e ∨ ∃ b, f a = Ok b) →
  (∃ a, a ∈ l ∧ f a = Raise e) →
  mapM_result f l = Raise e.
Proof.
  induction l as [|a l IH]; intros Hall (a' & Hin & Ha'); [by apply elem_of_nil in Hin|].
  simpl. destruct (Hall a ltac:(left)) as [->|[b Hb]]; [done|].
  rewrite Hb. simpl. rewrite IH; [done | |].
  - intros x Hx. apply Hall. by right.
  - apply elem_of_cons in Hin as [->|Hin]; [congruence | eauto].
Qed.

Lemma clean_entry_keyed m :
  keyed m → clean_entry m = Raise AssertionError ∨ ∃ m', clean_entry m = Ok m'.
Proof.
  intros Hk.
  destruct (decide (m !! "type" = Some (AStr "image") ∧ m !! "image" = Some ANone))
    as [Hnull|Hnull].
  - left. by apply clean_entry_null_image.
  - right. exists (scrub m). by apply clean_entry_scrub.
Qed.

Lemma mapM_result_one_error {A B} (f : A → result B) l e :
  (∀ a, a ∈ l → f a = Raise e ∨ ∃ b, f a = Ok b) →
  mapM_result f l = Raise e ∨ ∃ bs, mapM_result f l = Ok bs.
Proof.
  induction l as [|a l IH]; intros Hall; simpl; [eauto|].
  destruct (Hall a ltac:(left)) as [->|[b ->]]; [by left|]. simpl.
  destruct IH as [->|[bs ->]]; simpl; eauto.
  intros x Hx. apply Hall. by right.
Qed.

Lemma clean_turn_keyed d ms :
  turn_content d = CParts ms → (∀ m, m ∈ ms → keyed m) →
  clean_turn d = Raise AssertionError ∨ ∃ d', clean_turn d = Ok d'.
Proof.
  intros Hd Hk. unfold clean_turn. rewrite Hd.
  destruct (mapM_result_one_error clean_entry ms AssertionError) as [->|[ms' ->]];
    simpl; eauto.
  intros m Hm. by apply clean_entry_keyed, Hk.
Qed.

Lemma clean_conversation_null_image turns :
  keyed_turns turns → has_null_image turns →
  clean_conversation (PConv turns) = Raise AssertionError.
Proof.
  intros Hk (d & ms & m & Hd & Hms & Hm & Hnull). simpl.
  rewrite (mapM_result_raises clean_turn turns AssertionError); [done | |].
  - intros x Hx. destruct (Hk x Hx) as (ms' & Hms' & Hk').
    by eapply clean_turn_keyed.
  - exists d. split; [done|]. unfold clean_turn. rewrite Hms.
    rewrite (mapM_result_raises clean_entry ms AssertionError); [done | |].
    + intros x Hx. apply clean_entry_keyed.
      destruct (Hk d Hd) as (ms' & Hms' & Hk'). rewrite Hms in Hms'.
      injection Hms' as <-. by apply Hk'.
    + exists m. split; [done|]. by apply clean_entry_null_image.
Qed.

Lemma clean_conversation_scrub turns :
  keyed_turns turns → ¬ has_null_image turns →
  clean_conversation (PConv turns) = Ok (PConv (scrub_turn <$> turns)).
Proof.
  intros Hk Hnull. simpl.
  rewrite (mapM_result_fmap clean_turn scrub_turn); [done|].
  intros d Hd. destruct (Hk d Hd) as (ms & Hms & Hk').
  unfold clean_turn, scrub_turn. rewrite Hms.
  rewrite (mapM_result_fmap clean_entry scrub); [done|].
  intros m Hm. apply clean_entry_scrub; [by apply Hk'|].
  intros Hn. apply Hnull. by exists d, ms, m.
Qed.

Lemma clean_conversation_keyed turns :
  keyed_turns turns →
  clean_conversation (PConv turns) = Raise AssertionError
  ∨ ∃ v, clean_conversation (PConv turns) = Ok v.
Proof.
  intros Hk. simpl.
  destruct (mapM_result_one_error clean_turn turns AssertionError) as [->|[ts ->]];
    simpl; eauto.
  intros d Hd. destruct (Hk d Hd) as (ms & Hms & Hk'). by eapply clean_turn_keyed.
Qed.

(** C9. In [QwenRewardDataset.__getitem__] a content entry of type
    ["image"] whose image field is [None] fails the assertion, in the
    chosen and in the rejected conversation; a [None] text field on an
    image entry and a [None] image field on a text entry are deleted, and
    the clean-up returns the conversation without them. *)
Theorem Qwen_getitem_null_fields :
  (∀ m, null_image m → clean_entry m = Raise AssertionError)
  ∧ (∀ m, keyed m → ¬ null_image m →
       clean_entry m = Ok (scrub m)
       ∧ (m !! "type" = Some (AStr "image") → m !! "text" = Some ANone →
          scrub m = delete "text" m)
       ∧ (m !! "type" = Some (AStr "text") → m !! "image" = Some ANone →
          scrub m = delete "image" m))
  ∧ (∀ Images Pixels (self : QwenRewardDataset Images Pixels) idx
       prompt chosen reject extra,
       prompts (common self) !! idx = Some prompt →
       chosens (common self) !! idx = Some (PConv chosen) →
       rejects (common self) !! idx = Some (PConv reject) →
       extras (common self) !! idx = Some extra →
       keyed_turns chosen → keyed_turns reject →
       (has_null_image chosen ∨ has_null_image reject →
        Qwen_getitem self idx = Raise AssertionError)
       ∧ (¬ has_null_image chosen → ¬ has_null_image reject →
          clean_conversation (PConv chosen) = Ok (PConv (scrub_turn <$> chosen))
          ∧ clean_conversation (PConv reject) = Ok (PConv (scrub_turn <$> reject)))).
Proof.
  split; [exact clean_entry_null_image | split].
  - intros m Hk Hnull. split; [by apply clean_entry_scrub | split].
    + intros Hty Htext. unfold scrub. by rewrite decide_True.
    + intros Hty Himg. unfold scrub.
      rewrite decide_False by (intros [? _]; congruence). by rewrite decide_True.
  - intros Images Pixels self idx prompt chosen reject extra Hp Hc Hr He Hkc Hkr.
    split.
    + intros Hnull. unfold Qwen_getitem, py_index. rewrite Hp, Hc, Hr, He.
      cbn -[clean_conversation].
      destruct Hnull as [Hnull|Hnull].
      * by rewrite (clean_conversation_null_image chosen Hkc Hnull).
      * destruct (clean_conversation_keyed chosen Hkc) as [->|[v ->]]; [done|].
        cbn -[clean_conversation].
        by rewrite (clean_conversation_null_image reject Hkr Hnull).
    + intros Hnc Hnr. split; by apply clean_conversation_scrub.
Qed.

Lemma Qwen_getitem_null_fields_witness :
  clean_entry (image_entry ANone (AStr "a cat")) = Raise AssertionError
  ∧ clean_entry (image_entry (AStr "cat.png") ANone)
    = Ok (delete "text" (image_entry (AStr "cat.png") ANone))
  ∧ clean_entry (text_entry_with_image "hi" ANone)
    = Ok (delete "image" (text_entry_with_image "hi" ANone))
  ∧ Qwen_getitem
      (one_conversation 20 None
         [Turn "u" (CParts [image_entry (AStr "cat.png") ANone;
                            text_entry_with_image "hi" ANone])]
         [Turn "u" (CParts [image_entry ANone ANone])]) 0
    = Raise AssertionError.
Proof.
  split; [|split; [|split]].
  - apply (proj1 Qwen_getitem_null_fields). split; vm_compute; reflexivity.
  - destruct (proj1 (proj2 Qwen_getitem_null_fields)
                (image_entry (AStr "cat.png") ANone)) as (Hclean & Htext & _).
    + split; [by eexists | intros _; by eexists].
    + intros [_ Himg]. vm_compute in Himg. discriminate.
    + rewrite Hclean. rewrite Htext; [reflexivity | |]; vm_compute; reflexivity.
  - destruct (proj1 (proj2 Qwen_getitem_null_fields)
                (text_entry_with_image "hi" ANone)) as (Hclean & _ & Himage).
    + split; [by eexists | intros Hty; vm_compute in Hty; discriminate].
    + intros [Hty _]. vm_compute in Hty. discriminate.
    + rewrite Hclean. rewrite Himage; [reflexivity | |]; vm_compute; reflexivity.
  - eapply (proj2 (proj2 Qwen_getitem_null_fields) unit unit
              (one_conversation 20 None
                 [Turn "u" (CParts [image_entry (AStr "cat.png") ANone;
                                    text_entry_with_image "hi" ANone])]
                 [Turn "u" (CParts [image_entry ANone ANone])]) 0);
      try reflexivity.
    + intros d [->|Hd%elem_of_nil]%elem_of_cons; [|done]. eexists. split; [reflexivity|].
      intros m [->|[->|Hm%elem_of_nil]%elem_of_cons]%elem_of_cons; [| |done].
      * split; [by eexists | intros _; by eexists].
      * split; [by eexists | intros Hty; vm_compute in Hty; discriminate].
    + intros d [->|Hd%elem_of_nil]%elem_of_cons; [|done]. eexists. split; [reflexivity|].
      intros m [->|Hm%elem_of_nil]%elem_of_cons; [|done].
      split; [by eexists | intros _; by eexists].
    + right. eexists _, _, _. split; [by left|]. split; [reflexivity|].
      split; [by left|]. split; vm_compute; reflexivity.
Defined.

(** ** When the locator returns *)

Lemma find_eos_is_Some ids eos start j :
  start ≤ j → ids !! j = Some eos → is_Some (find_eos ids eos start).
Proof.
  intros Hj Hids. destruct (find_eos ids eos start) eqn:Hscan; [done|].
  by destruct (find_eos_None _ _ _ Hscan j Hj).
Qed.

(** A match that ends the row ends with the last token of the row. *)
Lemma matches_at_end ids tpl id :
  tpl ≠ [] → matches_at ids tpl id → id + length tpl = length ids →
  last tpl = last ids.
Proof.
  unfold matches_at. intros Hne Hm Hend.
  rewrite take_ge in Hm by (rewrite length_drop; lia).
  rewrite <- (take_drop id ids), Hm.
  destruct tpl as [|t tpl]; [done|]. by rewrite last_app_cons.
Qed.

(** With the last token forced to [eos], each of the four loops returns a
    mask whenever the template does not itself end with [eos]. *)
Lemma locate_spans_returns reset fallback ids tpl eos st :
  last ids = Some eos → tpl ≠ [] → last tpl ≠ Some eos →
  ∃ st', locate_spans reset fallback ids tpl eos st = Ok st'.
Proof.
  intros Hlast Hne Htpl. unfold locate_spans.
  destruct tpl as [|t tpl'] eqn:Heq; [done|]. rewrite <- Heq in *. simpl.
  generalize (where_eq t ids 0). intros cs. revert st.
  induction cs as [|id cs IH]; intros st; simpl; [eauto|].
  assert (∃ st', mask_span_step reset fallback ids tpl eos st id = Ok st') as [st' ->];
    [|by apply IH].
  unfold mask_span_step. destruct st as [v m].
  destruct (bool_decide _ && bool_decide _) eqn:Htest; [|eauto].
  apply match_test_true in Htest.
  pose proof (matches_at_bound _ _ _ Hne Htest) as Hb.
  destruct (last_lookup_Some _ _ Hlast) as [Hpos Hl].
  assert (id + length tpl ≠ length ids) as Hneq.
  { intros Hend. apply Htpl. by rewrite (matches_at_end _ _ _ Hne Htest Hend). }
  destruct (find_eos_is_Some ids eos (id + length tpl) (length ids - 1)) as [j ->];
    [lia | done |].
  destruct fallback; simpl; eauto.
Qed.

Lemma set_last_returns t v : t ≠ [] → ∃ t', set_last t v = Ok t'.
Proof. destruct t; [done | simpl; eauto]. Qed.

Lemma side_text_returns tk p a : ∃ text, side_text tk (PStr p) (PStr a) = Ok text.
Proof. unfold side_text. simpl. destruct (endswith _ _); eauto. Qed.

(** [RewardDataset.__getitem__] returns an item for a stored example of
    three strings whenever the tokenizer returns at least one token and the
    response template, if there is one, has tokens and does not end with
    the end-of-sequence id. *)
Lemma RewardDataset_getitem_returns self idx p c r e :
  prompts self !! idx = Some (PStr p) →
  chosens self !! idx = Some (PStr c) →
  rejects self !! idx = Some (PStr r) →
  extras self !! idx = Some e →
  (∀ text, input_ids (tok_call (tokenizer self) text (Some (max_length self))) ≠ []
           ∧ attention_mask (tok_call (tokenizer self) text (Some (max_length self))) ≠ []) →
  (∀ template, response_template self = Some template →
     input_ids (tok_call (tokenizer self) template None) ≠ []
     ∧ last (input_ids (tok_call (tokenizer self) template None))
       ≠ Some (eos_token_id (tokenizer self))) →
  ∃ it, RewardDataset_getitem self idx = Ok it.
Proof.
  intros Hp Hc Hr He Htok Htpl. unfold RewardDataset_getitem, py_index.
  rewrite Hp, Hc, Hr, He. cbn -[side_text set_last locate_spans zeros_like].
  destruct (side_text_returns (tokenizer self) p c) as [ct ->].
  cbn -[side_text set_last locate_spans zeros_like].
  destruct (side_text_returns (tokenizer self) p r) as [rt ->].
  cbn -[side_text set_last locate_spans zeros_like].
  destruct (Htok ct) as [Hci Hcm], (Htok rt) as [Hri Hrm].
  destruct (set_last_returns _ (eos_token_id (tokenizer self)) Hci) as [cids Hcids].
  destruct (set_last_returns _ (eos_token_id (tokenizer self)) Hri) as [rids Hrids].
  destruct (set_last_returns _ py_True Hcm) as [cam Hcam].
  destruct (set_last_returns _ py_True Hrm) as [ram Hram].
  rewrite Hcids. cbn -[set_last locate_spans zeros_like].
  rewrite Hrids. cbn -[set_last locate_spans zeros_like].
  rewrite Hcam. cbn -[set_last locate_spans zeros_like].
  rewrite Hram. cbn -[set_last locate_spans zeros_like].
  destruct (response_template self) as [template|] eqn:Ht; [|eauto].
  destruct (Htpl template eq_refl) as [Hne Hlast].
  destruct (locate_spans_returns false false cids _ _ (Unbound, zeros_like cids)
              (set_last_last _ _ _ Hcids) Hne Hlast) as [[v cm] ->].
  cbn -[set_last locate_spans zeros_like].
  destruct (locate_spans_returns true false rids _ _ (v, zeros_like rids)
              (set_last_last _ _ _ Hrids) Hne Hlast) as [[v' rm] ->].
  cbn. eauto.
Qed.

(** ** Strings *)

Lemma string_length_app (a b : string) :
  String.length (a +:+ b) = String.length a + String.length b.
Proof. induction a as [|c a IH]; simpl; [done | by rewrite IH]. Qed.

Lemma string_app_assoc (a b c : string) : (a +:+ b) +:+ c = a +:+ (b +:+ c).
Proof.
  induction a as [|x a IH]; [done|].
  change (String x ((a +:+ b) +:+ c) = String x (a +:+ (b +:+ c))). by f_equal.
Qed.

Lemma substring_all (s : string) : String.substring 0 (String.length s) s = s.
Proof. induction s as [|c s IH]; simpl; [done | by rewrite IH]. Qed.

Lemma substring_app_r (a b : string) :
  String.substring (String.length a) (String.length b) (a +:+ b) = b.
Proof. induction a as [|c a IH]; simpl; [apply substring_all | done]. Qed.

(** [s[len(a):]] of [s = a + b] is [b]. *)
Lemma str_from_app (a b : string) : str_from (String.length a) (a +:+ b) = b.
Proof.
  unfold str_from. rewrite string_length_app.
  replace (String.length a + String.length b - String.length a)
    with (String.length b) by lia.
  apply substring_app_r.
Qed.

Lemma endswith_app (a b : string) : endswith (a +:+ b) b = true.
Proof.
  unfold endswith. rewrite string_length_app.
  replace (String.length a + String.length b - String.length b)
    with (String.length a) by lia.
  rewrite substring_app_r. apply andb_true_iff.
  split; apply bool_decide_eq_true; [lia | done].
Qed.

(** X2. The text that [RewardDataset.__getitem__] tokenizes for a side
    always ends with the end-of-sequence string.  With [joined] for
    [prompt + answer] without its trailing newlines: the text is [joined]
    itself exactly when [joined] already ends with the end-of-sequence
    string, and it is [joined] followed by a space and the end-of-sequence
    string exactly when it does not. *)
Theorem side_text_ends_with_eos tk prompt answer text :
  side_text tk prompt answer = Ok text →
  endswith text (eos_token tk) = true
  ∧ ∃ p a, prompt = PStr p ∧ answer = PStr a
           ∧ let joined := rstrip_newline (p +:+ a) in
             (endswith joined (eos_token tk) = true ∧ text = joined
              ∨ endswith joined (eos_token tk) = false
                ∧ text = joined +:+ " " +:+ eos_token tk).
Proof.
  unfold side_text. intros H. inv_bind H. rename a into t.
  assert (∃ p a, prompt = PStr p ∧ answer = PStr a ∧ t = rstrip_newline (p +:+ a))
    as (p & a & -> & -> & ->).
  { destruct prompt, answer; simpl in Ha; try discriminate.
    injection Ha as <-. eauto. }
  destruct (endswith _ _) eqn:Hend; injection H as <-.
  - split; [done|]. exists p, a. repeat split. simpl. by left.
  - split; [|exists p, a; repeat split; simpl; by right].
    rewrite <- (string_app_assoc (rstrip_newline (p +:+ a)) " " (eos_token tk)).
    apply endswith_app.
Qed.

(** An answer without the end-of-sequence string, which gets it appended,
    and an answer that ends with it (before a newline), which is left as
    it is once the newline is stripped. *)
Lemma side_text_ends_with_eos_witness :
  (side_text char_tokenizer (PStr "Q: 2+2?") (PStr "A: 4") = Ok "Q: 2+2?A: 4 $"
   ∧ endswith "Q: 2+2?A: 4 $" "$" = true)
  ∧ (side_text char_tokenizer (PStr "Q: 2+2?") (PStr ("A: 4$" +:+ String newline EmptyString))
     = Ok "Q: 2+2?A: 4$"
     ∧ endswith "Q: 2+2?A: 4$" "$" = true).
Proof.
  split.
  - split; [vm_compute; reflexivity|].
    apply (side_text_ends_with_eos char_tokenizer (PStr "Q: 2+2?") (PStr "A: 4")).
    vm_compute; reflexivity.
  - split; [vm_compute; reflexivity|].
    apply (side_text_ends_with_eos char_tokenizer (PStr "Q: 2+2?")
             (PStr ("A: 4$" +:+ String newline EmptyString))).
    vm_compute; reflexivity.
Defined.

(** ** More on the items of [RewardDataset] *)

Lemma py_index_Ok {A} (l : list A) idx a : py_index l idx = Ok a → l !! idx = Some a.
Proof. unfold py_index. destruct (l !! idx); [by intros [= <-] | discriminate]. Qed.

Lemma side_text_Ok tk prompt answer text :
  side_text tk prompt answer = Ok text →
  ∃ p a, prompt = PStr p ∧ answer = PStr a ∧ text = text_of (eos_token tk) p a.
Proof.
  unfold side_text, text_of. intros H. inv_bind H.
  destruct prompt, answer; simpl in Ha; try discriminate.
  injection Ha as <-. eexists _, _. split; [done|]. split; [done|].
  by destruct (endswith _ _); injection H as <-.
Qed.

(** X1. An item returned by [RewardDataset.__getitem__] comes from three
    stored strings; the ids and the attention mask of each side are the
    ones the tokenizer returned for the text of that side, with nothing
    but the last position overwritten (by the end-of-sequence id and by
    [True]), so the lengths and all earlier tokens are the tokenizer's. *)
Theorem RewardDataset_getitem_tokens self idx it :
  RewardDataset_getitem self idx = Ok it →
  ∃ p c r,
    prompts self !! idx = Some (PStr p)
    ∧ chosens self !! idx = Some (PStr c)
    ∧ rejects self !! idx = Some (PStr r)
    ∧ extras self !! idx = Some (item_extra it)
    ∧ let tk := tokenizer self in
      let enc answer :=
        tok_call tk (text_of (eos_token tk) p answer) (Some (max_length self)) in
      chosen_ids it
      = <[length (input_ids (enc c)) - 1 := eos_token_id tk]> (input_ids (enc c))
      ∧ chosen_mask it
        = <[length (attention_mask (enc c)) - 1 := py_True]> (attention_mask (enc c))
      ∧ reject_ids it
        = <[length (input_ids (enc r)) - 1 := eos_token_id tk]> (input_ids (enc r))
      ∧ reject_mask it
        = <[length (attention_mask (enc r)) - 1 := py_True]> (attention_mask (enc r))
      ∧ input_ids (enc c) ≠ [] ∧ input_ids (enc r) ≠ [].
Proof.
  unfold RewardDataset_getitem. intros H.
  inv_bind H. apply py_index_Ok in Ha. rename a into prompt, Ha into Hp.
  inv_bind H. apply py_index_Ok in Ha. rename a into chosen, Ha into Hc.
  inv_bind H. apply py_index_Ok in Ha. rename a into reject, Ha into Hr.
  inv_bind H. apply py_index_Ok in Ha. rename a into extra, Ha into He.
  inv_bind H. apply side_text_Ok in Ha as (p & c & -> & -> & ->).
  inv_bind H. apply side_text_Ok in Ha as (p' & r & [= <-] & -> & ->).
  inv_bind H. apply set_last_Ok in Ha as [-> Hcl].
  inv_bind H. apply set_last_Ok in Ha as [-> Hrl].
  inv_bind H. apply set_last_Ok in Ha as [-> _].
  inv_bind H. apply set_last_Ok in Ha as [-> _].
  exists p, c, r.
  assert (∀ l : row, 0 < length l → l ≠ []) as Hne by (by intros [|] ?; [simpl in *; lia|]).
  destruct (response_template self).
  - inv_bind H. destruct a as [v cm]. inv_bind H. destruct a as [v' rm].
    injection H as <-. simpl. repeat split; auto.
  - injection H as <-. simpl. repeat split; auto.
Qed.

(** Ten of the thirteen tokens survive truncation; the tenth becomes the
    end-of-sequence id and the first nine stay. *)
Lemma RewardDataset_getitem_tokens_witness :
  ∃ it,
    RewardDataset_getitem
      (one_example 10 1 false None (PStr "Q: 2+2?") (PStr "A: 4") (PStr "A: 5")) 0 = Ok it
    ∧ take 9 (chosen_ids it) = take 9 (char_ids "Q: 2+2?A: 4 $")
    ∧ ∃ p c r,
        chosen_ids it
        = <[length (input_ids (char_call (text_of "$" p c) (Some 10%Z))) - 1 := 36%Z]>
            (input_ids (char_call (text_of "$" p c) (Some 10%Z)))
        ∧ reject_ids it
          = <[length (input_ids (char_call (text_of "$" p r) (Some 10%Z))) - 1 := 36%Z]>
              (input_ids (char_call (text_of "$" p r) (Some 10%Z))).
Proof.
  eexists. split; [vm_compute; reflexivity|]. split; [reflexivity|].
  destruct (RewardDataset_getitem_tokens
              (one_example 10 1 false None (PStr "Q: 2+2?") (PStr "A: 4") (PStr "A: 5"))
              0 _ eq_refl) as (p & c & r & _ & _ & _ & _ & H1 & _ & H3 & _).
  exists p, c, r. exact (conj H1 H3).
Defined.

Lemma side_text_strings tk p a :
  side_text tk (PStr p) (PStr a) = Ok (text_of (eos_token tk) p a).
Proof. unfold side_text, text_of. simpl. by destruct (endswith _ _). Qed.

(** X3. When the tokenizer returns no token for the text of a side (as
    under [max_length = 0]), the assignment to the last position has no
    position to write: [RewardDataset.__getitem__] raises [IndexError]. *)
Theorem RewardDataset_getitem_empty_tokenization self idx p c r e :
  prompts self !! idx = Some (PStr p) →
  chosens self !! idx = Some (PStr c) →
  rejects self !! idx = Some (PStr r) →
  extras self !! idx = Some e →
  let tk := tokenizer self in
  let enc answer :=
    tok_call tk (text_of (eos_token tk) p answer) (Some (max_length self)) in
  input_ids (enc c) = [] ∨ input_ids (enc r) = []
  ∨ attention_mask (enc c) = [] ∨ attention_mask (enc r) = [] →
  RewardDataset_getitem self idx = Raise IndexError.
Proof.
  intros Hp Hc Hr He tk enc Hempty. unfold RewardDataset_getitem, py_index.
  rewrite Hp, Hc, Hr, He. cbn -[side_text set_last locate_spans zeros_like].
  rewrite !side_text_strings. cbn -[set_last locate_spans zeros_like].
  fold tk. fold (enc c). fold (enc r).
  destruct (input_ids (enc c)) as [|x1 l1] eqn:H1; [done|].
  destruct (input_ids (enc r)) as [|x2 l2] eqn:H2; [done|].
  destruct (attention_mask (enc c)) as [|x3 l3] eqn:H3; [done|].
  destruct (attention_mask (enc r)) as [|x4 l4] eqn:H4; [done|].
  by destruct Hempty as [?|[?|[?|?]]].
Qed.

Lemma RewardDataset_getitem_empty_tokenization_witness :
  RewardDataset_getitem
    (one_example 0 1 false None (PStr "Q: 2+2?") (PStr "A: 4") (PStr "A: 5")) 0
  = Raise IndexError.
Proof.
  apply (RewardDataset_getitem_empty_tokenization
           (one_example 0 1 false None (PStr "Q: 2+2?") (PStr "A: 4") (PStr "A: 5")) 0
           "Q: 2+2?" "A: 4" "A: 5" (PInt 0)); try reflexivity.
  left. vm_compute; reflexivity.
Defined.

(** X4. After [__init__] the four stored columns have the length that
    [__len__] returns, which is at most the number of raw records; no
    stored prompt is [None]; and [__getitem__] raises [IndexError] at every
    index from that length on. *)
Theorem RewardDataset_init_columns dataset tk max_len args input_tpl dpo mult
    response_tpl ds :
  RewardDataset_init dataset tk max_len args input_tpl dpo mult response_tpl = Ok ds →
  length (prompts ds) = RewardDataset_len ds
  ∧ length (rejects ds) = RewardDataset_len ds
  ∧ length (extras ds) = RewardDataset_len ds
  ∧ RewardDataset_len ds ≤ length dataset
  ∧ (∀ prompt, prompt ∈ prompts ds → prompt ≠ PNone)
  ∧ (∀ idx, RewardDataset_len ds ≤ idx →
       RewardDataset_getitem ds idx = Raise IndexError).
Proof.
  unfold RewardDataset_init. intros H. inv_bind H.
  assert (ds = store (configure tk max_len args input_tpl dpo mult response_tpl)
                 (filter (fun x => prompt_is_not_none x = true) a)) as ->
    by (destruct dataset; [done | by injection H as <-]).
  unfold RewardDataset_len. simpl. rewrite !length_fmap.
  apply mapM_result_length in Ha.
  repeat split; try done.
  - rewrite <- Ha. apply length_filter.
  - intros prompt (x & -> & [Hx _]%list_elem_of_filter)%list_elem_of_fmap.
    by apply prompt_is_not_none_true.
  - intros idx Hidx. unfold RewardDataset_getitem, py_index. simpl.
    rewrite (lookup_ge_None_2 (p_prompt <$> _)); [done|]. by rewrite length_fmap.
Qed.

Lemma RewardDataset_init_columns_witness :
  ∃ ds,
    RewardDataset_init
      [raw_record "Q: 2+2?" "A: 4" "A: 5"; raw_record "Q: what is 2+2?" "A: 4" "A: 5"]
      char_tokenizer 10 plain_args None true 1 None = Ok ds
    ∧ RewardDataset_len ds = 1
    ∧ RewardDataset_getitem ds 1 = Raise IndexError.
Proof.
  destruct (RewardDataset_init
              [raw_record "Q: 2+2?" "A: 4" "A: 5";
               raw_record "Q: what is 2+2?" "A: 4" "A: 5"]
              char_tokenizer 10 plain_args None true 1 None) as [ds|] eqn:Hinit;
    [|vm_compute in Hinit; discriminate].
  exists ds. split; [done|].
  assert (RewardDataset_len ds = 1) as Hlen.
  { vm_compute in Hinit. injection Hinit as <-. reflexivity. }
  split; [done|].
  apply (RewardDataset_init_columns _ _ _ _ _ _ _ _ _ Hinit). lia.
Defined.

(** ** More on the loss-mask locator *)

Lemma foldM_mask_span_no_match reset fallback ids tpl eos cs st :
  (∀ id, ¬ matches_at ids tpl id) →
  foldM (mask_span_step reset fallback ids tpl eos) st cs = Ok st.
Proof.
  intros Hno. induction cs as [|id cs IH]; simpl; [done|].
  assert (mask_span_step reset fallback ids tpl eos st id = Ok st) as ->; [|done].
  unfold mask_span_step. destruct st as [v m].
  destruct (bool_decide _ && bool_decide _) eqn:Htest; [|done].
  apply match_test_true in Htest. by destruct (Hno id).
Qed.

(** X5. A response template that has tokens but occurs nowhere in a side
    raises nothing: each of the four loops returns the mask it was given,
    so the loss mask of that side in a returned item is all zero. *)
Theorem getitem_template_without_match :
  (∀ reset fallback ids tpl eos st,
     tpl ≠ [] → (∀ id, ¬ matches_at ids tpl id) →
     locate_spans reset fallback ids tpl eos st = Ok st)
  ∧ (∀ self idx it template,
       response_template self = Some template →
       RewardDataset_getitem self idx = Ok it →
       let tpl := input_ids (tok_call (tokenizer self) template None) in
       ((∀ id, ¬ matches_at (chosen_ids it) tpl id) →
        chosen_loss_mask it = zeros_like (chosen_ids it))
       ∧ ((∀ id, ¬ matches_at (reject_ids it) tpl id) →
          reject_loss_mask it = zeros_like (reject_ids it)))
  ∧ (∀ Images Pixels (self : QwenRewardDataset Images Pixels) idx it template,
       response_template (common self) = Some template →
       Qwen_getitem self idx = Ok it →
       let tpl := input_ids (tok_call (tokenizer (common self)) template None) in
       ((∀ id, ¬ matches_at (q_chosen_ids it) tpl id) →
        q_chosen_loss_mask it = zeros_like (q_chosen_ids it))
       ∧ ((∀ id, ¬ matches_at (q_reject_ids it) tpl id) →
          q_reject_loss_mask it = zeros_like (q_reject_ids it))).
Proof.
  assert (∀ reset fallback ids tpl eos st,
            tpl ≠ [] → (∀ id, ¬ matches_at ids tpl id) →
            locate_spans reset fallback ids tpl eos st = Ok st) as Hloc.
  { intros reset fallback ids tpl eos st Hne Hno. unfold locate_spans.
    destruct tpl as [|t tpl]; [done|]. simpl. by apply foldM_mask_span_no_match. }
  assert (∀ reset fallback ids tpl eos st st',
            locate_spans reset fallback ids tpl eos st = Ok st' → tpl ≠ []) as Hne.
  { intros ? ? ? [|] ? ? ? H; [discriminate | done]. }
  split; [exact Hloc | split].
  - intros self idx it template Htpl H tpl.
    destruct (RewardDataset_getitem_Ok _ _ _ H) as (ce & re & _ & _ & _ & _ & Hmask).
    rewrite Htpl in Hmask. destruct Hmask as (v & v' & Hc & Hr). split; intros Hno.
    + rewrite Hloc in Hc by eauto. by injection Hc as _ <-.
    + rewrite Hloc in Hr by eauto. by injection Hr as _ <-.
  - intros Images Pixels self idx it template Htpl H tpl.
    destruct (Qwen_getitem_Ok _ _ _ H) as (ce & re & _ & _ & _ & _ & Hmask).
    rewrite Htpl in Hmask. destruct Hmask as (v & v' & Hc & Hr). split; intros Hno.
    + rewrite Hloc in Hc by eauto. by injection Hc as _ <-.
    + rewrite Hloc in Hr by eauto. by injection Hr as _ <-.
Qed.

Lemma getitem_template_without_match_witness :
  ∃ it,
    RewardDataset_getitem
      (one_example 20 1 false (Some "B:") (PStr "Q:2+2?") (PStr "A:4") (PStr "A:5")) 0
    = Ok it
    ∧ chosen_loss_mask it = zeros_like (chosen_ids it)
    ∧ chosen_loss_mask it = [0; 0; 0; 0; 0; 0; 0; 0; 0; 0; 0]%Z.
Proof.
  eexists. split; [vm_compute; reflexivity|]. split; [|reflexivity].
  refine (proj1 (proj1 (proj2 getitem_template_without_match)
                   (one_example 20 1 false (Some "B:") (PStr "Q:2+2?") (PStr "A:4")
                      (PStr "A:5")) 0 _ "B:" eq_refl eq_refl) _).
  intros id Hm. unfold matches_at in Hm.
  do 12 (destruct id as [|id]; [vm_compute in Hm; discriminate|]).
  vm_compute in Hm. discriminate.
Defined.

Lemma template_mask_unique ids tpl eos m1 m2 :
  template_mask ids tpl eos m1 → template_mask ids tpl eos m2 → m1 = m2.
Proof.
  intros [Hl1 H1] [Hl2 H2]. apply list_eq. intros p.
  destruct (decide (p < length ids)) as [Hp|Hp].
  - destruct (H1 p Hp) as [Hiff1 Hval1], (H2 p Hp) as [Hiff2 Hval2].
    destruct Hval1 as [Hv1|Hv1], Hval2 as [Hv2|Hv2]; try congruence.
    + apply Hiff1, Hiff2 in Hv1. congruence.
    + apply Hiff2, Hiff1 in Hv2. congruence.
  - rewrite !lookup_ge_None_2 by lia. done.
Qed.

(** X6. On a row that ends with the end-of-sequence id, as every row of
    [__getitem__] does, any two of the four copies of the loop that both
    return give the same mask: resetting [end_id] or not, and falling
    back or not, decides only whether the loop raises. *)
Theorem locate_spans_variants_agree reset1 fallback1 reset2 fallback2 ids tpl eos
    v1 v2 v1' v2' m1 m2 :
  last ids = Some eos →
  locate_spans reset1 fallback1 ids tpl eos (v1, zeros_like ids) = Ok (v1', m1) →
  locate_spans reset2 fallback2 ids tpl eos (v2, zeros_like ids) = Ok (v2', m2) →
  m1 = m2.
Proof.
  intros Hlast H1 H2. eapply template_mask_unique; by eapply locate_spans_spec.
Qed.

Lemma locate_spans_variants_agree_witness :
  ∃ m1 m2,
    locate_spans false false (char_ids "u:hi$a:yo$") (char_ids "$") 36
      (Unbound, zeros_like (char_ids "u:hi$a:yo$")) = Ok (BoundInt 9, m1)
    ∧ locate_spans true true (char_ids "u:hi$a:yo$") (char_ids "$") 36
        (Unbound, zeros_like (char_ids "u:hi$a:yo$")) = Ok (BoundInt 9, m2)
    ∧ m1 = m2.
Proof.
  eexists _, _. split; [vm_compute; reflexivity|]. split; [vm_compute; reflexivity|].
  apply (locate_spans_variants_agree false false true true (char_ids "u:hi$a:yo$")
           (char_ids "$") 36 Unbound Unbound (BoundInt 9) (BoundInt 9));
    vm_compute; reflexivity.
Defined.

(** ** More on the example normalizer *)

(** X7. With a chat template: when the rendering of the prompt (with the
    generation prompt) is a prefix of the renderings of prompt + chosen and
    of prompt + rejected, the normalized chosen and rejected are exactly
    the remainders, so that prompt + chosen is the whole rendering; the
    same holds without a prompt key in DPO mode, the prompt being the
    rendering of all turns of chosen but the last. *)
Theorem preprocess_data_strips_prompt :
  (∀ data tpl pk ck rk act dpo p c r pc pr P Dc Dr,
     truthy_key pk = true →
     py_getitem data pk = Ok p → py_getitem data ck = Ok c → py_getitem data rk = Ok r →
     py_add p c = Ok pc → py_add p r = Ok pr →
     act p true = Ok P → act pc false = Ok (P +:+ Dc) → act pr false = Ok (P +:+ Dr) →
     ∃ n, preprocess_data data tpl pk ck rk (Some act) dpo = Ok n
          ∧ n_prompt n = PStr P ∧ n_chosen n = PStr Dc ∧ n_rejected n = PStr Dr)
  ∧ (∀ data tpl pk ck rk act c r c' P Dc Dr,
       truthy_key pk = false →
       py_getitem data ck = Ok c → py_getitem data rk = Ok r →
       py_drop_last c = Ok c' →
       act c' true = Ok P → act c false = Ok (P +:+ Dc) → act r false = Ok (P +:+ Dr) →
       ∃ n, preprocess_data data tpl pk ck rk (Some act) true = Ok n
            ∧ n_prompt n = PStr P ∧ n_chosen n = PStr Dc ∧ n_rejected n = PStr Dr).
Proof.
  split.
  - intros data tpl pk ck rk act dpo p c r pc pr P Dc Dr Hpk Hp Hc Hr Hpc Hpr HP HDc HDr.
    unfold preprocess_data. rewrite Hpk, Hp. simpl. rewrite HP. simpl.
    rewrite Hc. simpl. rewrite Hpc. simpl. rewrite HDc. simpl.
    rewrite Hr. simpl. rewrite Hpr. simpl. rewrite HDr. simpl.
    eexists. split; [reflexivity|]. simpl. by rewrite !str_from_app.
  - intros data tpl pk ck rk act c r c' P Dc Dr Hpk Hc Hr Hc' HP HDc HDr.
    unfold preprocess_data. rewrite Hpk, Hc. simpl. rewrite HDc. simpl.
    rewrite Hr. simpl. rewrite HDr. simpl. rewrite Hc'. simpl. rewrite HP. simpl.
    eexists. split; [reflexivity|]. simpl. by rewrite !str_from_app.
Qed.

Lemma preprocess_data_strips_prompt_witness :
  ∃ n,
    preprocess_data
      (with_field "prompt" (PConv [Turn "u" (CStr "q")])
         (with_field "chosen" (PConv [Turn "a" (CStr "a:4")])
            (with_field "rejected" (PConv [Turn "a" (CStr "a:5")]) ∅)))
      None (Some "prompt") (Some "chosen") (Some "rejected") (Some join_render) false
    = Ok n
    ∧ n_prompt n = PStr "q$a:" ∧ n_chosen n = PStr "4$" ∧ n_rejected n = PStr "5$".
Proof.
  apply (proj1 preprocess_data_strips_prompt _ None (Some "prompt") (Some "chosen")
           (Some "rejected") join_render false
           (PConv [Turn "u" (CStr "q")]) (PConv [Turn "a" (CStr "a:4")])
           (PConv [Turn "a" (CStr "a:5")])
           (PConv [Turn "u" (CStr "q"); Turn "a" (CStr "a:4")])
           (PConv [Turn "u" (CStr "q"); Turn "a" (CStr "a:5")])
           "q$a:" "4$" "5$"); vm_compute; reflexivity.
Defined.

(** The prompt that [preprocess_data] returns. *)
Lemma preprocess_data_prompt data tpl pk ck rk act dpo n :
  preprocess_data data tpl pk ck rk act dpo = Ok n →
  match act with
  | Some _ => ∃ s, n_prompt n = PStr s
  | None =>
      if truthy_key pk then
        ∃ p, py_getitem data pk = Ok p
             ∧ match tpl with
               | Some format => ∃ s, format p = Ok s ∧ n_prompt n = PStr s
               | None => n_prompt n = p
               end
      else n_prompt n = PStr EmptyString
  end
  ∧ (act = None →
     py_getitem data ck = Ok (n_chosen n) ∧ py_getitem data rk = Ok (n_rejected n)).
Proof.
  unfold preprocess_data. intros H. inv_bind H. destruct a as [[p c] r].
  injection H as <-. simpl. destruct act as [act|].
  - split; [|by intros [=]]. destruct (truthy_key pk).
    + repeat inv_bind Ha. injection Ha as <- <- <-. eauto.
    + do 4 inv_bind Ha. destruct dpo.
      * do 3 inv_bind Ha. injection Ha as <- <- <-. eauto.
      * injection Ha as <- <- <-. eauto.
  - inv_bind Ha. inv_bind Ha. inv_bind Ha. injection Ha as <- <- <-.
    split; [|by intros _; split]. destruct (truthy_key pk).
    + apply bind_Ok in Ha0 as (p & Hp & Ha0). exists p. split; [done|].
      destruct tpl as [format|]; [|by injection Ha0 as <-].
      apply bind_Ok in Ha0 as (s & Hs & Ha0). injection Ha0 as <-. eauto.
    + by injection Ha0 as <-.
Qed.

Lemma bind_Raise {A B} (m : result A) (f : A → result B) e :
  m ≫= f = Raise e → m = Raise e ∨ ∃ a, m = Ok a ∧ f a = Raise e.
Proof. destruct m as [a|e']; simpl; [eauto | by intros [= <-]; left]. Qed.

Lemma py_getitem_Raise data key e : py_getitem data key = Raise e → e = KeyError.
Proof.
  unfold py_getitem. destruct key as [k|]; [destruct (data !! k)|]; by intros [= <-].
Qed.

(** X8. Without a chat template [preprocess_data] returns the chosen and
    rejected fields of the record verbatim and, as prompt, the empty
    string when there is no prompt key, the formatted prompt field when
    there is an input template, and the prompt field itself otherwise.
    When it raises, the exception is either [KeyError], for a field that
    the record does not have, or the exception that
    [input_template.format] raises on the prompt field. *)
Theorem preprocess_data_without_chat_template data tpl pk ck rk dpo :
  (∀ n, preprocess_data data tpl pk ck rk None dpo = Ok n →
     py_getitem data ck = Ok (n_chosen n)
     ∧ py_getitem data rk = Ok (n_rejected n)
     ∧ if truthy_key pk then
         ∃ p, py_getitem data pk = Ok p
              ∧ match tpl with
                | Some format => ∃ s, format p = Ok s ∧ n_prompt n = PStr s
                | None => n_prompt n = p
                end
       else n_prompt n = PStr EmptyString)
  ∧ (∀ e, preprocess_data data tpl pk ck rk None dpo = Raise e →
       (truthy_key pk = true ∧ py_getitem data pk = Raise KeyError ∧ e = KeyError)
       ∨ (truthy_key pk = true
          ∧ ∃ p format, py_getitem data pk = Ok p ∧ tpl = Some format
                        ∧ format p = Raise e)
       ∨ (py_getitem data ck = Raise KeyError ∧ e = KeyError)
       ∨ (py_getitem data rk = Raise KeyError ∧ e = KeyError)).
Proof.
  split.
  - intros n H. destruct (preprocess_data_prompt _ _ _ _ _ _ _ _ H) as [Hp Hcr].
    destruct (Hcr eq_refl) as [Hc Hr]. done.
  - intros e H. unfold preprocess_data in H.
    apply bind_Raise in H as [H|(x & _ & H)]; [|by destruct x as [[? ?] ?]].
    apply bind_Raise in H as [H|(p & Hp & H)].
    + destruct (truthy_key pk); [|discriminate].
      apply bind_Raise in H as [H|(p & Hp & H)].
      * pose proof (py_getitem_Raise _ _ _ H) as ->. tauto.
      * destruct tpl as [format|]; [|discriminate].
        apply bind_Raise in H as [H|(s & _ & H)]; [|discriminate].
        right; left. split; [done|]. by exists p, format.
    + apply bind_Raise in H as [H|(c & Hc & H)].
      * pose proof (py_getitem_Raise _ _ _ H) as ->. tauto.
      * apply bind_Raise in H as [H|(r & Hr & H)]; [|discriminate].
        pose proof (py_getitem_Raise _ _ _ H) as ->. tauto.
Qed.

(** A record read without a template, the same record read with a chosen
    key that it does not have, and a template with two positional fields,
    whose [format] raises [IndexError] when given the one prompt. *)
Lemma preprocess_data_without_chat_template_witness :
  (∃ n, preprocess_data (raw_record "Q: 2+2?" "A: 4" "A: 5") None (Some "prompt")
          (Some "chosen") (Some "rejected") None false = Ok n
        ∧ n_chosen n = PStr "A: 4")
  ∧ preprocess_data (raw_record "Q: 2+2?" "A: 4" "A: 5") None (Some "prompt")
      (Some "answer") (Some "rejected") None false = Raise KeyError
  ∧ preprocess_data (raw_record "Q: 2+2?" "A: 4" "A: 5")
      (Some (fun _ => Raise IndexError)) (Some "prompt")
      (Some "chosen") (Some "rejected") None false = Raise IndexError.
Proof.
  split; [|split].
  - eexists. split; [vm_compute; reflexivity|].
    destruct (proj1 (preprocess_data_without_chat_template
                       (raw_record "Q: 2+2?" "A: 4" "A: 5") None (Some "prompt")
                       (Some "chosen") (Some "rejected") false) _ eq_refl)
      as (Hc & _). reflexivity.
  - destruct (preprocess_data (raw_record "Q: 2+2?" "A: 4" "A: 5") None (Some "prompt")
                (Some "answer") (Some "rejected") None false) as [n|e] eqn:H;
      [vm_compute in H; discriminate|].
    by destruct (proj2 (preprocess_data_without_chat_template _ _ _ _ _ _) e H)
      as [(_ & _ & ->)|[(_ & p & f & _ & [=] & _)|[[_ ->]|[_ ->]]]].
  - destruct (preprocess_data (raw_record "Q: 2+2?" "A: 4" "A: 5")
                (Some (fun _ => Raise IndexError)) (Some "prompt")
                (Some "chosen") (Some "rejected") None false) as [n|e] eqn:H;
      [vm_compute in H; discriminate|].
    destruct (proj2 (preprocess_data_without_chat_template _ _ _ _ _ _) e H)
      as [(_ & Hget & _)|[(_ & p & f & _ & [= <-] & [= <-])|[[Hget _]|[Hget _]]]];
      [vm_compute in Hget; discriminate | reflexivity
      | vm_compute in Hget; discriminate | vm_compute in Hget; discriminate].
Defined.

(** X9. Outside DPO mode [process_data] returns a [None] prompt, which
    [__init__] then filters out, exactly when no chat template is applied,
    there is a prompt key and no input template, and the prompt field of
    the record holds [None]. *)
Theorem process_data_none_prompt self data r :
  is_dpo self = false → process_data self data = Ok r →
  (p_prompt r = PNone ↔
     apply_chat_template self = false
     ∧ truthy_key (prompt_key self) = true
     ∧ input_template self = None
     ∧ py_getitem data (prompt_key self) = Ok PNone).
Proof.
  intros Hdpo H. unfold process_data in H. rewrite Hdpo in H.
  inv_bind H. injection H as <-. simpl.
  destruct (preprocess_data_prompt _ _ _ _ _ _ _ _ Ha) as [Hp _].
  unfold chat_renderer in Hp. destruct (apply_chat_template self).
  - destruct Hp as [s ->]. split; [done | by intros [? _]].
  - destruct (truthy_key (prompt_key self)).
    + destruct Hp as (p & Hget & Hp). rewrite Hget.
      destruct (input_template self).
      * destruct Hp as (s & _ & ->). split; [done | by intros (_ & _ & ? & _)].
      * rewrite Hp. split; [by intros -> | by intros (_ & _ & _ & [= ->])].
    + rewrite Hp. split; [done | by intros (_ & ? & _)].
Qed.

Lemma process_data_none_prompt_witness :
  ∃ r, process_data (configure char_tokenizer 10 plain_args None false 1 None)
         (with_field "prompt" PNone (raw_record "" "A: 4" "A: 5")) = Ok r
       ∧ p_prompt r = PNone.
Proof.
  eexists. split; [vm_compute; reflexivity|].
  apply (process_data_none_prompt
           (configure char_tokenizer 10 plain_args None false 1 None)
           (with_field "prompt" PNone (raw_record "" "A: 4" "A: 5")) _ eq_refl eq_refl).
  repeat split; vm_compute; reflexivity.
Defined.

Lemma int_sum_ones (mask : row) :
  (∀ x, x ∈ mask → x = 1%Z) → int_sum mask = Z.of_nat (length mask).
Proof.
  unfold int_sum. induction mask as [|x mask IH]; intros Hall; [done|].
  rewrite (Hall x) by left. cbn [fmap list_fmap foldr length].
  change (list_fmap Z Z to_int32 mask) with (to_int32 <$> mask).
  rewrite IH by (intros y Hy; apply Hall; by right).
  change (to_int32 1) with 1%Z. lia.
Qed.

(** X10. In DPO mode, for a record that [preprocess_data] normalizes to a
    string prompt, when the tokenizer marks every returned prompt token
    with [1] (no padding is requested), [process_data] returns; the extra
    field is the number of prompt tokens, and the example is marked absent
    exactly when that number is at least [max_length - 2]; chosen and
    rejected are the normalized ones. *)
Theorem process_data_dpo_token_count self data n p :
  is_dpo self = true →
  preprocess_data data (input_template self) (prompt_key self) (chosen_key self)
    (rejected_key self) (chat_renderer self) true = Ok n →
  n_prompt n = PStr p →
  let mask := attention_mask (tok_call (tokenizer self) p (Some (max_length self))) in
  (∀ x, x ∈ mask → x = 1%Z) →
  ∃ r, process_data self data = Ok r
       ∧ p_extra r = PInt (Z.of_nat (length mask))
       ∧ (p_prompt r = PNone ↔ (max_length self - 2 ≤ Z.of_nat (length mask))%Z)
       ∧ p_chosen r = n_chosen n ∧ p_reject r = n_rejected n.
Proof.
  intros Hdpo Hn Hp mask Hones. unfold process_data. rewrite Hdpo, Hn. simpl.
  rewrite Hp. simpl. fold mask. rewrite (int_sum_ones mask Hones).
  eexists. split; [reflexivity|]. simpl. repeat split; try done.
  - by destruct (decide _).
  - intros Hle. by rewrite decide_True.
Qed.

Lemma process_data_dpo_token_count_witness :
  ∃ r, process_data (configure char_tokenizer 10 plain_args None true 1 None)
         (raw_record "Q: 2+2?" "A: 4" "A: 5") = Ok r
       ∧ p_extra r = PInt 7 ∧ p_prompt r = PStr "Q: 2+2?".
Proof.
  destruct (process_data_dpo_token_count
              (configure char_tokenizer 10 plain_args None true 1 None)
              (raw_record "Q: 2+2?" "A: 4" "A: 5")
              {| n_prompt := PStr "Q: 2+2?"; n_chosen := PStr "A: 4";
                 n_rejected := PStr "A: 5"; n_margin := PInt 0 |}
              "Q: 2+2?" eq_refl)
    as (r & Hr & Hextra & _).
  - vm_compute; reflexivity.
  - reflexivity.
  - intros x Hx. vm_compute in Hx.
    repeat (apply elem_of_cons in Hx as [->|Hx]; [done|]). by apply elem_of_nil in Hx.
  - exists r. split; [exact Hr|]. split; [exact Hextra|].
    vm_compute in Hr. by injection Hr as <-.
Defined.

(** ** More on [QwenRewardDataset] *)

(** X11. [QwenRewardDataset] keeps [apply_chat_template] as the flag of the
    arguments and hands it to [preprocess_data], which calls it: with the
    flag set, [process_data] raises on every record ([TypeError] for the
    call of a [bool], or [KeyError] for the field read first), and
    [__init__] raises on every dataset that has a record; with the flag
    off, [process_data] is that of [RewardDataset]. *)
Theorem Qwen_process_data_chat_flag {Images Pixels}
    (self : QwenRewardDataset Images Pixels) data :
  (apply_chat_template (common self) = true →
   Qwen_process_data self data = Raise TypeError
   ∨ Qwen_process_data self data = Raise KeyError)
  ∧ (apply_chat_template (common self) = false →
     Qwen_process_data self data = process_data (common self) data)
  ∧ (∀ (proc : Processor Images Pixels) dataset tk max_len args input_tpl dpo mult
       response_tpl,
       arg_apply_chat_template args = true → dataset ≠ [] →
       is_ok (Qwen_init dataset proc tk max_len args input_tpl dpo mult response_tpl)
       = false).
Proof.
  assert (∀ (s : QwenRewardDataset Images Pixels) d,
            apply_chat_template (common s) = true →
            Qwen_process_data s d = Raise TypeError
            ∨ Qwen_process_data s d = Raise KeyError) as Hflag.
  { intros s d Hf. unfold Qwen_process_data, Qwen_chat_renderer, preprocess_data.
    rewrite Hf. destruct (truthy_key (prompt_key (common s))).
    - destruct (py_getitem d (prompt_key (common s))) as [p|e] eqn:Hp; simpl; [by left|].
      right. by rewrite (py_getitem_Raise _ _ _ Hp).
    - destruct (py_getitem d (chosen_key (common s))) as [c|e] eqn:Hc; simpl; [by left|].
      right. by rewrite (py_getitem_Raise _ _ _ Hc). }
  split; [by apply Hflag | split].
  - intros Hf. unfold Qwen_process_data, process_data, Qwen_chat_renderer, chat_renderer.
    by rewrite Hf.
  - intros proc dataset tk max_len args input_tpl dpo mult response_tpl Hf Hne.
    unfold Qwen_init. destruct dataset as [|d dataset]; [done|]. simpl.
    by destruct (Hflag (Qwen_configure proc tk max_len args input_tpl dpo mult
                          response_tpl) d Hf) as [->| ->].
Qed.

Lemma Qwen_process_data_chat_flag_witness :
  Qwen_process_data
    (Qwen_configure char_processor char_tokenizer 10
       {| arg_prompt_key := None; arg_chosen_key := Some "chosen";
          arg_rejected_key := Some "rejected"; arg_apply_chat_template := true;
          arg_tokenizer_chat_template := None |} None false 1 None)
    (with_field "chosen" (PConv [says "a" "yo"])
       (with_field "rejected" (PConv [says "a" "no"]) ∅))
  = Raise TypeError.
Proof.
  destruct (proj1 (Qwen_process_data_chat_flag
                     (Qwen_configure char_processor char_tokenizer 10
                        {| arg_prompt_key := None; arg_chosen_key := Some "chosen";
                           arg_rejected_key := Some "rejected";
                           arg_apply_chat_template := true;
                           arg_tokenizer_chat_template := None |} None false 1 None)
                     (with_field "chosen" (PConv [says "a" "yo"])
                        (with_field "rejected" (PConv [says "a" "no"]) ∅))) eq_refl)
    as [H|H]; [exact H|].
  vm_compute in H. discriminate.
Defined.

(** ** More on padded batches *)

Lemma zero_pad_sequences_stacked sequences side value :
  stacked (zero_pad_sequences sequences side value) (length sequences).
Proof.
  split; [apply length_zero_pad_sequences|].
  exists (max_list (length <$> sequences)). intros r Hr.
  by eapply zero_pad_sequences_row_length.
Qed.

Lemma zero_pad_sequences_padded_at sequences side value i seq :
  sequences !! i = Some seq →
  padded_at (zero_pad_sequences sequences side value) i seq side value.
Proof.
  intros Hi. exists (max_list (length <$> sequences) - length seq).
  unfold zero_pad_sequences. rewrite list_lookup_fmap, Hi. by destruct side.
Qed.

Lemma foldM_raises {A S} (body : S → A → result S) l e s :
  (∀ s a, a ∈ l → body s a = Raise e ∨ ∃ s', body s a = Ok s') →
  (∃ a, a ∈ l ∧ ∀ s, body s a = Raise e) →
  foldM body s l = Raise e.
Proof.
  revert s; induction l as [|a l IH]; intros s Hall (bad & Hin & Hbad);
    [by apply elem_of_nil in Hin|].
  simpl. destruct (Hall s a ltac:(left)) as [->|[s' Hs']]; [done|].
  rewrite Hs'. simpl. apply IH.
  - intros s0 x Hx. apply Hall. by right.
  - apply elem_of_cons in Hin as [->|Hin]; [|eauto].
    rewrite Hbad in Hs'. discriminate.
Qed.

Lemma collect_step_cases st item :
  (length item = 7 ∧ ∃ st', collect_step st item = Ok st')
  ∨ (length item ≠ 7 ∧ collect_step st item = Raise ValueError).
Proof.
  destruct item as [|a [|b [|c [|d [|e [|f [|g [|h item]]]]]]]]; simpl;
    try (right; split; [lia | done]).
  left. eauto.
Qed.

(** X12. [RewardDataset.collate_fn] unpacks every item into seven names:
    an item list that holds a tuple of any other number of members, such
    as the tuples of five that [packing_collate_fn] takes, raises
    [ValueError]. *)
Theorem collate_fn_needs_seven_members self item_list item :
  item ∈ item_list → length item ≠ 7 →
  collate_fn self item_list = Raise ValueError.
Proof.
  intros Hin Hlen. unfold collate_fn.
  rewrite (foldM_raises collect_step item_list ValueError); [done | |].
  - intros s a _. destruct (collect_step_cases s a) as [[_ ?]|[_ ?]]; eauto.
  - exists item. split; [done|]. intros s.
    by destruct (collect_step_cases s item) as [[? _]|[_ ?]].
Qed.

Lemma collate_fn_needs_seven_members_witness :
  collate_fn (aligned 1) [item_tuple item_long; pack_tuple pack_first]
  = Raise ValueError.
Proof.
  apply (collate_fn_needs_seven_members (aligned 1) _ (pack_tuple pack_first)).
  - right. by left.
  - simpl. lia.
Defined.

(** X13. On a non-empty list of the tuples of [__getitem__],
    [RewardDataset.collate_fn] returns; each of its first five fields is a
    stack with one row per item, all rows of a field of one length, the row
    of an item being its sequence with pad values (the pad token id for ids,
    [0] for masks) on the right in DPO mode and on the left otherwise; the
    extras come in item order. *)
Theorem collate_fn_fields self (items : list Item) :
  items ≠ [] →
  ∃ b, collate_fn self (item_tuple <$> items) = Ok b
       ∧ stacked (b_chosen_ids b) (length items)
       ∧ stacked (b_chosen_masks b) (length items)
       ∧ stacked (b_reject_ids b) (length items)
       ∧ stacked (b_rejects_masks b) (length items)
       ∧ stacked (b_chosen_loss_masks b) (length items)
       ∧ b_extras b = (fun it => OVal (item_extra it)) <$> items
       ∧ ∀ i it, items !! i = Some it →
           let side := if is_dpo self then PadRight else PadLeft in
           let pad := pad_token_id (tokenizer self) in
           padded_at (b_chosen_ids b) i (chosen_ids it) side pad
           ∧ padded_at (b_chosen_masks b) i (chosen_mask it) side 0
           ∧ padded_at (b_reject_ids b) i (reject_ids it) side pad
           ∧ padded_at (b_rejects_masks b) i (reject_mask it) side 0
           ∧ padded_at (b_chosen_loss_masks b) i (chosen_loss_mask it) side 0.
Proof.
  intros Hne. unfold collate_fn. rewrite foldM_collect_step. simpl.
  rewrite !pad_field_tensors. simpl.
  destruct (last items) as [it|] eqn:Hlast; [|by apply last_None in Hlast].
  eexists. split; [reflexivity|]. simpl.
  assert (∀ (f : Item → row) side v,
            stacked (zero_pad_sequences (f <$> items) side v) (length items)) as Hst.
  { intros f side v. rewrite <- (length_fmap f items).
    apply zero_pad_sequences_stacked. }
  repeat (split; [by apply Hst|]). split; [done|].
  intros i it' Hi. repeat split; apply zero_pad_sequences_padded_at;
    by rewrite list_lookup_fmap, Hi.
Qed.

Lemma collate_fn_fields_witness :
  ∃ b, collate_fn (aligned 1) (item_tuple <$> [item_long; item_short]) = Ok b
       ∧ b_chosen_ids b = [[0; 81; 36]; [81; 52; 36]]%Z
       ∧ stacked (b_chosen_ids b) 2 ∧ stacked (b_reject_ids b) 2.
Proof.
  destruct (collate_fn_fields (aligned 1) [item_long; item_short] ltac:(done))
    as (b & Hb & H1 & _ & H3 & _).
  exists b. split; [exact Hb|]. split; [|by split].
  vm_compute in Hb. by injection Hb as <-.
Defined.

(** ** More on packed batches *)

Lemma split_by_concat (rows : list row) (rest : row) :
  split_by (length <$> rows) (concat rows ++ rest) = rows.
Proof.
  induction rows as [|r rows IH]; [done|]. csimpl.
  rewrite <- app_assoc, take_app_length, drop_app_length. by rewrite IH.
Qed.

Lemma packing_collate_fn_unpacks self (items : list PackItem) b :
  packing_collate_fn self (pack_tuple <$> items) = Ok b →
  split_by (packed_seq_lens b) (packed_input_ids b)
  = (pk_chosen_id <$> items) ++ (pk_reject_id <$> items)
  ∧ packed_extras b = pk_extra <$> items.
Proof.
  intros H. pose proof (packing_collate_fn_tuples _ _ _ H) as Hb.
  simpl in Hb. rewrite Hb. split; [|done]. simpl.
  rewrite <- concat_app.
  replace (((fun it => length (pk_chosen_id it)) <$> items)
           ++ ((fun it => length (pk_reject_id it)) <$> items))
    with (length <$> ((pk_chosen_id <$> items) ++ (pk_reject_id <$> items)))
    by (by rewrite fmap_app, <- !list_fmap_compose).
  apply split_by_concat.
Qed.

(** X14. The recorded lengths reconstruct the batch: on a non-empty list
    of tuples of five members whose first and third member are tensors of
    shape [1, n], [packing_collate_fn] and the method of the same text of
    [QwenRewardDataset] return a batch whose packed ids, cut at
    [packed_seq_lens], give back the chosen sequences in item order
    followed by the rejected sequences in item order, whatever padding was
    appended; the extras are those of the items, in order. *)
Theorem packing_collate_fn_round_trip :
  (∀ (self : RewardDataset) (items : list PackItem),
     items ≠ [] →
     ∃ b, packing_collate_fn self (pack_tuple <$> items) = Ok b
          ∧ split_by (packed_seq_lens b) (packed_input_ids b)
            = (pk_chosen_id <$> items) ++ (pk_reject_id <$> items)
          ∧ packed_extras b = pk_extra <$> items)
  ∧ (∀ Images Pixels (self : QwenRewardDataset Images Pixels) (items : list PackItem),
       items ≠ [] →
       ∃ b, Qwen_packing_collate_fn self (pack_tuple <$> items) = Ok b
            ∧ split_by (packed_seq_lens b) (packed_input_ids b)
              = (pk_chosen_id <$> items) ++ (pk_reject_id <$> items)
            ∧ packed_extras b = pk_extra <$> items).
Proof.
  split.
  - intros self items Hne.
    destruct (packing_collate_fn_returns self items Hne) as [b Hb].
    exists b. split; [done|]. exact (packing_collate_fn_unpacks _ _ _ Hb).
  - intros Images Pixels self items Hne. unfold Qwen_packing_collate_fn.
    destruct (packing_collate_fn_returns (common self) items Hne) as [b Hb].
    exists b. split; [done|]. exact (packing_collate_fn_unpacks _ _ _ Hb).
Qed.

Lemma packing_collate_fn_round_trip_witness :
  (∃ b, packing_collate_fn (aligned 8) (pack_tuple <$> [pack_first; pack_second]) = Ok b
        ∧ split_by (packed_seq_lens b) (packed_input_ids b)
          = [[11; 12; 13]; [31; 32; 33; 34; 35]; [21; 22; 23; 24]; [41; 42]]%Z)
  ∧ (∃ b, Qwen_packing_collate_fn (aligned_patches 8)
            (pack_tuple <$> [pack_first; pack_second]) = Ok b
          ∧ split_by (packed_seq_lens b) (packed_input_ids b)
            = [[11; 12; 13]; [31; 32; 33; 34; 35]; [21; 22; 23; 24]; [41; 42]]%Z).
Proof.
  split.
  - destruct (proj1 packing_collate_fn_round_trip (aligned 8) [pack_first; pack_second]
                ltac:(discriminate)) as (b & Hb & Hsplit & _).
    exists b. split; [exact Hb | exact Hsplit].
  - destruct (proj2 packing_collate_fn_round_trip _ _ (aligned_patches 8)
                [pack_first; pack_second] ltac:(discriminate)) as (b & Hb & Hsplit & _).
    exists b. split; [exact Hb | exact Hsplit].
Defined.

(** X15. Over lists of tuples whose members are tensors of shape [1, n] or
    plain values, [packing_collate_fn] returns a batch exactly for the
    non-empty lists of tuples of five members whose first and third member
    are tensors; on the empty list the concatenation raises
    [RuntimeError]. *)
Theorem packing_collate_fn_returns_iff self item_list :
  Forall (Forall plain_member) item_list →
  (is_ok (packing_collate_fn self item_list) = true
   ↔ item_list ≠ [] ∧ ∃ items : list PackItem, item_list = pack_tuple <$> items)
  ∧ packing_collate_fn self [] = Raise RuntimeError.
Proof.
  intros _. split; [|done]. split.
  - destruct (packing_collate_fn self item_list) as [b|] eqn:H; [|done]. intros _.
    split.
    + intros ->. discriminate.
    + destruct (packing_collate_fn_Ok _ _ _ H) as (items & -> & _). eauto.
  - intros [Hne [items ->]]. apply packing_collate_fn_nonempty.
    intros ->. by apply Hne.
Qed.

(** Two tuples of five tensors and values are packed; a tuple of two
    members is refused, and so is a tuple of five members whose first
    member is [None]. *)
Lemma packing_collate_fn_returns_iff_witness :
  is_ok (packing_collate_fn (aligned 8) [pack_tuple pack_first; pack_tuple pack_second])
  = true
  ∧ is_ok (packing_collate_fn (aligned 8) [[OVal PNone; OVal PNone]]) = false
  ∧ is_ok (packing_collate_fn (aligned 8)
             [[OVal PNone; OTensor [1%Z]; OTensor [2%Z]; OTensor [1%Z]; OVal (PInt 0)]])
    = false.
Proof.
  split; [|split].
  - apply (proj2 (proj1 (packing_collate_fn_returns_iff (aligned 8)
                           [pack_tuple pack_first; pack_tuple pack_second]
                           ltac:(repeat constructor)))).
    split; [done|]. by exists [pack_first; pack_second].
  - destruct (is_ok (packing_collate_fn (aligned 8) [[OVal PNone; OVal PNone]]))
      eqn:H; [|done].
    apply (proj1 (packing_collate_fn_returns_iff (aligned 8)
                    [[OVal PNone; OVal PNone]] ltac:(repeat constructor)))
      in H as [_ [items Hitems]].
    destruct items as [|it [|]]; discriminate.
  - destruct (is_ok (packing_collate_fn (aligned 8)
             [[OVal PNone; OTensor [1%Z]; OTensor [2%Z]; OTensor [1%Z]; OVal (PInt 0)]]))
      eqn:H; [|done].
    apply (proj1 (packing_collate_fn_returns_iff (aligned 8)
                    [[OVal PNone; OTensor [1%Z]; OTensor [2%Z]; OTensor [1%Z];
                      OVal (PInt 0)]] ltac:(repeat constructor)))
      in H as [_ [items Hitems]].
    destruct items as [|it [|]]; discriminate.
Defined.

(** ** More on the clean-up of multimodal turns *)




(** ** More on the items of [QwenRewardDataset] *)

(** X17. An item returned by [QwenRewardDataset.__getitem__] is made from
    the cleaned conversations: the chat template, the vision information
    and the processor all see the conversation after the clean-up; the ids
    and the attention mask are the processor's with only the last position
    overwritten, and the pixel values and the image grid are the
    processor's, untouched.  The stored prompt is read and not used. *)
Theorem Qwen_getitem_processor_call {Images Pixels}
    (self : QwenRewardDataset Images Pixels) idx it :
  Qwen_getitem self idx = Ok it →
  ∃ chosen0 reject0 chosen reject chosen_text reject_text chosen_images reject_images,
    is_Some (prompts (common self) !! idx)
    ∧ chosens (common self) !! idx = Some chosen0
    ∧ rejects (common self) !! idx = Some reject0
    ∧ extras (common self) !! idx = Some (q_extra it)
    ∧ clean_conversation chosen0 = Ok chosen
    ∧ clean_conversation reject0 = Ok reject
    ∧ proc_render (processor self) chosen = Ok chosen_text
    ∧ vision_info (processor self) chosen = Ok chosen_images
    ∧ proc_render (processor self) reject = Ok reject_text
    ∧ vision_info (processor self) reject = Ok reject_images
    ∧ let eos := eos_token_id (tokenizer (common self)) in
      let chosen_out :=
        proc_call (processor self) chosen_text chosen_images (max_length (common self)) in
      let reject_out :=
        proc_call (processor self) reject_text reject_images (max_length (common self)) in
      q_chosen_ids it
      = <[length (out_input_ids chosen_out) - 1 := eos]> (out_input_ids chosen_out)
      ∧ q_chosen_mask it
        = <[length (out_attention_mask chosen_out) - 1 := py_True]>
            (out_attention_mask chosen_out)
      ∧ q_reject_ids it
        = <[length (out_input_ids reject_out) - 1 := eos]> (out_input_ids reject_out)
      ∧ q_reject_mask it
        = <[length (out_attention_mask reject_out) - 1 := py_True]>
            (out_attention_mask reject_out)
      ∧ q_chosen_pixel_values it = pixel_values chosen_out
      ∧ q_reject_pixel_values it = pixel_values reject_out
      ∧ q_chosen_image_grid_thw it = image_grid_thw chosen_out
      ∧ q_reject_image_grid_thw it = image_grid_thw reject_out.
Proof.
  unfold Qwen_getitem. intros H.
  apply bind_Ok in H as (prompt & Hp%py_index_Ok & H).
  apply bind_Ok in H as (chosen0 & Hc%py_index_Ok & H).
  apply bind_Ok in H as (reject0 & Hr%py_index_Ok & H).
  apply bind_Ok in H as (extra & He%py_index_Ok & H).
  apply bind_Ok in H as (chosen & Hcc & H).
  apply bind_Ok in H as (reject & Hcr & H).
  apply bind_Ok in H as (ctext & Hct & H).
  apply bind_Ok in H as (cimgs & Hci & H).
  apply bind_Ok in H as (rtext & Hrt & H).
  apply bind_Ok in H as (rimgs & Hri & H).
  apply bind_Ok in H as (cids & [-> _]%set_last_Ok & H).
  apply bind_Ok in H as (rids & [-> _]%set_last_Ok & H).
  apply bind_Ok in H as (cam & [-> _]%set_last_Ok & H).
  apply bind_Ok in H as (ram & [-> _]%set_last_Ok & H).
  apply bind_Ok in H as ([cm rm] & _ & H). injection H as <-. simpl.
  exists chosen0, reject0, chosen, reject, ctext, rtext, cimgs, rimgs.
  repeat split; eauto.
Qed.

(** The entry with the null text is rendered without it. *)
Lemma Qwen_getitem_processor_call_witness :
  ∃ it,
    Qwen_getitem
      (one_conversation 20 None
         [Turn "u" (CParts [image_entry (AStr "cat.png") ANone;
                            text_entry_with_image "hi" ANone])]
         [says "u" "no"]) 0 = Ok it
    ∧ ∃ chosen,
        clean_conversation
          (PConv [Turn "u" (CParts [image_entry (AStr "cat.png") ANone;
                                    text_entry_with_image "hi" ANone])]) = Ok chosen
        ∧ proc_render char_processor chosen = Ok "u:hi$"
        ∧ q_chosen_ids it = [117; 58; 104; 105; 36]%Z.
Proof.
  eexists. split; [vm_compute; reflexivity|].
  destruct (Qwen_getitem_processor_call
              (one_conversation 20 None
                 [Turn "u" (CParts [image_entry (AStr "cat.png") ANone;
                                    text_entry_with_image "hi" ANone])]
                 [says "u" "no"]) 0 _ eq_refl)
    as (c0 & r0 & c & r & ct & rt & ci & ri & _ & Hc0 & _ & _ & Hclean & _ & Hrender & _).
  injection Hc0 as <-. exists c. split; [exact Hclean|]. split; [|reflexivity].
  vm_compute in Hclean. injection Hclean as <-. vm_compute; reflexivity.
Defined.

(** X18. [QwenRewardDataset.collate_fn] on a non-empty list of items of
    [__getitem__] returns all six padded fields, the loss masks of the
    rejected side among them, as stacks with one row per item and rows of
    one length per field, the row of an item being, in each of the six
    fields, its sequence with pad values (the pad token for the ids, [0]
    for the attention masks and the loss masks) on the right in DPO mode
    and on the left otherwise; pixel
    values and image grids are the concatenations, in item order, of those
    of the items, and the extras come in item order. *)
Theorem Qwen_collate_fn_fields {Images Patch}
    (self : QwenRewardDataset Images (list Patch))
    (items : list (QwenItem (list Patch))) :
  items ≠ [] →
  ∃ b, Qwen_collate_fn self items = Ok b
       ∧ stacked (qb_chosen_ids b) (length items)
       ∧ stacked (qb_chosen_masks b) (length items)
       ∧ stacked (qb_reject_ids b) (length items)
       ∧ stacked (qb_rejects_masks b) (length items)
       ∧ stacked (qb_chosen_loss_masks b) (length items)
       ∧ stacked (qb_reject_loss_masks b) (length items)
       ∧ qb_chosen_pixel_values b = concat (q_chosen_pixel_values <$> items)
       ∧ qb_reject_pixel_values b = concat (q_reject_pixel_values <$> items)
       ∧ qb_chosen_image_thw b = concat (q_chosen_image_grid_thw <$> items)
       ∧ qb_reject_image_thw b = concat (q_reject_image_grid_thw <$> items)
       ∧ qb_extras b = q_extra <$> items
       ∧ ∀ i it, items !! i = Some it →
           let side := if is_dpo (common self) then PadRight else PadLeft in
           let pad := pad_token_id (tokenizer (common self)) in
           padded_at (qb_chosen_ids b) i (q_chosen_ids it) side pad
           ∧ padded_at (qb_chosen_masks b) i (q_chosen_mask it) side 0
           ∧ padded_at (qb_reject_ids b) i (q_reject_ids it) side pad
           ∧ padded_at (qb_rejects_masks b) i (q_reject_mask it) side 0
           ∧ padded_at (qb_chosen_loss_masks b) i (q_chosen_loss_mask it) side 0
           ∧ padded_at (qb_reject_loss_masks b) i (q_reject_loss_mask it) side 0.
Proof.
  intros Hne. unfold Qwen_collate_fn.
  assert (∀ A (f : QwenItem (list Patch) → list A),
            torch_concatenate (f <$> items) = Ok (concat (f <$> items))) as Hcat.
  { intros A f. by destruct items. }
  rewrite !Hcat. simpl. eexists. split; [reflexivity|]. simpl.
  assert (∀ (f : QwenItem (list Patch) → row) side v,
            stacked (zero_pad_sequences (f <$> items) side v) (length items)) as Hst.
  { intros f side v. rewrite <- (length_fmap f items).
    apply zero_pad_sequences_stacked. }
  repeat (split; [by apply Hst|]). repeat (split; [done|]).
  intros i it Hi. repeat split; apply zero_pad_sequences_padded_at;
    by rewrite list_lookup_fmap, Hi.
Qed.

(** The items whose rejected loss masks [RewardDataset.collate_fn] loses:
    here both rows come back, padded on the left. *)
Lemma Qwen_collate_fn_fields_witness :
  ∃ b, Qwen_collate_fn patch_dataset [patch_item_long; patch_item_short] = Ok b
       ∧ qb_reject_loss_masks b = [[0; 1; 1; 1]; [0; 0; 1; 1]]%Z
       ∧ qb_chosen_pixel_values b = [7; 8; 5]%Z
       ∧ stacked (qb_reject_loss_masks b) 2.
Proof.
  destruct (Qwen_collate_fn_fields patch_dataset [patch_item_long; patch_item_short]
              ltac:(done)) as (b & Hb & _ & _ & _ & _ & _ & H6 & _).
  exists b. split; [exact Hb|]. vm_compute in Hb. injection Hb as <-.
  split; [reflexivity|]. split; [reflexivity | exact H6].
Defined.

(** ** From [__init__] to [__getitem__] *)

Lemma RewardDataset_getitem_extra self idx it :
  RewardDataset_getitem self idx = Ok it → extras self !! idx = Some (item_extra it).
Proof.
  unfold RewardDataset_getitem. intros H.
  do 3 (apply bind_Ok in H as (? & _ & H)).
  apply bind_Ok in H as (extra & He%py_index_Ok & H). rewrite He. f_equal.
  do 6 (apply bind_Ok in H as (? & _ & H)).
  destruct (response_template self).
  - apply bind_Ok in H as ([? ?] & _ & H). apply bind_Ok in H as ([? ?] & _ & H).
    by injection H as <-.
  - by injection H as <-.
Qed.

Lemma RewardDataset_init_Ok dataset tk max_len args input_tpl dpo mult response_tpl ds :
  RewardDataset_init dataset tk max_len args input_tpl dpo mult response_tpl = Ok ds →
  let self := configure tk max_len args input_tpl dpo mult response_tpl in
  ∃ processed,
    mapM_result (process_data self) dataset = Ok processed
    ∧ ds = store self (filter (fun x => prompt_is_not_none x = true) processed).
Proof.
  intros H self. unfold RewardDataset_init in H. inv_bind H.
  destruct dataset; [done|]. injection H as <-. eauto.
Qed.

(** X19. In a dataset that [__init__] built in DPO mode, every item that
    [__getitem__] returns at an index has, at that index, a stored prompt
    that is a string; the extra of the item is the token count of that
    prompt, the sum of the attention mask of its tokenization by the
    tokenizer of the dataset, truncated at [max_length]; and the count is
    below [max_length - 2]: the over-long prompts are gone before any item
    is built. *)
Theorem RewardDataset_dpo_items_leave_room dataset tk max_len args input_tpl mult
    response_tpl ds idx it :
  RewardDataset_init dataset tk max_len args input_tpl true mult response_tpl = Ok ds →
  RewardDataset_getitem ds idx = Ok it →
  ∃ prompt,
    prompts ds !! idx = Some (PStr prompt)
    ∧ let prompt_ids_len :=
        int_sum (attention_mask (tok_call (tokenizer ds) prompt (Some max_len))) in
      item_extra it = PInt prompt_ids_len
      ∧ (prompt_ids_len < max_len - 2)%Z.
Proof.
  intros Hinit Hitem.
  destruct (RewardDataset_init_Ok _ _ _ _ _ _ _ _ _ Hinit) as (processed & Hmap & ->).
  apply RewardDataset_getitem_extra in Hitem. simpl in Hitem.
  apply list_lookup_fmap_Some in Hitem as (x & Hex & Hx). rewrite Hex.
  simpl. rewrite list_lookup_fmap, Hx. simpl.
  apply list_elem_of_lookup_2, list_elem_of_filter in Hx as [Hnone Hin].
  apply prompt_is_not_none_true in Hnone.
  destruct (mapM_result_elem_of _ _ _ _ Hmap Hin) as (data & _ & Hdata).
  destruct (process_data_dpo
              (configure tk max_len args input_tpl true mult response_tpl) data x
              eq_refl Hdata) as (n & tok & _ & Htok & Hiff & Hkeep & Hextra).
  simpl in Hiff, Hkeep, Htok.
  assert (int_sum (attention_mask tok) < max_len - 2)%Z as Hlt.
  { destruct (decide (max_len - 2 ≤ int_sum (attention_mask tok))%Z) as [Hle|]; [|lia].
    by apply Hiff in Hle. }
  rewrite (Hkeep Hlt), Hextra.
  unfold tokenize_value in Htok. destruct (n_prompt n) as [| |prompt|]; try discriminate.
  injection Htok as <-. by exists prompt.
Qed.

Lemma RewardDataset_dpo_items_leave_room_witness :
  ∃ ds it,
    RewardDataset_init
      [raw_record "Q: 2+2?" "A: 4" "A: 5"; raw_record "Q: what is 2+2?" "A: 4" "A: 5"]
      char_tokenizer 12 plain_args None true 1 None = Ok ds
    ∧ RewardDataset_getitem ds 0 = Ok it
    ∧ ∃ prompt,
        prompts ds !! 0 = Some (PStr prompt)
        ∧ let prompt_ids_len :=
            int_sum (attention_mask (tok_call (tokenizer ds) prompt (Some 12%Z))) in
          item_extra it = PInt prompt_ids_len
          ∧ (prompt_ids_len < 12 - 2)%Z.
Proof.
  destruct (RewardDataset_init
              [raw_record "Q: 2+2?" "A: 4" "A: 5";
               raw_record "Q: what is 2+2?" "A: 4" "A: 5"]
              char_tokenizer 12 plain_args None true 1 None) as [ds|] eqn:Hinit;
    [|vm_compute in Hinit; discriminate].
  destruct (RewardDataset_getitem ds 0) as [it|] eqn:Hitem.
  - exists ds, it. split; [done|]. split; [done|].
    exact (RewardDataset_dpo_items_leave_room _ _ _ _ _ _ _ _ _ _ Hinit Hitem).
  - exfalso. vm_compute in Hinit. injection Hinit as <-.
    vm_compute in Hitem. discriminate.
Defined.

Lemma filter_all {A} (P : A → Prop) `{!∀ x, Decision (P x)} (l : list A) :
  (∀ x, x ∈ l → P x) → filter P l = l.
Proof.
  induction l as [|x l IH]; intros Hall; [done|].
  rewrite filter_cons_True by (apply Hall; by left).
  f_equal. apply IH. intros y Hy. apply Hall. by right.
Qed.

Lemma mapM_result_lookup {A B} (f : A → result B) l bs i a :
  mapM_result f l = Ok bs → l !! i = Some a → ∃ b, bs !! i = Some b ∧ f a = Ok b.
Proof.
  revert bs i; induction l as [|x l IH]; intros bs i H Hi; [done|].
  simpl in H. apply bind_Ok in H as (b & Hb & H). apply bind_Ok in H as (bs' & Hbs & H).
  injection H as <-. destruct i as [|i]; simpl in *.
  - injection Hi as ->. eauto.
  - by eapply IH.
Qed.

(** X20. Outside DPO mode, with the chat template applied, [__init__]
    keeps every record it could process, in order: the dataset is as long
    as the raw one, and the extra at an index is the margin of the record
    at that index, [0] when it has none. *)
Theorem RewardDataset_init_keeps_all dataset tk max_len args input_tpl mult
    response_tpl ds :
  arg_apply_chat_template args = true →
  RewardDataset_init dataset tk max_len args input_tpl false mult response_tpl = Ok ds →
  RewardDataset_len ds = length dataset
  ∧ ∀ i data, dataset !! i = Some data →
      (data !! "margin" = None → extras ds !! i = Some (PInt 0))
      ∧ (∀ v, data !! "margin" = Some v → v ≠ PNone → extras ds !! i = Some v).
Proof.
  intros Hflag Hinit.
  destruct (RewardDataset_init_Ok _ _ _ _ _ _ _ _ _ Hinit) as (processed & Hmap & ->).
  set (self := configure tk max_len args input_tpl false mult response_tpl) in *.
  assert (∀ data x, process_data self data = Ok x →
            prompt_is_not_none x = true
            ∧ p_extra x = if exist_and_not_none data "margin"
                          then default PNone (data !! "margin") else PInt 0)
    as Hproc.
  { intros data x H. unfold process_data in H. simpl in H.
    apply bind_Ok in H as (n & Hn & H). injection H as <-. simpl.
    destruct (preprocess_data_prompt _ _ _ _ _ _ _ _ Hn) as [Hp _].
    unfold chat_renderer in Hp. simpl in Hp. rewrite Hflag in Hp.
    destruct Hp as [s Hs]. split.
    - unfold prompt_is_not_none. simpl. by rewrite Hs.
    - by apply preprocess_data_margin in Hn. }
  rewrite filter_all.
  - split.
    + unfold RewardDataset_len. simpl. rewrite length_fmap.
      by apply mapM_result_length in Hmap.
    + intros i data Hi.
      destruct (mapM_result_lookup _ _ _ _ _ Hmap Hi) as (x & Hx & Hfx).
      destruct (Hproc _ _ Hfx) as [_ Hextra]. simpl.
      rewrite list_lookup_fmap, Hx. simpl. rewrite Hextra.
      unfold exist_and_not_none. split.
      * by intros ->.
      * intros v -> Hv. by destruct v.
  - intros x Hx. destruct (mapM_result_elem_of _ _ _ _ Hmap Hx) as (data & _ & Hdata).
    by destruct (Hproc _ _ Hdata).
Qed.

Lemma RewardDataset_init_keeps_all_witness :
  ∃ ds,
    RewardDataset_init
      [raw_record "Q: 2+2?" "A: 4" "A: 5";
       with_field "margin" (PInt 3) (raw_record "Q: what is 2+2?" "A: 4" "A: 5")]
      char_tokenizer 10 chat_args None false 1 None = Ok ds
    ∧ RewardDataset_len ds = 2
    ∧ extras ds !! 0 = Some (PInt 0) ∧ extras ds !! 1 = Some (PInt 3).
Proof.
  destruct (RewardDataset_init
              [raw_record "Q: 2+2?" "A: 4" "A: 5";
               with_field "margin" (PInt 3)
                 (raw_record "Q: what is 2+2?" "A: 4" "A: 5")]
              char_tokenizer 10 chat_args None false 1 None) as [ds|] eqn:Hinit;
    [|vm_compute in Hinit; discriminate].
  exists ds. split; [done|].
  destruct (RewardDataset_init_keeps_all _ _ _ chat_args _ _ _ _ eq_refl Hinit)
    as [Hlen Hex].
  split; [exact Hlen|]. split.
  - apply (proj1 (Hex 0 _ eq_refl)). vm_compute; reflexivity.
  - apply (proj2 (Hex 1 _ eq_refl) (PInt 3)); [vm_compute; reflexivity | done].
Defined.
